(** * cmaker: campaign asset pipeline, shallow embedding and checked properties

    The development follows the Python sources under [src/cmaker]:
    - [campaign_processing.py]: product-name sanitisation, language codes,
      the per-campaign driver and the completion marker;
    - [campaign_loading.py]: the brief loader;
    - [image_processing.py]: ratio cropping and the text overlay;
    - [image_generation.py]: outpainting and its temporary files.

    Python [str] values are modelled by [string]; a character is a code
    point below 256, for which the whitespace class and the lower-casing
    below are exactly the ones CPython uses. Language names with
    characters beyond them are treated in [Wide]. *)

From Stdlib Require Import ZArith NArith Ascii String List Bool Lia.
From stdpp Require Import base option list gmap strings fin_maps pretty.

Local Open Scope string_scope.

(** ** Characters and strings as Python sees them *)

Module PyStr.

Definition code (c : ascii) : N := N_of_ascii c.

Definition between (lo hi : N) (c : ascii) : bool :=
  ((lo <=? code c) && (code c <=? hi))%N.

(** [str.isspace] / the regex class [\s] on code points below 256:
    TAB..CR, FS..US, SPACE, NEL (0x85) and NBSP (0xA0). *)
Definition isspace (c : ascii) : bool :=
  between 9 13 c || between 28 32 c || (code c =? 133)%N || (code c =? 160)%N.

Definition is_upper_ascii (c : ascii) : bool := between 65 90 c.
Definition is_lower_ascii (c : ascii) : bool := between 97 122 c.
Definition is_digit (c : ascii) : bool := between 48 57 c.

(** [str.lower] on one code point below 256: A-Z and the Latin-1 capitals
    (0xC0..0xDE without the multiplication sign 0xD7) move up by 32. *)
Definition lower_char (c : ascii) : ascii :=
  if is_upper_ascii c || (between 192 222 c && negb (code c =? 215)%N)
  then ascii_of_N (code c + 32)
  else c.

(** [s.lower()] for a text of code points below 256: one character for
    each. Above 255 this fails (U+0130 becomes two code points); [Wide]
    covers such a text where a property depends on it. *)
Fixpoint lower (s : string) : string :=
  match s with
  | EmptyString => EmptyString
  | String c s' => String (lower_char c) (lower s')
  end.

(** [s[:n]] *)
Fixpoint take (n : nat) (s : string) : string :=
  match n, s with
  | S n', String c s' => String c (take n' s')
  | _, _ => EmptyString
  end.

(** [re.sub(r"[^...]", "", s)] for a character class given by [keep]. *)
Fixpoint keep_chars (keep : ascii -> bool) (s : string) : string :=
  match s with
  | EmptyString => EmptyString
  | String c s' =>
      if keep c then String c (keep_chars keep s') else keep_chars keep s'
  end.

Fixpoint lstrip (s : string) : string :=
  match s with
  | EmptyString => EmptyString
  | String c s' => if isspace c then lstrip s' else s
  end.

Fixpoint rstrip (s : string) : string :=
  match s with
  | EmptyString => EmptyString
  | String c s' =>
      match rstrip s' with
      | EmptyString => if isspace c then EmptyString else String c EmptyString
      | r => String c r
      end
  end.

(** [s.strip()] *)
Definition strip (s : string) : string := rstrip (lstrip s).

(** [re.sub(r"\s+", repl, s)] for a one-character replacement: every
    maximal run of whitespace becomes one [repl]. [in_run] tells that the
    previous character belonged to a run already replaced. *)
Fixpoint sub_space_runs (repl : ascii) (in_run : bool) (s : string) : string :=
  match s with
  | EmptyString => EmptyString
  | String c s' =>
      if isspace c
      then (if in_run then sub_space_runs repl true s'
            else String repl (sub_space_runs repl true s'))
      else String c (sub_space_runs repl false s')
  end.

Fixpoint all_chars (P : ascii -> bool) (s : string) : bool :=
  match s with
  | EmptyString => true
  | String c s' => P c && all_chars P s'
  end.

Fixpoint last_char (s : string) : option ascii :=
  match s with
  | EmptyString => None
  | String c s' =>
      match last_char s' with
      | None => Some c
      | Some d => Some d
      end
  end.

End PyStr.

(** ** [CampaignProcessor._sanitize_product_name] *)

Module Sanitize.
Import PyStr.

(** The class [[a-zA-Z0-9\s-]]: what the first substitution keeps. *)
Definition kept (c : ascii) : bool :=
  is_lower_ascii c || is_upper_ascii c || is_digit c || isspace c
  || Ascii.eqb c "-"%char.

Definition _sanitize_product_name (product : string) : string :=
  let sanitized := keep_chars kept product in
  let sanitized := sub_space_runs "_"%char false (strip sanitized) in
  lower sanitized.

Definition is_underscore (c : ascii) : bool := Ascii.eqb c "_"%char.


(** What a sanitised name is made of: [a-z], digits, hyphen, underscore. *)
Definition safe (c : ascii) : bool :=
  is_lower_ascii c || is_digit c || Ascii.eqb c "-"%char || is_underscore c.

(** What is left after the whitespace runs are replaced. *)
Definition unspaced (c : ascii) : bool :=
  (kept c && negb (isspace c)) || is_underscore c.




End Sanitize.

(** ** [CampaignProcessor._get_language_code] *)

Module LanguageCode.
Import PyStr.

Definition language_table : list (string * string) :=
  [ ("English", "en"); ("German", "de"); ("French", "fr"); ("Spanish", "es");
    ("Italian", "it"); ("Portuguese", "pt"); ("Dutch", "nl"); ("Russian", "ru");
    ("Chinese", "zh"); ("Japanese", "ja"); ("Korean", "ko") ].

Definition language_codes : gmap string string := list_to_map language_table.

(** [language_codes.get(language, language.lower()[:2])], for a name of
    code points below 256. *)
Definition _get_language_code (language : string) : string :=
  default (take 2 (lower language)) (language_codes !! language).

End LanguageCode.

(** ** Language names beyond Latin-1 *)

Module Wide.
Import PyStr LanguageCode.

(** A character: a code point below 256, U+0130 (capital I with dot
    above) or U+0307 (combining dot above). [str.lower] sends a code point
    below 256 to one code point below 256, U+0307 to itself and U+0130 to
    the two code points i, U+0307, whatever stands around them; on a text
    over this alphabet it is [lower] below. *)
Inductive uchar : Type :=
| Latin (c : ascii)
| CapitalIDot
| CombiningDot.

Definition text : Type := list uchar.

Definition lower_uchar (u : uchar) : text :=
  match u with
  | Latin c => [Latin (lower_char c)]
  | CapitalIDot => [Latin "i"%char; CombiningDot]
  | CombiningDot => [CombiningDot]
  end.

(** [s.lower()] *)
Definition lower (s : text) : text := flat_map lower_uchar s.

(** [s[:n]] *)
Definition take (n : nat) (s : text) : text := firstn n s.

(** A Latin-1 string as a text, and back. *)
Fixpoint widen (s : string) : text :=
  match s with
  | EmptyString => []
  | String c s' => Latin c :: widen s'
  end.

Fixpoint narrow (s : text) : option string :=
  match s with
  | [] => Some EmptyString
  | Latin c :: s' =>
      match narrow s' with
      | Some r => Some (String c r)
      | None => None
      end
  | _ :: _ => None
  end.

(** [language_codes.get(language, language.lower()[:2])]: the keys and
    the codes of the table are Latin-1 strings. *)
Definition _get_language_code (language : text) : text :=
  let fallback := take 2 (lower language) in
  match narrow language with
  | Some name =>
      match language_codes !! name with
      | Some code => widen code
      | None => fallback
      end
  | None => fallback
  end.

(** The Turkish word for English, with its dotted capital. *)
Definition ingilizce : text := CapitalIDot :: widen "ngilizce".

End Wide.

(** ** [Config] *)

Module Config.
Definition CANVAS_SIZE : Z * Z := (1024, 1024)%Z.
Definition FONT_SIZE : Z := 48.
Definition TEXT_OPACITY : Z := 200.
(** [MARGIN_PERCENTAGE = 0.05], kept as the fraction 5/100. *)
Definition MARGIN_PERCENTAGE : Z * Z := (5, 100)%Z.
Definition FONT_PATHS : list string :=
  ["/System/Library/Fonts/Helvetica.ttc"; "/System/Library/Fonts/Arial.ttf"].
Definition CAMPAIGNS_DIR : string := "campaigns".
Definition RESULTS_DIR : string := "results".
Definition ASSETS_DIR : string := "assets".
Definition BRIEF_FILE : string := "brief.yaml".
Definition MAX_DALLE_PROMPT_LENGTH : nat := 800.
Definition SAVE_MASK : bool := true.
End Config.

(** ** Values read from YAML files *)

Module Yaml.

#[warnings="-register-all"]
Inductive yaml : Type :=
| YNull
| YBool (b : bool)
| YInt (n : Z)
| YStr (s : string)
| YList (items : list yaml)
| YDict (fields : list (string * yaml)).

(** A Python [dict] with string keys, in insertion order. Mappings with
    keys of another type are not modelled. *)
Definition dict : Type := list (string * yaml).

(** [d.get(k)] *)
Fixpoint dict_get (k : string) (d : dict) : option yaml :=
  match d with
  | [] => None
  | (k', v) :: d' => if String.eqb k' k then Some v else dict_get k d'
  end.

(** [d[k] = v]: an existing key keeps its place, a new one goes last. *)
Fixpoint dict_set (k : string) (v : yaml) (d : dict) : dict :=
  match d with
  | [] => [(k, v)]
  | (k', v') :: d' =>
      if String.eqb k' k then (k, v) :: d' else (k', v') :: dict_set k v d'
  end.

(** Python truth value. *)
Definition truthy (v : yaml) : bool :=
  match v with
  | YNull => false
  | YBool b => b
  | YInt n => negb (n =? 0)%Z
  | YStr s => negb (String.eqb s "")
  | YList items => match items with [] => false | _ => true end
  | YDict fields => match fields with [] => false | _ => true end
  end.

(** [v == s] for a string literal [s]. *)
Definition eq_str (v : yaml) (s : string) : bool :=
  match v with
  | YStr t => String.eqb t s
  | _ => false
  end.

Fixpoint chars (s : string) : list yaml :=
  match s with
  | EmptyString => []
  | String c s' => YStr (String c EmptyString) :: chars s'
  end.

Fixpoint join (sep : string) (parts : list string) : string :=
  match parts with
  | [] => ""
  | [p] => p
  | p :: rest => p +:+ sep +:+ join sep rest
  end.

Definition show_Z (n : Z) : string := pretty n.

(** [repr(v)], as an f-string prints the items of a list or dict. *)
Fixpoint repr (v : yaml) : string :=
  match v with
  | YNull => "None"
  | YBool true => "True"
  | YBool false => "False"
  | YInt n => show_Z n
  | YStr s => "'" +:+ s +:+ "'"
  | YList items => "[" +:+ join ", " (map repr items) +:+ "]"
  | YDict fields =>
      "{" +:+ join ", " (map (fun kv => "'" +:+ fst kv +:+ "': " +:+ repr (snd kv)) fields)
      +:+ "}"
  end.

(** [str(v)], what [f"{v}"] prints. *)
Definition str (v : yaml) : string :=
  match v with
  | YStr s => s
  | _ => repr v
  end.

End Yaml.

(** ** Images *)

Module Img.

(** Band values of one pixel: one for mode L, four for RGBA. *)
Definition pixel : Type := list Z.

Record image : Type := Image {
  mode : string;
  width : Z;
  height : Z;
  pixel_at : Z -> Z -> pixel
}.

Definition size (im : image) : Z * Z := (width im, height im).

(** [Image.new(mode, size, color)] *)
Definition new (m : string) (sz : Z * Z) (color : pixel) : image :=
  {| mode := m; width := fst sz; height := snd sz; pixel_at := fun _ _ => color |}.

Definition inside (im : image) (x y : Z) : bool :=
  ((0 <=? x) && (x <? width im) && (0 <=? y) && (y <? height im))%Z.

(** [ImageDraw.Draw(im).rectangle([x0, y0, x1, y1], fill)]: both corners
    belong to the rectangle. *)
Definition rectangle (box : Z * Z * Z * Z) (fill : pixel) (im : image) : image :=
  let '(x0, y0, x1, y1) := box in
  {| mode := mode im; width := width im; height := height im;
     pixel_at := fun x y =>
       if ((x0 <=? x) && (x <=? x1) && (y0 <=? y) && (y <=? y1))%Z
       then fill else pixel_at im x y |}.

End Img.

(** ** The world the program runs in: disk, image objects, clock, log *)

Module Effects.
Import Yaml Img.

Inductive exn : Type :=
| YAMLError
| AttributeError
| TypeError
| KeyError (key : string)
| IndexError
| ValueError (msg : string)
| FileExistsError (path : string)
| FileNotFoundError (path : string)
| IsADirectoryError (path : string)
| NotADirectoryError (path : string)
| UnicodeDecodeError
| UnidentifiedImageError
| APIError (msg : string)
| NoSuchObject.

(** [isinstance(e, yaml.YAMLError)] *)
Definition is_yaml_error (e : exn) : bool :=
  match e with YAMLError => true | _ => false end.

(** [isinstance(e, IndexError)] *)
Definition is_index_error (e : exn) : bool :=
  match e with IndexError => true | _ => false end.

(** [isinstance(e, Exception)] *)
Definition is_exception (e : exn) : bool := true.

Definition exn_str (e : exn) : string :=
  match e with
  | YAMLError => "YAMLError"
  | AttributeError => "AttributeError"
  | TypeError => "TypeError"
  | KeyError k => "'" +:+ k +:+ "'"
  | IndexError => "IndexError"
  | ValueError msg => msg
  | FileExistsError p => "File exists: '" +:+ p +:+ "'"
  | FileNotFoundError p => "No such file or directory: '" +:+ p +:+ "'"
  | IsADirectoryError p => "Is a directory: '" +:+ p +:+ "'"
  | NotADirectoryError p => "Not a directory: '" +:+ p +:+ "'"
  | UnicodeDecodeError => "UnicodeDecodeError"
  | UnidentifiedImageError => "cannot identify image file"
  | APIError msg => msg
  | NoSuchObject => "no such object"
  end.

(** A file is a text, given by what [yaml.safe_load] makes of it ([None]
    when it raises [yaml.YAMLError]), or a PNG picture. *)
Inductive content : Type :=
| YamlText (parsed : option yaml)
| PngImage (im : image).

Inductive node : Type :=
| Dir
| File (data : content).

Inductive level : Type := DEBUG | INFO | WARNING | ERROR.

Record world : Type := World {
  files : gmap string node;        (* the disk, by path *)
  heap : gmap positive image;      (* live [PIL.Image] objects *)
  api_calls : nat;                 (* remote requests made so far *)
  now : string;                    (* [datetime.now().isoformat()] *)
  log : list (level * string)      (* logger calls, oldest first *)
}.

Definition with_files (f : gmap string node) (w : world) : world :=
  World f (heap w) (api_calls w) (now w) (log w).
Definition with_heap (h : gmap positive image) (w : world) : world :=
  World (files w) h (api_calls w) (now w) (log w).
Definition with_log (l : list (level * string)) (w : world) : world :=
  World (files w) (heap w) (api_calls w) (now w) l.
Definition count_call (w : world) : world :=
  World (files w) (heap w) (S (api_calls w)) (now w) (log w).

Inductive result (A : Type) : Type :=
| Returned (a : A)
| Raised (e : exn).
Arguments Returned {A} a.
Arguments Raised {A} e.

(** A Python statement sequence: it reads and changes the world and either
    returns a value or raises. *)
Definition M (A : Type) : Type := world -> result A * world.

Definition ret {A} (a : A) : M A := fun w => (Returned a, w).
Definition raise {A} (e : exn) : M A := fun w => (Raised e, w).
Definition bind {A B} (m : M A) (k : A -> M B) : M B :=
  fun w =>
    match m w with
    | (Returned a, w') => k a w'
    | (Raised e, w') => (Raised e, w')
    end.

(** [try: body  except <catches> as e: handler e] *)
Definition try_except {A} (body : M A) (catches : exn -> bool)
    (handler : exn -> M A) : M A :=
  fun w =>
    match body w with
    | (Returned a, w') => (Returned a, w')
    | (Raised e, w') => if catches e then handler e w' else (Raised e, w')
    end.

Definition logger (lv : level) (msg : string) : M unit :=
  fun w => (Returned tt, with_log (log w ++ [(lv, msg)])%list w).

Definition path_join (a b : string) : string := a +:+ "/" +:+ b.

(** [Path(p).exists()] *)
Definition path_exists (p : string) : M bool :=
  fun w => (Returned (match files w !! p with Some _ => true | None => false end), w).

(** [Path(p).is_dir()] *)
Definition is_dir (p : string) : M bool :=
  fun w => (Returned (match files w !! p with Some Dir => true | _ => false end), w).

(** [with open(p, "r") as f: yaml.safe_load(f)] *)
Definition safe_load_file (p : string) : M yaml :=
  fun w =>
    match files w !! p with
    | Some (File (YamlText (Some doc))) => (Returned doc, w)
    | Some (File (YamlText None)) => (Raised YAMLError, w)
    | Some (File (PngImage _)) => (Raised UnicodeDecodeError, w)
    | Some Dir => (Raised (IsADirectoryError p), w)
    | None => (Raised (FileNotFoundError p), w)
    end.

(** Opening [p] for writing and storing [data]; only a directory in the
    way makes it fail (parent folders are taken to exist). *)
Definition write_file (p : string) (data : content) : M unit :=
  fun w =>
    match files w !! p with
    | Some Dir => (Raised (IsADirectoryError p), w)
    | _ => (Returned tt, with_files (<[p := File data]> (files w)) w)
    end.

(** [Path(p).mkdir(exist_ok=True)] *)
Definition mkdir_exist_ok (p : string) : M unit :=
  fun w =>
    match files w !! p with
    | Some Dir => (Returned tt, w)
    | Some (File _) => (Raised (FileExistsError p), w)
    | None => (Returned tt, with_files (<[p := Dir]> (files w)) w)
    end.

(** [os.remove(p)] *)
Definition os_remove (p : string) : M unit :=
  fun w =>
    match files w !! p with
    | Some (File _) => (Returned tt, with_files (delete p (files w)) w)
    | Some Dir => (Raised (IsADirectoryError p), w)
    | None => (Raised (FileNotFoundError p), w)
    end.

Fixpoint strip_prefix (pre s : string) : option string :=
  match pre with
  | EmptyString => Some s
  | String c pre' =>
      match s with
      | String d s' => if Ascii.eqb c d then strip_prefix pre' s' else None
      | EmptyString => None
      end
  end.

Definition is_slash (c : ascii) : bool := Ascii.eqb c "/"%char.

(** The name of [key] when it lies directly under [dir]. *)
Definition child_name (dir key : string) : option string :=
  match strip_prefix (dir +:+ "/") key with
  | Some name =>
      if String.eqb name "" || negb (PyStr.all_chars (fun c => negb (is_slash c)) name)
      then None else Some name
  | None => None
  end.

(** [Path(dir).iterdir()]: the entries of [dir], in the order the disk
    holds them (no order is promised). *)
Definition iterdir (dir : string) : M (list string) :=
  fun w =>
    match files w !! dir with
    | Some Dir => (Returned (omap (child_name dir) (map_to_list (files w)).*1), w)
    | Some (File _) => (Raised (NotADirectoryError dir), w)
    | None => (Raised (FileNotFoundError dir), w)
    end.

(** A new image object. *)
Definition alloc (im : image) : M positive :=
  fun w =>
    let l := fresh (dom (heap w)) in
    (Returned l, with_heap (<[l := im]> (heap w)) w).

(** The image an object holds now. *)
Definition deref (l : positive) : M image :=
  fun w =>
    match heap w !! l with
    | Some im => (Returned im, w)
    | None => (Raised NoSuchObject, w)
    end.

(** In-place change of an image object. *)
Definition mutate (l : positive) (f : image -> image) : M unit :=
  fun w =>
    match heap w !! l with
    | Some im => (Returned tt, with_heap (<[l := f im]> (heap w)) w)
    | None => (Raised NoSuchObject, w)
    end.

(** [datetime.now().isoformat()] *)
Definition isoformat_now : M string := fun w => (Returned (now w), w).

End Effects.

Declare Scope py_scope.
Delimit Scope py_scope with py.
Notation "'let*' x ':=' m 'in' k" := (Effects.bind m (fun x => k))
  (at level 10, x pattern, m at level 100, k at level 200) : py_scope.
Notation "m ';;' k" := (Effects.bind m (fun _ => k))
  (at level 100, k at level 200, right associativity) : py_scope.
Notation "a </> b" := (Effects.path_join a b) (at level 50, left associativity) : py_scope.

Local Open Scope py_scope.

(** ** [campaign_loading.py]: [CampaignLoader] *)

Module Loader.
Import Yaml Effects.

(** [meta_data and meta_data.get("status", "") == "done"], as a truth
    value; [.get] exists on mappings only. *)
Definition reports_done (meta_data : yaml) : M bool :=
  if truthy meta_data then
    match meta_data with
    | YDict fields => ret (eq_str (default (YStr "") (dict_get "status" fields)) "done")
    | _ => raise AttributeError
    end
  else ret false.

(** The marker of the campaign folder says [status: done]. *)
Definition marked_done (w : world) (campaign_dir : string) : bool :=
  match files w !! (campaign_dir </> "meta.yaml") with
  | Some (File (YamlText (Some (YDict fields)))) =>
      eq_str (default (YStr "") (dict_get "status" fields)) "done"
  | _ => false
  end.

(** The completed-campaign check lets the folder through without raising:
    no marker, a marker that is not YAML, one whose document is empty or
    false, or a mapping whose status is not done. *)
Definition marker_lets_through (w : world) (campaign_dir : string) : bool :=
  match files w !! (campaign_dir </> "meta.yaml") with
  | None => true
  | Some (File (YamlText None)) => true
  | Some (File (YamlText (Some doc))) =>
      negb (truthy doc)
      || match doc with
         | YDict fields => negb (eq_str (default (YStr "") (dict_get "status" fields)) "done")
         | _ => false
         end
  | _ => false
  end.

(** The name and the folder a loaded brief carries. *)
Definition brief_name (brief : yaml) : option yaml :=
  match brief with
  | YDict fields => dict_get "campaign_name" fields
  | _ => None
  end.

Definition brief_path (brief : yaml) : option yaml :=
  match brief with
  | YDict fields => dict_get "campaign_path" fields
  | _ => None
  end.

(** What a loaded brief is: it carries the name and path of a folder
    that the completed-campaign check let through. *)
Definition loaded_from (w : world) (campaigns_dir name : string) (b : yaml) : Prop :=
  brief_name b = Some (YStr name)
  /\ brief_path b = Some (YStr (campaigns_dir </> name))
  /\ marker_lets_through w (campaigns_dir </> name) = true.

(** [brief_data[key] = value] *)
Definition setitem (brief_data : yaml) (key : string) (value : yaml) : M yaml :=
  match brief_data with
  | YDict fields => ret (YDict (dict_set key value fields))
  | _ => raise TypeError
  end.

(** The completed-campaign check of the loop body; [true] stands for
    the [continue]. *)
Definition already_completed (campaign_dir name : string) : M bool :=
  let meta_file := campaign_dir </> "meta.yaml" in
  let* present := path_exists meta_file in
  if present then
    try_except
      (let* meta_data := safe_load_file meta_file in
       let* done := reports_done meta_data in
       if done then
         logger INFO ("Skipping completed campaign: " +:+ name) ;; ret true
       else ret false)
      is_yaml_error
      (fun e => logger WARNING ("Failed to parse meta.yaml for " +:+ name +:+ ": "
                                +:+ exn_str e) ;;
                ret false)
  else ret false.

(** One pass of [for campaign_dir in campaigns_path.iterdir()]. *)
Definition visit_campaign (campaigns_dir name : string) (briefs : list yaml)
    : M (list yaml) :=
  let campaign_dir := campaigns_dir </> name in
  let* d := is_dir campaign_dir in
  if d then
    let* skip := already_completed campaign_dir name in
    if skip then ret briefs
    else
      let brief_file := campaign_dir </> Config.BRIEF_FILE in
      let* present := path_exists brief_file in
      if present then
        try_except
          (let* brief_data := safe_load_file brief_file in
           let* brief_data := setitem brief_data "campaign_name" (YStr name) in
           let* brief_data := setitem brief_data "campaign_path" (YStr campaign_dir) in
           logger INFO ("Loaded campaign: " +:+ name) ;;
           ret (briefs ++ [brief_data])%list)
          is_yaml_error
          (fun e => logger ERROR ("Failed to parse " +:+ brief_file +:+ ": " +:+ exn_str e) ;;
                    ret briefs)
      else ret briefs
  else ret briefs.

Fixpoint scan_campaigns (campaigns_dir : string) (names : list string)
    (briefs : list yaml) : M (list yaml) :=
  match names with
  | [] => ret briefs
  | name :: rest =>
      let* briefs := visit_campaign campaigns_dir name briefs in
      scan_campaigns campaigns_dir rest briefs
  end.

Definition load_campaign_briefs (campaigns_dir : option string) : M (list yaml) :=
  let campaigns_dir := default Config.CAMPAIGNS_DIR campaigns_dir in
  let* present := path_exists campaigns_dir in
  if negb present then
    logger ERROR ("Campaigns directory not found: " +:+ campaigns_dir) ;;
    ret []
  else
    let* names := iterdir campaigns_dir in
    scan_campaigns campaigns_dir names [].

End Loader.

(** ** [image_processing.py]: [ImageProcessor] *)

Module ImageProcessing.
Import Yaml Img Effects.

(** [range(start, stop, -step)] for a positive [step]. *)
Definition range_down (start stop step : Z) : list Z :=
  map (fun k => start - step * Z.of_nat k)%Z
      (seq 0 (Z.to_nat ((start - stop + step - 1) / step))).

(** [int(extent * MARGIN_PERCENTAGE)]. The double nearest to 0.05 exceeds
    1/20 by the factor 1 + 2^-54, so for every extent below 2^53 the
    product truncates to the integer quotient. *)
Definition margin (extent : Z) : Z :=
  Z.quot (extent * fst Config.MARGIN_PERCENTAGE) (snd Config.MARGIN_PERCENTAGE).

Section WithPillow.
(** What Pillow provides: fonts and their metrics, the resampling
    filter, the text rasteriser, mode conversion and blending. *)
Variable font : Type.
Variable truetype : string -> Z -> option font.   (* [None]: OSError *)
Variable load_default : font.
Variable getbbox : font -> string -> Z * Z * Z * Z.
Variable lanczos : image -> Z * Z -> Z -> Z -> pixel.
Variable render_text : font -> string -> Z * Z -> pixel -> image -> Z -> Z -> pixel.
Variable convert_pixel : string -> string -> pixel -> pixel.
Variable blend : pixel -> pixel -> pixel.

(** [image.resize(size, Image.LANCZOS)] *)
Definition resize (im : image) (sz : Z * Z) : image :=
  {| mode := mode im; width := fst sz; height := snd sz;
     pixel_at := lanczos im sz |}.

(** [image.crop((left, upper, right, lower))] *)
Definition crop (im : image) (box : Z * Z * Z * Z) : image :=
  let '(x_left, y_upper, x_right, y_lower) := box in
  {| mode := mode im; width := x_right - x_left; height := y_lower - y_upper;
     pixel_at := fun x y =>
       if inside im (x + x_left) (y + y_upper)
       then pixel_at im (x + x_left) (y + y_upper)
       else map (fun _ => 0%Z) (pixel_at im 0 0) |}.

(** [image.convert(mode)] *)
Definition convert (m : string) (im : image) : image :=
  {| mode := m; width := width im; height := height im;
     pixel_at := fun x y => convert_pixel (mode im) m (pixel_at im x y) |}.

(** [ImageDraw.Draw(im).text(xy, text, font=font, fill=fill)] *)
Definition draw_text (f : font) (text : string) (xy : Z * Z) (fill : pixel)
    (im : image) : image :=
  {| mode := mode im; width := width im; height := height im;
     pixel_at := render_text f text xy fill im |}.

(** [image.copy()]: a new object with the same picture. *)
Definition copy (image : positive) : M positive :=
  let* im := deref image in
  alloc im.

(** [image.save(path)] *)
Definition save (im : image) (path : string) : M unit :=
  write_file path (PngImage im).

(** The two pictures [crop_to_ratio] computes: a resize to 1536x1536, then
    a fixed centred box. *)
Definition landscape (image : Img.image) : Img.image :=
  crop (resize image (1536, 1536)%Z) (0, 336, 1536, 1200)%Z.

Definition portrait (image : Img.image) : Img.image :=
  crop (resize image (1536, 1536)%Z) (336, 0, 1200, 1536)%Z.

Definition crop_to_ratio (image : Img.image) (out_path ratio : string) : M unit :=
  let '(iw, ih) := size image in
  logger DEBUG ("Input size for " +:+ ratio +:+ " conversion: "
                +:+ show_Z iw +:+ "x" +:+ show_Z ih) ;;
  let* final_result :=
    if String.eqb ratio "16x9" then
      let resized_image := resize image (1536, 1536)%Z in
      ret (crop resized_image (0, 336, 1536, 1200)%Z)
    else if String.eqb ratio "9x16" then
      let resized_image := resize image (1536, 1536)%Z in
      ret (crop resized_image (336, 0, 1200, 1536)%Z)
    else raise (ValueError ("Unsupported ratio: " +:+ ratio)) in
  save final_result out_path ;;
  logger INFO ("Saved: " +:+ out_path +:+ " (" +:+ show_Z (width final_result)
               +:+ "x" +:+ show_Z (height final_result) +:+ ")").

Fixpoint first_font (paths : list string) (font_size : Z) : option font :=
  match paths with
  | [] => None
  | font_path :: rest =>
      match truetype font_path font_size with
      | Some f => Some f
      | None => first_font rest font_size
      end
  end.

(** The result is a Python value that could be [None]; it never is. *)
Definition _get_font (font_size : Z) : option font :=
  match first_font Config.FONT_PATHS font_size with
  | Some f => Some f
  | None => Some load_default
  end.

(** The body of [for font_size in range(...)], then [return None, None, 0, 0]. *)
Fixpoint try_font_sizes (sizes : list Z) (text : string) (max_width max_height : Z)
    : M (option font * option string * Z * Z) :=
  match sizes with
  | [] => ret (None, None, 0%Z, 0%Z)
  | font_size :: rest =>
      match _get_font font_size with
      | None => try_font_sizes rest text max_width max_height
      | Some f =>
          let '(b0, b1, b2, b3) := getbbox f text in
          let text_width := (b2 - b0)%Z in
          let text_height := (b3 - b1)%Z in
          if ((text_width <=? max_width) && (text_height <=? max_height))%Z then
            logger DEBUG ("Found optimal layout: font_size=" +:+ show_Z font_size) ;;
            ret (Some f, Some text, text_width, text_height)
          else try_font_sizes rest text max_width max_height
      end
  end.

(** The measured width and height of [text] at [font_size]. *)
Definition text_extent (text : string) (font_size : Z) : option (Z * Z) :=
  match _get_font font_size with
  | None => None
  | Some f =>
      let '(b0, b1, b2, b3) := getbbox f text in
      Some (b2 - b0, b3 - b1)%Z
  end.

(** [text] at [font_size] fits the available width and height. *)
Definition fits (text : string) (max_width max_height font_size : Z) : bool :=
  match text_extent text font_size with
  | Some (text_width, text_height) =>
      ((text_width <=? max_width) && (text_height <=? max_height))%Z
  | None => false
  end.

(** [not text or not text.strip()]: the text is empty or blank. *)
Definition blank (text : string) : bool :=
  String.eqb text "" || String.eqb (PyStr.strip text) "".

(** No candidate size makes [text] fit the picture [im] inside its margins. *)
Definition nothing_fits (im : image) (text : string) (font_size : option Z) : bool :=
  forallb
    (fun fs => negb (fits text (width im - 2 * margin (width im))%Z
                          (height im - 2 * margin (height im))%Z fs))
    (range_down (default Config.FONT_SIZE font_size) 12 4).

Definition _find_optimal_text_layout (text : string) (initial_font_size : Z)
    (max_width max_height : Z) : M (option font * option string * Z * Z) :=
  try_font_sizes (range_down initial_font_size 12 4) text max_width max_height.

(** [Image.alpha_composite(im1, im2)]: a new image. *)
Definition alpha_composite (im1 im2 : image) : M image :=
  if negb (String.eqb (mode im1) "RGBA") || negb (String.eqb (mode im2) "RGBA") then
    raise (ValueError "image has wrong mode")
  else if negb ((width im1 =? width im2) && (height im1 =? height im2))%Z then
    raise (ValueError "images do not match")
  else
    ret {| mode := "RGBA"; width := width im1; height := height im1;
           pixel_at := fun x y => blend (pixel_at im1 x y) (pixel_at im2 x y) |}.

(** Images are objects: [image] and the results are references into
    the heap of the world. *)
Definition add_text_overlay (image : positive) (text : string)
    (font_size opacity : option Z) : M positive :=
  if String.eqb text "" || String.eqb (PyStr.strip text) "" then ret image
  else
    let font_size := default Config.FONT_SIZE font_size in
    let opacity := default Config.TEXT_OPACITY opacity in
    let* img := copy image in
    let* current := deref img in
    let '(img_width, img_height) := size current in
    let margin_x := margin img_width in
    let margin_y := margin img_height in
    let available_width := (img_width - 2 * margin_x)%Z in
    let available_height := (img_height - 2 * margin_y)%Z in
    let* layout :=
      _find_optimal_text_layout text font_size available_width available_height in
    let '(final_font, final_text, final_width, final_height) := layout in
    match final_font with
    | None =>
        logger WARNING "Could not fit text in available space, using original text" ;;
        ret img
    | Some the_font =>
        let x := (img_width - final_width - margin_x)%Z in
        let y := (img_height - final_height - margin_y)%Z in
        let* overlay := alloc (Img.new "RGBA" (img_width, img_height) [0; 0; 0; 0]%Z) in
        let padding := 10%Z in
        mutate overlay
          (rectangle (x - padding, y - padding,
                      x + final_width + padding, y + final_height + padding)%Z
                     [0; 0; 0; 100]%Z) ;;
        mutate overlay
          (draw_text the_font (default "" final_text) (x, y)
                     [255; 255; 255; opacity]%Z) ;;
        let* img :=
          if negb (String.eqb (mode current) "RGBA")
          then alloc (convert "RGBA" current)
          else ret img in
        let* base := deref img in
        let* top := deref overlay in
        let* composed := alpha_composite base top in
        alloc composed
    end.

End WithPillow.

End ImageProcessing.

(** ** [image_generation.py]: [ImageGenerator] *)

Module ImageGeneration.
Import Yaml Img Effects.

(** What goes to [client.images.edit]. *)
Record edit_request : Type := EditRequest {
  req_image : content;
  req_mask : option content;
  req_prompt : string;
  req_size : string
}.

Section WithClient.
Variable convert_pixel : string -> string -> pixel -> pixel.
(** The remote edit endpoint: what the n-th request of the run yields,
    either the text [result.data[0].b64_json] or the exception raised on
    the way to it. *)
Variable images_edit : nat -> edit_request -> result string.
(** [base64.b64decode]: the bytes, or the exception ([binascii.Error], a
    [ValueError]) it raises for a text that is not base64; and the PNG
    decoder behind [Image.open]. Neither a decodable reply nor bytes that
    are a picture are promised. *)
Variable b64decode : string -> result (list N).
Variable open_png_bytes : list N -> option image.

Definition call_images_edit (req : edit_request) : M string :=
  fun w => (images_edit (api_calls w) req, count_call w).

(** [open(path, "rb")]: the data of a file. *)
Definition read_file (path : string) : M content :=
  fun w =>
    match files w !! path with
    | Some (File data) => (Returned data, w)
    | Some Dir => (Raised (IsADirectoryError path), w)
    | None => (Raised (FileNotFoundError path), w)
    end.

(** The mask as an image; the source hands it over PNG-encoded. *)
Definition _make_outpaint_mask (canvas : image) (inner_box : Z * Z * Z * Z) : image :=
  let mask := Img.new "L" (size canvas) [0%Z] in
  rectangle inner_box [255%Z] mask.

Definition outpaint_with_dalle (canvas : image) (inner_box : Z * Z * Z * Z)
    (prompt : string) : M image :=
  let canvas :=
    if negb (String.eqb (mode canvas) "RGBA")
    then ImageProcessing.convert convert_pixel "RGBA" canvas
    else canvas in
  let temp_image_path := "temp_canvas.png" in
  let temp_mask_path := "temp_mask.png" in
  ImageProcessing.save canvas temp_image_path ;;
  logger DEBUG "Outpainting with DALL-E 2 at 1024x1024" ;;
  let mask := _make_outpaint_mask canvas inner_box in
  write_file temp_mask_path (PngImage mask) ;;
  let* result :=
    (let* image_file := read_file temp_image_path in
     let* mask_file := read_file temp_mask_path in
     call_images_edit
       {| req_image := image_file; req_mask := Some mask_file;
          req_prompt := PyStr.take 999 prompt; req_size := "1024x1024" |}) in
  let* img_bytes := (fun w => (b64decode result, w)) in
  os_remove temp_image_path ;;
  os_remove temp_mask_path ;;
  match open_png_bytes img_bytes with
  | Some im => ret im
  | None => raise UnidentifiedImageError
  end.

(** The canvas as it is sent (RGBA) and the request built from the two
    temporary files. *)
Definition sent_canvas (canvas : image) : image :=
  if negb (String.eqb (mode canvas) "RGBA")
  then ImageProcessing.convert convert_pixel "RGBA" canvas
  else canvas.

Definition outpaint_request (canvas : image) (inner_box : Z * Z * Z * Z)
    (prompt : string) : edit_request :=
  {| req_image := PngImage (sent_canvas canvas);
     req_mask := Some (PngImage (_make_outpaint_mask (sent_canvas canvas) inner_box));
     req_prompt := PyStr.take 999 prompt;
     req_size := "1024x1024" |}.

(** The disk once both temporary files are written. *)
Definition staged (canvas : image) (inner_box : Z * Z * Z * Z) (fs : gmap string node)
    : gmap string node :=
  <["temp_mask.png" := File (PngImage (_make_outpaint_mask (sent_canvas canvas) inner_box))]>
    (<["temp_canvas.png" := File (PngImage (sent_canvas canvas))]> fs).

End WithClient.

End ImageGeneration.

(** ** [campaign_processing.py]: [CampaignProcessor], the campaign driver *)

Module Processor.
Import Yaml Effects.

(** [d[key]] *)
Definition getitem (d : yaml) (key : string) : M yaml :=
  match d with
  | YDict fields =>
      match dict_get key fields with
      | Some v => ret v
      | None => raise (KeyError key)
      end
  | _ => raise TypeError
  end.

(** [d.get(key, fallback)] *)
Definition get_or (d : yaml) (key : string) (fallback : yaml) : M yaml :=
  match d with
  | YDict fields => ret (default fallback (dict_get key fields))
  | _ => raise AttributeError
  end.

(** [Path(v)] *)
Definition as_path (v : yaml) : M string :=
  match v with
  | YStr s => ret s
  | _ => raise TypeError
  end.

(** The items a [for] loop draws from [v]. *)
Definition iterate (v : yaml) : M (list yaml) :=
  match v with
  | YList items => ret items
  | YStr s => ret (chars s)
  | YDict fields => ret (map (fun kv => YStr (fst kv)) fields)
  | _ => raise TypeError
  end.

(** [v[i]] for an integer [i]. A mapping of this model has text keys
    only, so [i] is never one of them; a mapping that holds the integer
    [i] as a key, which would answer, is not a value of the model. *)
Definition index (v : yaml) (i : nat) : M yaml :=
  match v with
  | YList items =>
      match items !! i with Some x => ret x | None => raise IndexError end
  | YStr s =>
      match chars s !! i with Some x => ret x | None => raise IndexError end
  | YDict _ => raise (KeyError (pretty i))
  | _ => raise TypeError
  end.

Definition marker_file (campaign_path : string) : string :=
  campaign_path </> "meta.yaml".

Definition _mark_campaign_done (campaign_path : string) (scene_prompt : option string)
    : M unit :=
  let meta_file := marker_file campaign_path in
  let* completed_at := isoformat_now in
  let meta_data := [("status", YStr "done"); ("completed_at", YStr completed_at)] in
  let meta_data :=
    match scene_prompt with
    | Some p => if String.eqb p "" then meta_data
                else dict_set "scene_prompt" (YStr p) meta_data
    | None => meta_data
    end in
  try_except
    (write_file meta_file (YamlText (Some (YDict meta_data))) ;;
     logger INFO ("Marked campaign as completed: " +:+ meta_file))
    is_exception
    (fun e => logger ERROR ("Failed to mark campaign as completed: " +:+ exn_str e)).

Section WithWorker.
(** [_process_single_product(campaign_brief, product, asset_file,
    results_path, campaign_path, languages)]: the per-product worker,
    which drives the remote services and Pillow. *)
Variable _process_single_product :
  yaml -> yaml -> yaml -> string -> string -> yaml -> M unit.

(** [try: asset_file = assets[i]  except IndexError: asset_file = None] *)
Definition asset_for (assets : yaml) (i : nat) : M yaml :=
  try_except (index assets i) is_index_error (fun _ => ret YNull).

Definition product_line (i total : nat) (product : yaml) : string :=
  "Processing product " +:+ pretty (S i) +:+ "/" +:+ pretty total +:+ ": " +:+ str product.

(** [for i, product in enumerate(products)], from index [i] on. *)
Fixpoint process_products (campaign_brief : yaml) (products : list yaml)
    (i total : nat) (assets : yaml) (results_path campaign_path : string)
    (languages : yaml) : M unit :=
  match products with
  | [] => ret tt
  | product :: rest =>
      let* asset_file := asset_for assets i in
      logger INFO (product_line i total product) ;;
      _process_single_product campaign_brief product asset_file results_path
        campaign_path languages ;;
      process_products campaign_brief rest (S i) total assets results_path
        campaign_path languages
  end.

(** The worker was called for every product of the list, in order, and
    each call returned: [w] is the world before the first pass of the loop,
    the last argument the world after the last one. *)
Inductive all_products_returned (campaign_brief assets : yaml)
    (results_path campaign_path : string) (languages : yaml) (total : nat)
    : nat -> list yaml -> world -> world -> Prop :=
| apr_done i w :
    all_products_returned campaign_brief assets results_path campaign_path languages
      total i [] w w
| apr_next i product rest asset_file w w1 w2 w3 :
    asset_for assets i w = (Returned asset_file, w1) ->
    _process_single_product campaign_brief product asset_file results_path
      campaign_path languages
      (with_log (log w1 ++ [(INFO, product_line i total product)])%list w1)
    = (Returned tt, w2) ->
    all_products_returned campaign_brief assets results_path campaign_path languages
      total (S i) rest w2 w3 ->
    all_products_returned campaign_brief assets results_path campaign_path languages
      total i (product :: rest) w w3.

Definition process_single_campaign (campaign_brief : yaml) : M unit :=
  let* campaign_name := getitem campaign_brief "campaign_name" in
  let* campaign_path := (let* p := getitem campaign_brief "campaign_path" in as_path p) in
  logger INFO ("Processing campaign: " +:+ str campaign_name) ;;
  let results_path := campaign_path </> Config.RESULTS_DIR in
  mkdir_exist_ok results_path ;;
  let* products := get_or campaign_brief "products" (YList []) in
  let* assets := get_or campaign_brief "assets" (YList []) in
  let* languages := get_or campaign_brief "languages" (YList [YStr "English"]) in
  logger DEBUG ("Will create results structure: " +:+ results_path) ;;
  let* items := iterate products in
  process_products campaign_brief items 0 (length items) assets results_path
    campaign_path languages ;;
  logger INFO ("Completed processing campaign: " +:+ str campaign_name) ;;
  logger INFO ("Results saved in: " +:+ results_path) ;;
  _mark_campaign_done campaign_path None.

(** [logger.exception] logs at level ERROR. *)
Definition log_failure (brief : yaml) (e : exn) : M unit :=
  let* name := get_or brief "campaign_name" (YStr "unknown") in
  logger ERROR ("Failed to process campaign " +:+ str name +:+ ": " +:+ exn_str e).

(** [for brief in briefs: try: ... except Exception as e: ...; continue] *)
Fixpoint process_campaigns (briefs : list yaml) : M unit :=
  match briefs with
  | [] => ret tt
  | brief :: rest =>
      try_except (process_single_campaign brief) is_exception (log_failure brief) ;;
      process_campaigns rest
  end.

(** The world the loop leaves after going through [briefs] from [w]. *)
Definition world_after (briefs : list yaml) (w : world) : world :=
  snd (process_campaigns briefs w).

(** The world in which the loop starts: the loader's, plus the line that
    counts the briefs. *)
Definition loop_start (briefs : list yaml) (w : world) : world :=
  with_log (log w ++ [(INFO, "Found " +:+ pretty (length briefs)
                              +:+ " campaign(s) to process")])%list w.

(** The world after the [except] clause logged the failure of [brief]. *)
Definition failure_logged (brief : yaml) (e : exn) (w : world) : world :=
  snd (log_failure brief e w).

Definition process_all_campaigns : M unit :=
  let* briefs := Loader.load_campaign_briefs None in
  match briefs with
  | [] => logger INFO "No campaign briefs found"
  | _ =>
      logger INFO ("Found " +:+ pretty (length briefs) +:+ " campaign(s) to process") ;;
      process_campaigns briefs
  end.

End WithWorker.

(** The two files outpainting creates and removes in the working directory. *)
Definition temp_file (p : string) : bool :=
  String.eqb p "temp_canvas.png" || String.eqb p "temp_mask.png".

(** The marker as [_mark_campaign_done] writes it. *)
Definition done_document (completed_at : string) : yaml :=
  YDict [("status", YStr "done"); ("completed_at", YStr completed_at)].

(** Every marker file is on [fs'] what it is on [fs]. *)
Definition same_markers (fs fs' : gmap string node) : Prop :=
  forall campaign_dir, fs' !! marker_file campaign_dir = fs !! marker_file campaign_dir.

(** Whatever is on [fs], up to the two temporary files, is still on [fs']. *)
Definition nothing_lost (fs fs' : gmap string node) : Prop :=
  forall p, temp_file p = false -> is_Some (fs !! p) -> is_Some (fs' !! p).

End Processor.

(** ** How a run ends *)

Module Outcome.
Import Img Effects.

(** [m] started in [w] returns, with a value and a world that satisfy [Q]. *)
Definition returns {A} (m : M A) (w : world) (Q : A -> world -> Prop) : Prop :=
  exists a w', m w = (Returned a, w') /\ Q a w'.

(** [h'] holds every image object of [h], unchanged. *)
Definition keeps (h h' : gmap positive image) : Prop :=
  forall l x, h !! l = Some x -> h' !! l = Some x.

(** Only the log differs between [w] and [w']; the log of [w] is a prefix. *)
Definition only_logged (w w' : world) : Prop :=
  files w' = files w /\ heap w' = heap w /\ api_calls w' = api_calls w
  /\ now w' = now w /\ exists lines, log w' = (log w ++ lines)%list.

End Outcome.

(** ** Concrete inputs for the examples *)

Module Fixtures.
Import Yaml Img Effects ImageProcessing.

(** Concrete stand-ins for Pillow: a font is its size, a glyph is as wide
    as half the size and as high as the size. *)
Definition toy_bbox (f : Z) (text : string) : Z * Z * Z * Z :=
  (0, 0, f / 2 * Z.of_nat (String.length text), f)%Z.

Definition toy_overlay : positive -> string -> option Z -> option Z -> M positive :=
  add_text_overlay Z (fun _ sz => Some sz) 12%Z toy_bbox
    (fun _ _ _ fill _ _ _ => fill) (fun _ _ p => p) (fun _ top => top).

Definition grey (wd ht : Z) : image := Img.new "RGB" (wd, ht) [128; 128; 128]%Z.

Definition one_image (im : image) : world :=
  World ∅ {[1%positive := im]} 0 "2024-01-01T00:00:00" [].

(** A remote endpoint that fails on the first request of a run and
    answers every later one. *)
Definition flaky_edit (n : nat) (req : ImageGeneration.edit_request) : result string :=
  match n with
  | O => Raised (APIError "rate limit reached")
  | S _ => Returned "iVBORw0KGgo="
  end.

(** A remote endpoint whose reply is not base64: three characters, where
    base64 comes in groups of four. *)
Definition garbled_edit (n : nat) (req : ImageGeneration.edit_request) : result string :=
  Returned "abc".

(** A stand-in for [base64.b64decode]: it refuses, as the real one does, a
    text whose length is no multiple of four. *)
Definition toy_b64decode (text : string) : result (list N) :=
  if (String.length text mod 4 =? 0)%nat then Returned []
  else Raised (ValueError "Incorrect padding").

Definition toy_outpaint (client : nat -> ImageGeneration.edit_request -> result string)
    : image -> Z * Z * Z * Z -> string -> M image :=
  ImageGeneration.outpaint_with_dalle (fun _ _ p => p) client
    toy_b64decode (fun _ => Some (grey 1024 1024)).

Definition empty_disk (calls : nat) : world :=
  World ∅ ∅ calls "2024-01-01T00:00:00" [].

Definition done_marker : node :=
  File (YamlText (Some (YDict [("status", YStr "done");
                               ("completed_at", YStr "2024-01-01T00:00:00")]))).

Definition good_brief (product : string) : node :=
  File (YamlText (Some (YDict [("message", YStr "Hello");
                               ("products", YList [YStr product])]))).

Definition bad_brief : node := File (YamlText None).

(** The brief of campaign [name] as the loader returns it. *)
Definition loaded_brief (name product : string) : yaml :=
  YDict [("message", YStr "Hello"); ("products", YList [YStr product]);
         ("campaign_name", YStr name); ("campaign_path", YStr ("campaigns/" +:+ name))].

Definition disk (entries : list (string * node)) : world :=
  World (list_to_map entries) ∅ 0 "2024-01-01T00:00:00" [].

(** Campaign c1 is marked done and its brief is not YAML; c2 is a
    campaign still to do. *)
Definition done_disk : world :=
  disk [("campaigns", Dir); ("campaigns/c1", Dir);
        ("campaigns/c1/meta.yaml", done_marker);
        ("campaigns/c1/brief.yaml", bad_brief);
        ("campaigns/c2", Dir); ("campaigns/c2/brief.yaml", good_brief "Eco Bottle")].

(** Campaign c1 has a brief that is not YAML, c2 a good one. *)
Definition bad_brief_disk : world :=
  disk [("campaigns", Dir); ("campaigns/c1", Dir); ("campaigns/c1/brief.yaml", bad_brief);
        ("campaigns/c2", Dir); ("campaigns/c2/brief.yaml", good_brief "Eco Bottle")].

(** A worker that stores one picture per product and fails, after the
    picture is stored, on the product called Broken. *)
Definition toy_worker (campaign_brief product asset_file : yaml)
    (results_path campaign_path : string) (languages : yaml) : M unit :=
  write_file (results_path </> (str product +:+ ".png")) (PngImage (grey 8 8)) ;;
  if eq_str product "Broken" then raise (APIError "content policy violation")
  else ret tt.

(** Two campaigns: the worker fails on the product of the second. *)
Definition two_campaigns : world :=
  disk [("campaigns", Dir);
        ("campaigns/c1", Dir); ("campaigns/c1/brief.yaml", good_brief "Eco Bottle");
        ("campaigns/c2", Dir); ("campaigns/c2/brief.yaml", good_brief "Broken")].

End Fixtures.

(** ** What the campaigns folder holds, read off the disk *)

Module Folders.
Import Yaml Effects Loader.

(** The entries [iterdir] yields for [campaigns_dir]; none when it is not
    a directory. *)
Definition entries (w : world) (campaigns_dir : string) : list string :=
  match files w !! campaigns_dir with
  | Some Dir => omap (child_name campaigns_dir) (map_to_list (files w)).*1
  | _ => []
  end.

(** The brief of one folder: its brief file, when that holds a mapping,
    with the folder's name and path set; nothing for an entry that is not
    a directory or whose marker says done. *)
Definition folder_brief (w : world) (campaigns_dir name : string) : option yaml :=
  let campaign_dir := campaigns_dir </> name in
  match files w !! campaign_dir with
  | Some Dir =>
      if marked_done w campaign_dir then None
      else
        match files w !! (campaign_dir </> Config.BRIEF_FILE) with
        | Some (File (YamlText (Some (YDict fields)))) =>
            Some (YDict (dict_set "campaign_path" (YStr campaign_dir)
                           (dict_set "campaign_name" (YStr name) fields)))
        | _ => None
        end
  | _ => None
  end.

(** A file name: not empty, no slash. *)
Definition file_name (name : string) : bool :=
  negb (String.eqb name "") && PyStr.all_chars (fun c => negb (is_slash c)) name.

(** A document that is not a mapping. *)
Definition not_mapping (doc : yaml) : bool :=
  match doc with YDict _ => false | _ => true end.

End Folders.

(** ** The world in which the product loop of a campaign starts *)

Module Campaign.
Import Yaml Effects Processor.

(** After the line that announces the campaign, the creation of the
    results folder and the line that names it. *)
Definition campaign_start (campaign_name : yaml) (campaign_path : string) (w : world)
    : world :=
  let results_path := campaign_path </> Config.RESULTS_DIR in
  World (match files w !! results_path with
         | None => <[results_path := Dir]> (files w)
         | Some _ => files w
         end)
        (heap w) (api_calls w) (now w)
        (log w ++ [(INFO, "Processing campaign: " +:+ str campaign_name);
                   (DEBUG, "Will create results structure: " +:+ results_path)])%list.

(** The two lines logged between the last product and the marker. *)
Definition campaign_end (campaign_name : yaml) (campaign_path : string) (w : world)
    : world :=
  with_log (log w ++ [(INFO, "Completed processing campaign: " +:+ str campaign_name);
                      (INFO, "Results saved in: " +:+ (campaign_path </> Config.RESULTS_DIR))])%list
           w.

(** The mapping [_mark_campaign_done] writes. *)
Definition marker_fields (completed_at : string) (scene_prompt : option string) : dict :=
  ([("status", YStr "done"); ("completed_at", YStr completed_at)]
   ++ match scene_prompt with
      | Some p => if String.eqb p "" then [] else [("scene_prompt", YStr p)]
      | None => []
      end)%list.

(** A value that is neither a sequence nor a mapping. *)
Definition scalar (v : yaml) : bool :=
  match v with
  | YNull | YBool _ | YInt _ => true
  | YStr _ | YList _ | YDict _ => false
  end.

(** A worker that must not be called: it raises whatever it is given. *)
Definition no_worker (campaign_brief product asset_file : yaml)
    (results_path campaign_path : string) (languages : yaml) : M unit :=
  raise (APIError "worker called").

End Campaign.

(** ** The shape of folder names *)

Module Names.
Import PyStr Sanitize.

(** [s] starts, resp. ends, with a character of the class [P]. *)
Definition starts_with (P : ascii -> bool) (s : string) : bool :=
  match s with
  | String c _ => P c
  | EmptyString => false
  end.

Definition ends_with (P : ascii -> bool) (s : string) : bool :=
  match last_char s with
  | Some c => P c
  | None => false
  end.

(** No two neighbours of [s] are both in the class [P]. *)
Fixpoint no_neighbours (P : ascii -> bool) (s : string) : bool :=
  match s with
  | String a s' => negb (P a && starts_with P s') && no_neighbours P s'
  | EmptyString => true
  end.

(** A letter, a digit or the hyphen: what survives sanitising as itself
    (up to letter case). *)
Definition plain (c : ascii) : bool := kept c && negb (isspace c).

End Names.

(** ** The text layout, as a picture *)

Module Layout.
Import Yaml Img Effects ImageProcessing.

(** The font sizes [_find_optimal_text_layout] tries from [start]: above
    the floor of 12, in steps of 4 below [start]. *)
Definition candidate (start c : Z) : Prop :=
  (12 < c <= start)%Z /\ ((start - c) mod 4 = 0)%Z.

Section WithPillow.
Variable font : Type.
Variable truetype : string -> Z -> option font.
Variable load_default : font.
Variable getbbox : font -> string -> Z * Z * Z * Z.
Variable render_text : font -> string -> Z * Z -> pixel -> image -> Z -> Z -> pixel.
Variable convert_pixel : string -> string -> pixel -> pixel.
Variable blend : pixel -> pixel -> pixel.

(** The first candidate size, from [start] down, at which [text] fits. *)
Definition best_size (text : string) (start max_width max_height : Z) : option Z :=
  find (fits font truetype load_default getbbox text max_width max_height)
       (range_down start 12 4).

(** The font and the measured extent of [text] at one size. *)
Definition layout_at (text : string) (font_size : Z) : option (font * Z * Z) :=
  match _get_font font truetype load_default font_size with
  | Some f =>
      let '(b0, b1, b2, b3) := getbbox f text in
      Some (f, b2 - b0, b3 - b1)%Z
  | None => None
  end.

(** The transparent layer with the backing rectangle and the text, for a
    picture [im] and a text of extent [tw] x [th]: the text box ends one
    margin before the right and the lower edge. *)
Definition overlay_layer (im : image) (f : font) (text : string) (tw th opacity : Z)
    : image :=
  let x := (width im - tw - margin (width im))%Z in
  let y := (height im - th - margin (height im))%Z in
  draw_text font render_text f text (x, y) [255; 255; 255; opacity]%Z
    (rectangle (x - 10, y - 10, x + tw + 10, y + th + 10)%Z [0; 0; 0; 100]%Z
       (Img.new "RGBA" (width im, height im) [0; 0; 0; 0]%Z)).

(** The picture under the layer: [im], converted to RGBA if need be. *)
Definition overlay_base (im : image) : image :=
  if negb (String.eqb (mode im) "RGBA") then convert convert_pixel "RGBA" im else im.

(** The composed picture. *)
Definition overlaid (im : image) (f : font) (text : string) (tw th opacity : Z) : image :=
  {| mode := "RGBA"; width := width im; height := height im;
     pixel_at := fun x y =>
       blend (pixel_at (overlay_base im) x y)
             (pixel_at (overlay_layer im f text tw th opacity) x y) |}.

End WithPillow.

End Layout.

(** ** [image_processing.py]: [ImageProcessor.prepare_canvas] *)

Module Canvas.
Import Yaml Img Effects ImageProcessing.

(** [Config.SCALE_FACTOR = 0.56], kept as the fraction 56/100. *)
Definition SCALE_FACTOR : Z * Z := (56, 100)%Z.

(** [int(extent * scale_factor)] at the default factor. The double nearest
    to 0.56 exceeds 14/25 by less than one part in 10^16, and a product
    [extent * 14/25] that is not an integer lies at least 1/25 below the
    next one, so for every extent below 2^50 the rounded product truncates
    to the integer quotient. *)
Definition scaled (extent : Z) : Z :=
  Z.quot (extent * fst SCALE_FACTOR) (snd SCALE_FACTOR).

(** [repr] of a pair and of a box of integers, as an f-string prints them. *)
Definition show_pair (p : Z * Z) : string :=
  "(" +:+ show_Z (fst p) +:+ ", " +:+ show_Z (snd p) +:+ ")".

Definition show_box (b : Z * Z * Z * Z) : string :=
  let '(x0, y0, x1, y1) := b in
  "(" +:+ show_Z x0 +:+ ", " +:+ show_Z y0 +:+ ", " +:+ show_Z x1 +:+ ", " +:+ show_Z y1 +:+ ")".

(** [Image.open(path)], up to the first use of the pixels. *)
Definition open_image (path : string) : M image :=
  fun w =>
    match files w !! path with
    | Some (File (PngImage im)) => (Returned im, w)
    | Some (File (YamlText _)) => (Raised UnidentifiedImageError, w)
    | Some Dir => (Raised (IsADirectoryError path), w)
    | None => (Raised (FileNotFoundError path), w)
    end.

Definition white : pixel := [255; 255; 255; 255]%Z.

Section WithPillow.
Variable lanczos : image -> Z * Z -> Z -> Z -> pixel.
Variable convert_pixel : string -> string -> pixel -> pixel.
(** One pixel of [canvas.paste(im, xy, mask=im)]: the canvas pixel and
    the pasted pixel, blended by the alpha of the latter. *)
Variable paste_pixel : pixel -> pixel -> pixel.

(** [image.resize(size, Image.LANCZOS)] for a computed size: Pillow
    refuses a width or height below 1. *)
Definition resize_to (im : image) (sz : Z * Z) : M image :=
  if ((fst sz <? 1) || (snd sz <? 1))%Z
  then raise (ValueError "height and width must be > 0")
  else ret (resize lanczos im sz).

(** [canvas.paste(im, (x, y), mask=im)]: the part of [im] that falls on
    the canvas is blended in, the rest of the canvas stays. *)
Definition paste (im : image) (xy : Z * Z) (canvas : image) : image :=
  let '(x, y) := xy in
  {| mode := mode canvas; width := width canvas; height := height canvas;
     pixel_at := fun px py =>
       if ((x <=? px) && (px <? x + width im) && (y <=? py) && (py <? y + height im))%Z
       then paste_pixel (pixel_at canvas px py) (pixel_at im (px - x) (py - y))
       else pixel_at canvas px py |}.

(** [scale_factor] is left at its default, as in the program's only call. *)
Definition prepare_canvas (input_image : string) (canvas_size : option (Z * Z))
    : M (image * (Z * Z * Z * Z)) :=
  let canvas_size := default (1024, 1024)%Z canvas_size in
  let* opened := open_image input_image in
  let img := convert convert_pixel "RGBA" opened in
  let original_size := size img in
  let new_size := (scaled (fst original_size), scaled (snd original_size)) in
  let* img_scaled := resize_to img new_size in
  logger DEBUG ("Scaled image from " +:+ show_pair original_size +:+ " to "
                +:+ show_pair new_size +:+ " (scale factor: 0.56)") ;;
  let '(tw, th) := canvas_size in
  let '(iw, ih) := size img_scaled in
  let x := ((tw - iw) / 2)%Z in
  let y := ((th - ih) / 2)%Z in
  let inner_box := (x, y, x + iw, y + ih)%Z in
  let canvas := Img.new "RGBA" (tw, th) white in
  let canvas := paste img_scaled (x, y) canvas in
  logger DEBUG ("Asset positioned at: " +:+ show_box inner_box) ;;
  ret (canvas, inner_box).

End WithPillow.

End Canvas.

(** ** More of Python's [str] *)

Module PyText.
Import PyStr.

(** The line feed and the double quote. *)
Definition nl : string := String (ascii_of_nat 10) "".
Definition dq : string := String (ascii_of_nat 34) "".

Definition is_dquote (c : ascii) : bool := (code c =? 34)%N.
Definition is_squote (c : ascii) : bool := (code c =? 39)%N.

(** The lines of a triple-quoted text, joined by line feeds. *)
Definition lines (ls : list string) : string := Yaml.join nl ls.

(** [s.lstrip(chars)], [s.rstrip(chars)], [s.strip(chars)] for the
    characters of the class [P]. *)
Fixpoint lstrip_of (P : ascii -> bool) (s : string) : string :=
  match s with
  | EmptyString => EmptyString
  | String c s' => if P c then lstrip_of P s' else s
  end.

Fixpoint rstrip_of (P : ascii -> bool) (s : string) : string :=
  match s with
  | EmptyString => EmptyString
  | String c s' =>
      match rstrip_of P s' with
      | EmptyString => if P c then EmptyString else String c EmptyString
      | r => String c r
      end
  end.

Definition strip_of (P : ascii -> bool) (s : string) : string :=
  rstrip_of P (lstrip_of P s).

(** [s.split()]: the maximal runs of characters that are not whitespace;
    [word] is the run read so far. *)
Fixpoint split_from (word : string) (s : string) : list string :=
  match s with
  | EmptyString => if String.eqb word "" then [] else [word]
  | String c s' =>
      if isspace c
      then (if String.eqb word "" then split_from "" s' else word :: split_from "" s')
      else split_from (word +:+ String c "") s'
  end.

Definition split (s : string) : list string := split_from "" s.

(** [' '.join(s.split()[:10])], what the prompt functions log. *)
Definition first_words (s : string) : string := Yaml.join " " (firstn 10 (split s)).

End PyText.

(** ** The language model behind [_translate_message] and [PromptGenerator] *)

Module Llm.
Import Yaml Effects.

Definition GPT_MODEL : string := "gpt-5-nano".
Definition MAX_SCENE_PROMPT_LENGTH : Z := 80000.

Section WithModel.
(** What the n-th request of the run yields as reply text, or the
    exception it ends with (an exception of the service, or of reading
    the text out of the reply): [chat.completions.create] and
    [responses.create], by model and prompt. *)
Variable chat_completions_create : nat -> string -> string -> result string.
Variable responses_create : nat -> string -> string -> result string.

Definition call_chat (model content : string) : M string :=
  fun w => (chat_completions_create (api_calls w) model content, count_call w).

Definition call_responses (model input : string) : M string :=
  fun w => (responses_create (api_calls w) model input, count_call w).

End WithModel.

End Llm.

(** ** [campaign_processing.py]: [CampaignProcessor._translate_message] *)

Module Translation.
Import PyStr PyText Yaml Effects Llm.

Definition translation_prompt (message language : string) : string :=
  lines
    [ "";
      "            Translate the following marketing message to " +:+ language +:+ ". ";
      "            Keep the tone professional and marketing-appropriate.";
      "            Preserve the emotional impact and brand voice.";
      "            Return ONLY the translated text, no additional commentary.";
      "            ";
      "            Message to translate: " +:+ dq +:+ message +:+ dq;
      "            ";
      "            Translation:" ].



Section WithModel.
Variable chat_completions_create : nat -> string -> string -> result string.
(** [OpenAI(api_key=os.getenv("OPENAI_API_KEY"))]: the client, or the
    exception its constructor raises (no key configured). *)
Variable new_client : result unit.

Definition _translate_message (message language : string) : M string :=
  if String.eqb (lower language) "english" || String.eqb (strip message) "" then ret message
  else
    logger INFO ("Translating message to " +:+ language +:+ ": '" +:+ message +:+ "'") ;;
    let translation_prompt := translation_prompt message language in
    try_except
      ((fun w => (new_client, w)) ;;
       let* content := call_chat chat_completions_create GPT_MODEL translation_prompt in
       let translated_message := strip content in
       let translated_message :=
         strip_of is_squote (strip_of is_dquote translated_message) in
       logger INFO ("Translated to " +:+ language +:+ ": '" +:+ translated_message +:+ "'") ;;
       ret translated_message)
      is_exception
      (fun e =>
         logger ERROR ("Failed to translate message using GPT: " +:+ exn_str e) ;;
         logger INFO "Using original message as fallback" ;;
         ret message).

End WithModel.

End Translation.

(** ** [prompt_generation.py]: [PromptGenerator] *)

Module PromptGeneration.
Import PyStr PyText Yaml Effects Llm.

Definition dalle_llm_prompt (detailed_prompt : string) : string :=
  lines
    [ "";
      "            Convert this detailed scene description into a concise DALL-E prompt (max "
        +:+ pretty Config.MAX_DALLE_PROMPT_LENGTH +:+ " characters):";
      "";
      "            " +:+ detailed_prompt;
      "";
      "            Requirements:";
      "            - Keep only essential visual elements";
      "            - Focus on composition, lighting, and key objects";
      "            - Remove technical photography details";
      "            - Remove post-production notes";
      "            - Keep it under " +:+ pretty Config.MAX_DALLE_PROMPT_LENGTH +:+ " characters";
      "            - Make it optimized for AI image generation";
      "";
      "            Return ONLY the concise prompt, no additional text." ].

(** [detailed_prompt[:MAX] + "..." if len(detailed_prompt) > MAX else detailed_prompt] *)
Definition truncated (detailed_prompt : string) : string :=
  if (Config.MAX_DALLE_PROMPT_LENGTH <? String.length detailed_prompt)%nat
  then take Config.MAX_DALLE_PROMPT_LENGTH detailed_prompt +:+ "..."
  else detailed_prompt.

(** [brief.get(key, 'Not specified')], as the f-string prints it. *)
Definition field (brief : dict) (key : string) : string :=
  str (default (YStr "Not specified") (dict_get key brief)).

Definition campaign_llm_prompt (brief : dict) : string :=
  lines
    [ "";
      "            Create a professional product photography scene prompt for this campaign, not more than ";
      "            " +:+ show_Z MAX_SCENE_PROMPT_LENGTH +:+ " characters:";
      "";
      "            Campaign Brief:";
      "                - Region: " +:+ field brief "region";
      "                - Market: " +:+ field brief "market";
      "                - Audience: " +:+ field brief "audience";
      "                - Message: " +:+ field brief "message";
      "                - Product: " +:+ field brief "product";
      "                - Asset: " +:+ field brief "asset";
      "";
      "            Requirements:";
      "                - Focus on the main product as hero element";
      "                - Reflect target audience lifestyle";
      "                - Include brand message and values";
      "                - Consider regional/market context";
      "                - Use professional photography terms";
      "                - Optimize for AI image generation";
      "                - No text or typography";
      "                - Commercial quality scene";
      "";
      "                Return a detailed scene description with lighting, composition, setting, mood, and visual style. ";
      "                Return ONLY the prompt, no additional text.";
      "                ";
      "                Use the provided asset exactly as-is, unchanged, pixel-perfect.";
      "                Do not move, open, modify, or alter the product in any way.";
      "";
      "                Only extend or generate the background scene around it.";
      "                No text, no logos, no subtitles, no labels." ].

Definition default_scene_prompt : string :=
  "A professional product photography scene, clean studio lighting, high quality, commercial photography style".

Section WithModel.
Variable responses_create : nat -> string -> string -> result string.

Definition create_dalle_prompt (detailed_prompt : string) : M string :=
  logger INFO "Creating concise DALL-E prompt..." ;;
  let llm_prompt := dalle_llm_prompt detailed_prompt in
  try_except
    (let* output_text := call_responses responses_create GPT_MODEL llm_prompt in
     let dalle_prompt := strip output_text in
     logger INFO ("DALL-E prompt: " +:+ first_words dalle_prompt) ;;
     ret dalle_prompt)
    is_exception
    (fun e =>
       logger ERROR ("Failed to create DALL-E prompt: " +:+ exn_str e) ;;
       ret (if (Config.MAX_DALLE_PROMPT_LENGTH <? String.length detailed_prompt)%nat
            then take Config.MAX_DALLE_PROMPT_LENGTH detailed_prompt +:+ "..."
            else detailed_prompt)).

Definition create_campaign_prompt_with_llm (brief : yaml) : M string :=
  logger INFO "Generating prompt with GPT-5..." ;;
  let* llm_prompt :=
    match brief with
    | YDict fields => ret (campaign_llm_prompt fields)
    | _ => raise AttributeError
    end in
  try_except
    (let* output_text := call_responses responses_create GPT_MODEL llm_prompt in
     let scene_prompt := strip output_text in
     logger INFO ("Generated prompt: " +:+ first_words scene_prompt) ;;
     ret scene_prompt)
    is_exception
    (fun e =>
       logger ERROR ("Failed to generate prompt with GPT-5: " +:+ exn_str e) ;;
       logger INFO "Using default prompt..." ;;
       ret default_scene_prompt).

End WithModel.

End PromptGeneration.

(** ** [image_generation.py]: [ImageGenerator._make_lock_mask_from_asset] *)

Module LockMask.
Import PyStr Yaml Img Effects ImageProcessing Canvas.

(** [pathlib] on a path in normal form (no trailing slash, no empty or
    dot component): what precedes the final component, slash included,
    and the final component. *)
Fixpoint path_parts (s : string) : string * string :=
  match s with
  | EmptyString => (EmptyString, EmptyString)
  | String c s' =>
      let '(d, n) := path_parts s' in
      if is_slash c || negb (String.eqb d "") then (String c d, n)
      else (EmptyString, String c n)
  end.

Definition is_dot (c : ascii) : bool := Ascii.eqb c "."%char.

(** The components of a path; [word] is the component read so far. *)
Fixpoint components_from (word : string) (s : string) : list string :=
  match s with
  | EmptyString => [word]
  | String c s' =>
      if is_slash c then word :: components_from "" s'
      else components_from (word +:+ String c "") s'
  end.

(** A relative path as [pathlib] prints it: no component is empty or
    a single dot. *)
Definition normal (p : string) : bool :=
  forallb (fun c => negb (String.eqb c "") && negb (String.eqb c "."))
          (components_from "" p).

(** The text before and after the last dot of [s]. *)
Fixpoint rsplit_dot (s : string) : option (string * string) :=
  match s with
  | EmptyString => None
  | String c s' =>
      match rsplit_dot s' with
      | Some (a, b) => Some (String c a, b)
      | None => if is_dot c then Some (EmptyString, s') else None
      end
  end.

(** [Path(p).stem]: the final component without its suffix; a dot at
    the start or at the end of the name starts no suffix. *)
Definition stem (p : string) : string :=
  let name := snd (path_parts p) in
  match rsplit_dot name with
  | Some (a, b) => if String.eqb a "" || String.eqb b "" then name else a
  | None => name
  end.

(** [Path(p).with_name(name)] *)
Definition with_name (p name : string) : M string :=
  if String.eqb (snd (path_parts p)) ""
  then raise (ValueError ("'" +:+ p +:+ "' has an empty name"))
  else ret (fst (path_parts p) +:+ name).

(** The one band of a pixel of mode L. *)
Definition value (im : image) (x y : Z) : Z := nth 0 (pixel_at im x y) 0%Z.

(** [im.split()[i]] *)
Definition band (i : nat) (im : image) : image :=
  {| mode := "L"; width := width im; height := height im;
     pixel_at := fun x y => [nth i (pixel_at im x y) 0%Z] |}.

(** [im.point(f)] on mode L *)
Definition point (f : Z -> Z) (im : image) : image :=
  {| mode := mode im; width := width im; height := height im;
     pixel_at := fun x y => [f (value im x y)] |}.

Definition clamp (hi v : Z) : Z := Z.max 0 (Z.min (hi - 1) v).

Definition offsets : list (Z * Z) :=
  [(-1, -1); (0, -1); (1, -1); (-1, 0); (0, 0); (1, 0); (-1, 1); (0, 1); (1, 1)]%Z.

(** [im.filter(ImageFilter.MaxFilter(3))] on mode L: the largest value
    of the 3x3 window, the picture being extended over its border by
    repeating the edge pixels. *)
Definition max_filter3 (im : image) : image :=
  {| mode := mode im; width := width im; height := height im;
     pixel_at := fun x y =>
       [fold_right Z.max 0%Z
          (map (fun d => value im (clamp (width im) (x + fst d))
                                  (clamp (height im) (y + snd d)))%Z offsets)] |}.

(** Pillow's 8-bit blend of [old] and [new] by a mask value. *)
Definition muldiv255 (a b : Z) : Z :=
  let t := (a * b + 128)%Z in Z.shiftr (Z.shiftr t 8 + t) 8.

Definition blend8 (m old new : Z) : Z :=
  (muldiv255 old (255 - m) + muldiv255 new m)%Z.

(** [im.paste(fill, (0, 0), mask)] for a colour [fill], on mode L,
    [mask] being as large as [im]. *)
Definition paste_fill (fill : Z) (mask im : image) : M image :=
  if negb ((width mask =? width im) && (height mask =? height im))%Z
  then raise (ValueError "images do not match")
  else ret {| mode := mode im; width := width im; height := height im;
              pixel_at := fun x y => [blend8 (value mask x y) (value im x y) fill] |}.

Section WithPillow.
Variable convert_pixel : string -> string -> pixel -> pixel.

Definition _make_lock_mask_from_asset (asset_path : string) : M image :=
  try_except
    (let* opened := open_image asset_path in
     let img := convert convert_pixel "RGBA" opened in
     let alpha := band 3 img in
     let alpha_binary := point (fun v => if (0 <? v)%Z then 255 else 0)%Z alpha in
     let alpha_binary := max_filter3 alpha_binary in
     let mask := Img.new "L" (size img) [255%Z] in
     let* mask := paste_fill 0 alpha_binary mask in
     (if Config.SAVE_MASK then
        let* mask_path := with_name asset_path (stem asset_path +:+ "_mask.png") in
        save mask mask_path ;;
        logger DEBUG ("Saved lock mask to: " +:+ mask_path)
      else ret tt) ;;
     ret mask)
    is_exception
    (fun e => logger ERROR ("Failed to create lock mask: " +:+ exn_str e) ;; raise e).

(** A pixel of the asset that shows: its alpha, once in RGBA, is not 0. *)
Definition shows (im : image) (x y : Z) : bool :=
  (0 <? nth 3 (pixel_at (convert convert_pixel "RGBA" im) x y) 0)%Z.

(** Some pixel of the 3x3 window around (x, y), cut to the picture, shows. *)
Definition near_shown (im : image) (x y : Z) : bool :=
  existsb (fun d => shows im (clamp (width im) (x + fst d)) (clamp (height im) (y + snd d)))%Z
          offsets.

End WithPillow.

End LockMask.

(** * Properties *)

(** ** Facts about characters and strings *)

Module PyStrFacts.
Import PyStr.

Ltac each_char c :=
  destruct c as [[] [] [] [] [] [] [] []]; vm_compute; try reflexivity; try discriminate.

Lemma all_chars_keep_chars (P : ascii -> bool) (s : string) :
  all_chars P (keep_chars P s) = true.
Proof.
  induction s as [|c s IH]; simpl; [reflexivity|].
  destruct (P c) eqn:E; simpl; [rewrite E|]; exact IH.
Qed.


Lemma all_chars_lstrip (P : ascii -> bool) (s : string) :
  all_chars P s = true -> all_chars P (lstrip s) = true.
Proof.
  induction s as [|c s IH]; simpl; [reflexivity|].
  intros H. destruct (isspace c); [|exact H].
  apply andb_prop in H as [_ H]. auto.
Qed.

Lemma all_chars_rstrip (P : ascii -> bool) (s : string) :
  all_chars P s = true -> all_chars P (rstrip s) = true.
Proof.
  induction s as [|c s IH]; simpl; [reflexivity|].
  intros [Hc Hs]%andb_prop. specialize (IH Hs).
  destruct (rstrip s) as [|d r].
  - destruct (isspace c); simpl; [reflexivity|]. rewrite Hc. reflexivity.
  - change (P c && all_chars P (String d r) = true). rewrite Hc, IH. reflexivity.
Qed.

Lemma all_chars_strip (P : ascii -> bool) (s : string) :
  all_chars P s = true -> all_chars P (strip s) = true.
Proof. intros H. apply all_chars_rstrip, all_chars_lstrip, H. Qed.


Lemma keep_chars_length (P : ascii -> bool) (s : string) :
  String.length (keep_chars P s) <= String.length s.
Proof.
  induction s as [|c s IH]; simpl; [lia|]. destruct (P c); simpl; lia.
Qed.














Lemma lower_take (n : nat) (s : string) : lower (take n s) = take n (lower s).
Proof.
  revert s. induction n as [|n IH]; intros [|c s]; simpl; try reflexivity.
  rewrite IH. reflexivity.
Qed.


End PyStrFacts.

(** ** Sanitised product names *)

Module SanitizeFacts.
Import PyStr PyStrFacts Sanitize.

Lemma all_chars_sub_space_runs (b : bool) (s : string) :
  all_chars kept s = true ->
  all_chars unspaced (sub_space_runs "_"%char b s) = true.
Proof.
  revert b. induction s as [|c s IH]; intros b; simpl; [reflexivity|].
  intros [Hc Hs]%andb_prop. destruct (isspace c) eqn:E.
  - destruct b; simpl; auto.
  - simpl. unfold unspaced at 1. rewrite Hc, E. simpl. auto.
Qed.

Lemma safe_lower_char (c : ascii) : unspaced c = true -> safe (lower_char c) = true.
Proof. each_char c. Qed.

Lemma all_chars_lower (s : string) :
  all_chars unspaced s = true -> all_chars safe (lower s) = true.
Proof.
  induction s as [|c s IH]; simpl; [reflexivity|].
  intros [Hc Hs]%andb_prop. rewrite (safe_lower_char c Hc), (IH Hs). reflexivity.
Qed.

Lemma sanitized_safe (s : string) : all_chars safe (_sanitize_product_name s) = true.
Proof.
  unfold _sanitize_product_name.
  apply all_chars_lower, all_chars_sub_space_runs, all_chars_strip, all_chars_keep_chars.
Qed.









Example sanitize_eco :
  _sanitize_product_name "  Eco-Bottle  (500ml)! " = "eco-bottle_500ml".
Proof. reflexivity. Qed.




End SanitizeFacts.


(** ** Language codes *)

Module LanguageCodeFacts.
Import PyStr PyStrFacts LanguageCode.

Lemma language_codes_lookup (name code : string) :
  In (name, code) language_table -> language_codes !! name = Some code.
Proof.
  unfold language_table. simpl.
  intros H. repeat (destruct H as [H|H]; [injection H as <- <-; vm_compute; reflexivity|]).
  destruct H.
Qed.

Lemma language_codes_two_letters (name code : string) :
  In (name, code) language_table -> String.length code = 2.
Proof.
  unfold language_table. simpl.
  intros H. repeat (destruct H as [H|H]; [injection H as <- <-; reflexivity|]).
  destruct H.
Qed.

Lemma language_codes_miss (name : string) :
  ~ In name (map fst language_table) -> language_codes !! name = None.
Proof.
  intros H. unfold language_codes. apply not_elem_of_list_to_map_1.
  intros Hin. apply H. apply list_elem_of_In in Hin. exact Hin.
Qed.

Example code_german : _get_language_code "German" = "de".
Proof. vm_compute. reflexivity. Qed.

Example code_swedish : _get_language_code "Swedish" = "sw".
Proof. vm_compute. reflexivity. Qed.

End LanguageCodeFacts.

(** ** Language codes for names beyond Latin-1 *)

Module WideFacts.
Import PyStr PyStrFacts LanguageCode LanguageCodeFacts Wide.

Lemma narrow_widen (s : string) : narrow (widen s) = Some s.
Proof. induction s as [|c s IH]; [reflexivity|]. cbn [widen narrow]. rewrite IH. reflexivity. Qed.

Lemma narrow_Some (t : text) (s : string) : narrow t = Some s -> t = widen s.
Proof.
  revert s. induction t as [|u t IH]; intros s.
  - intros [= <-]. reflexivity.
  - destruct u as [c| |]; cbn [narrow]; try discriminate.
    destruct (narrow t) as [r|]; [|discriminate]. intros [= <-].
    cbn [widen]. rewrite (IH r eq_refl). reflexivity.
Qed.

Lemma lower_widen (s : string) : Wide.lower (widen s) = widen (PyStr.lower s).
Proof.
  induction s as [|c s IH]; [reflexivity|]. unfold Wide.lower in *. cbn [widen flat_map PyStr.lower].
  rewrite IH. reflexivity.
Qed.

Lemma take_widen (n : nat) (s : string) : Wide.take n (widen s) = widen (PyStr.take n s).
Proof.
  revert n. induction s as [|c s IH]; intros [|n]; try reflexivity.
  unfold Wide.take in *. cbn [widen firstn PyStr.take]. rewrite IH. reflexivity.
Qed.

(** On Latin-1 names the two embeddings of the function agree. *)
Lemma get_language_code_widen (name : string) :
  Wide._get_language_code (widen name) = widen (LanguageCode._get_language_code name).
Proof.
  unfold Wide._get_language_code, LanguageCode._get_language_code.
  rewrite narrow_widen. destruct (language_codes !! name) as [code|]; [reflexivity|].
  cbn [default]. rewrite lower_widen, take_widen. reflexivity.
Qed.

(** C8, as stated, fails: lower-casing can lengthen a name, and then the
    first two characters of the lower-cased name are not the lower-cased
    first two characters of the name. *)
Lemma get_language_code_claim_counterexample :
  narrow ingilizce = None
  /\ Wide._get_language_code ingilizce = [Latin "i"%char; CombiningDot]
  /\ Wide.lower (Wide.take 2 ingilizce) = [Latin "i"%char; CombiningDot; Latin "n"%char]
  /\ Wide._get_language_code ingilizce <> Wide.lower (Wide.take 2 ingilizce).
Proof.
  split; [reflexivity|]. split; [reflexivity|]. split; [reflexivity|]. discriminate.
Qed.

(** C8 (amended). [_get_language_code] is a total function of the name: a
    name of the table gets the table's two-letter code; any other name
    gets the first two characters of its lower-cased form, at most two
    characters. For a name written in Latin-1 these are its first two
    characters in lower case. *)
Theorem get_language_code_table_or_lowered_prefix :
  (forall name code,
      In (name, code) language_table ->
      Wide._get_language_code (widen name) = widen code /\ String.length code = 2)
  /\ (forall language,
      (forall name, In name (map fst language_table) -> language <> widen name) ->
      Wide._get_language_code language = Wide.take 2 (Wide.lower language)
      /\ length (Wide._get_language_code language) <= 2)
  /\ (forall name,
      ~ In name (map fst language_table) ->
      Wide._get_language_code (widen name) = Wide.lower (Wide.take 2 (widen name))).
Proof.
  split; [|split].
  - intros name code H. split; [|exact (language_codes_two_letters name code H)].
    unfold Wide._get_language_code. rewrite narrow_widen.
    rewrite (language_codes_lookup name code H). reflexivity.
  - intros language Hout.
    assert (Hcode : Wide._get_language_code language = Wide.take 2 (Wide.lower language)).
    { unfold Wide._get_language_code. destruct (narrow language) as [name|] eqn:E; [|reflexivity].
      apply narrow_Some in E. rewrite language_codes_miss; [reflexivity|].
      intros Hin. exact (Hout name Hin E). }
    split; [exact Hcode|]. rewrite Hcode. unfold Wide.take. rewrite length_firstn. lia.
  - intros name Hout. rewrite get_language_code_widen.
    unfold LanguageCode._get_language_code. rewrite (language_codes_miss name Hout).
    cbn [default]. rewrite <- lower_take, take_widen, lower_widen. reflexivity.
Qed.

Lemma get_language_code_table_or_lowered_prefix_witness :
  Wide._get_language_code (widen "Japanese") = widen "ja"
  /\ Wide._get_language_code (widen "Swedish") = widen "sw"
  /\ Wide._get_language_code ingilizce = Wide.take 2 (Wide.lower ingilizce).
Proof.
  destruct get_language_code_table_or_lowered_prefix as (Htable & Hother & Hlatin).
  split; [|split].
  - apply (Htable "Japanese" "ja"). simpl. tauto.
  - rewrite (Hlatin "Swedish"); [reflexivity|].
    simpl. intros H. repeat (destruct H as [H|H]; [discriminate H|]). exact H.
  - apply Hother. intros name _ E. apply (f_equal narrow) in E.
    rewrite narrow_widen in E. discriminate E.
Defined.

End WideFacts.


(** ** Stepping through a run *)

Module OutcomeFacts.
Import Img Effects Outcome.

Lemma returns_intro {A} (m : M A) (w w' : world) (a : A) (Q : A -> world -> Prop) :
  m w = (Returned a, w') -> Q a w' -> returns m w Q.
Proof. intros Hm HQ. exists a, w'. split; assumption. Qed.

Lemma returns_ret {A} (a : A) (w : world) (Q : A -> world -> Prop) :
  Q a w -> returns (ret a) w Q.
Proof. intros HQ. exact (returns_intro (ret a) w w a Q eq_refl HQ). Qed.

Lemma returns_bind {A B} (m : M A) (k : A -> M B) (w : world) (Q : B -> world -> Prop) :
  returns m w (fun a w' => returns (k a) w' Q) -> returns (bind m k) w Q.
Proof.
  intros (a & w' & Hm & b & w'' & Hk & HQ). exists b, w''. split; [|exact HQ].
  unfold bind. rewrite Hm. exact Hk.
Qed.

Lemma returns_weaken {A} (m : M A) (w : world) (Q Q' : A -> world -> Prop) :
  (forall a w', Q a w' -> Q' a w') -> returns m w Q -> returns m w Q'.
Proof. intros HQ (a & w' & Hm & H). exists a, w'. split; [exact Hm|]. apply HQ, H. Qed.

Lemma returns_logger (lv : level) (msg : string) (w : world) (Q : unit -> world -> Prop) :
  Q tt (with_log (log w ++ [(lv, msg)]) w) -> returns (logger lv msg) w Q.
Proof. intros HQ. eapply returns_intro; [reflexivity | exact HQ]. Qed.

Lemma returns_alloc (im : image) (w : world) (Q : positive -> world -> Prop) :
  Q (fresh (dom (heap w))) (with_heap (<[fresh (dom (heap w)) := im]> (heap w)) w) ->
  returns (alloc im) w Q.
Proof. intros HQ. eapply returns_intro; [reflexivity | exact HQ]. Qed.

Lemma returns_deref (l : positive) (im : image) (w : world) (Q : image -> world -> Prop) :
  heap w !! l = Some im -> Q im w -> returns (deref l) w Q.
Proof.
  intros Hl HQ. eapply returns_intro; [|exact HQ]. unfold deref. rewrite Hl. reflexivity.
Qed.

Lemma returns_mutate (l : positive) (f : image -> image) (im : image) (w : world)
    (Q : unit -> world -> Prop) :
  heap w !! l = Some im ->
  Q tt (with_heap (<[l := f im]> (heap w)) w) ->
  returns (mutate l f) w Q.
Proof.
  intros Hl HQ. eapply returns_intro; [|exact HQ]. unfold mutate. rewrite Hl. reflexivity.
Qed.

Lemma keeps_refl (h : gmap positive image) : keeps h h.
Proof. intros l x H. exact H. Qed.

Lemma keeps_fresh (h h' : gmap positive image) :
  keeps h h' -> h !! fresh (dom h') = None.
Proof.
  intros Hk. destruct (h !! fresh (dom h')) as [x|] eqn:E; [|reflexivity].
  apply Hk in E. exfalso. apply (is_fresh (dom h')). apply elem_of_dom. eauto.
Qed.

Lemma keeps_alloc (h h' : gmap positive image) (im : image) :
  keeps h h' -> keeps h (<[fresh (dom h') := im]> h').
Proof.
  intros Hk l x Hl. rewrite lookup_insert_ne; [apply Hk, Hl|].
  intros <-. rewrite (keeps_fresh h h' Hk) in Hl. discriminate.
Qed.

Lemma keeps_update (h h' : gmap positive image) (l : positive) (im : image) :
  h !! l = None -> keeps h h' -> keeps h (<[l := im]> h').
Proof.
  intros Hnew Hk l' x Hl. rewrite lookup_insert_ne; [apply Hk, Hl|].
  intros <-. congruence.
Qed.

Lemma write_file_free (p : string) (data : content) (w : world) :
  files w !! p <> Some Dir ->
  write_file p data w = (Returned tt, with_files (<[p := File data]> (files w)) w).
Proof.
  intros H. unfold write_file. destruct (files w !! p) as [[|d]|]; congruence.
Qed.

End OutcomeFacts.

(** ** Ratio cropping and the text overlay *)

Module ImageFacts.
Import PyStr PyStrFacts Yaml Img Effects Outcome OutcomeFacts ImageProcessing Fixtures.

Section Pillow.
Variable font : Type.
Variable truetype : string -> Z -> option font.
Variable load_default : font.
Variable getbbox : font -> string -> Z * Z * Z * Z.
Variable lanczos : image -> Z * Z -> Z -> Z -> pixel.
Variable render_text : font -> string -> Z * Z -> pixel -> image -> Z -> Z -> pixel.
Variable convert_pixel : string -> string -> pixel -> pixel.
Variable blend : pixel -> pixel -> pixel.

Local Abbreviation overlay_text :=
  (add_text_overlay font truetype load_default getbbox render_text convert_pixel blend).
Local Abbreviation fits_at := (fits font truetype load_default getbbox).
Local Abbreviation try_sizes := (try_font_sizes font truetype load_default getbbox).
Local Abbreviation no_fit := (nothing_fits font truetype load_default getbbox).

Lemma crop_to_ratio_saves (image : Img.image) (out_path ratio : string)
    (final : Img.image) (w : world) :
  (ratio = "16x9" /\ final = landscape lanczos image)
  \/ (ratio = "9x16" /\ final = portrait lanczos image) ->
  files w !! out_path <> Some Dir ->
  exists w',
    crop_to_ratio lanczos image out_path ratio w = (Returned tt, w')
    /\ files w' = <[out_path := File (PngImage final)]> (files w)
    /\ heap w' = heap w.
Proof.
  intros Hr Hfree. unfold crop_to_ratio, bind, logger, save. simpl.
  destruct Hr as [[-> ->]|[-> ->]]; simpl; unfold ret;
    rewrite write_file_free by exact Hfree; simpl; eexists;
    split; try reflexivity; split; reflexivity.
Qed.

Lemma crop_to_ratio_directory (image : Img.image) (out_path ratio : string) (w : world) :
  ratio = "16x9" \/ ratio = "9x16" ->
  files w !! out_path = Some Dir ->
  fst (crop_to_ratio lanczos image out_path ratio w) = Raised (IsADirectoryError out_path).
Proof.
  intros Hr Hdir. unfold crop_to_ratio, bind, logger, save, write_file. simpl.
  destruct Hr as [-> | ->]; simpl; rewrite Hdir; reflexivity.
Qed.

Lemma crop_to_ratio_unsupported (image : Img.image) (out_path ratio : string) (w : world) :
  ratio <> "16x9" -> ratio <> "9x16" ->
  fst (crop_to_ratio lanczos image out_path ratio w)
  = Raised (ValueError ("Unsupported ratio: " +:+ ratio)).
Proof.
  intros H1 H2. unfold crop_to_ratio, bind, logger. simpl.
  apply String.eqb_neq in H1, H2. rewrite H1, H2. reflexivity.
Qed.

(** C6. For an image of any positive size the 16:9 picture is exactly
    1536x864 and the 9:16 picture exactly 864x1536: each is the fixed
    centred box of the 1536x1536 resize (its pixels are those of the
    resize, 336 rows or columns in), a function of the input alone.
    [crop_to_ratio] saves exactly that picture at [out_path] (unless a
    directory sits there). *)
Theorem crop_to_ratio_exact_dimensions (image : Img.image) (out_path : string) (w : world) :
  (0 < width image)%Z -> (0 < height image)%Z ->
  size (landscape lanczos image) = (1536, 864)%Z
  /\ size (portrait lanczos image) = (864, 1536)%Z
  /\ (forall x y, (0 <= x < 1536)%Z -> (0 <= y < 864)%Z ->
        pixel_at (landscape lanczos image) x y
        = lanczos image (1536, 1536)%Z x (y + 336)%Z)
  /\ (forall x y, (0 <= x < 864)%Z -> (0 <= y < 1536)%Z ->
        pixel_at (portrait lanczos image) x y
        = lanczos image (1536, 1536)%Z (x + 336)%Z y)
  /\ (files w !! out_path <> Some Dir ->
      returns (crop_to_ratio lanczos image out_path "16x9") w
        (fun _ w' => files w' !! out_path = Some (File (PngImage (landscape lanczos image))))
      /\ returns (crop_to_ratio lanczos image out_path "9x16") w
        (fun _ w' => files w' !! out_path = Some (File (PngImage (portrait lanczos image))))).
Proof.
  intros _ _. split; [reflexivity|]. split; [reflexivity|].
  split; [|split].
  { intros x y Hx Hy. unfold landscape, crop, resize, inside. cbn [pixel_at width height fst snd].
    rewrite ?Z.add_0_r.
    replace (_ && _ && _ && _)%Z with true; [reflexivity|].
    symmetry. rewrite !andb_true_iff. repeat split; lia. }
  { intros x y Hx Hy. unfold portrait, crop, resize, inside. cbn [pixel_at width height fst snd].
    rewrite ?Z.add_0_r.
    replace (_ && _ && _ && _)%Z with true; [reflexivity|].
    symmetry. rewrite !andb_true_iff. repeat split; lia. }
  intros Hfree. split.
  - destruct (crop_to_ratio_saves image out_path "16x9" (landscape lanczos image) w)
      as (w' & Hrun & Hf & _); [left; split; reflexivity | exact Hfree |].
    exists tt, w'. split; [exact Hrun|]. rewrite Hf. apply lookup_insert_eq.
  - destruct (crop_to_ratio_saves image out_path "9x16" (portrait lanczos image) w)
      as (w' & Hrun & Hf & _); [right; split; reflexivity | exact Hfree |].
    exists tt, w'. split; [exact Hrun|]. rewrite Hf. apply lookup_insert_eq.
Qed.


Lemma strip_blank (text : string) : all_chars isspace text = true -> strip text = "".
Proof.
  intros H. unfold strip.
  assert (Hl : lstrip text = "").
  { induction text as [|c s IH]; simpl in *; [reflexivity|].
    apply andb_prop in H as [Hc Hs]. rewrite Hc. auto. }
  rewrite Hl. reflexivity.
Qed.

(** No size fits: the search returns the empty layout and changes nothing. *)
Lemma try_font_sizes_none (sizes : list Z) (text : string) (mw mh : Z) (w : world) :
  forallb (fun fs => negb (fits_at text mw mh fs)) sizes = true ->
  try_sizes sizes text mw mh w = (Returned (None, None, 0%Z, 0%Z), w).
Proof.
  induction sizes as [|fs rest IH]; simpl; [reflexivity|].
  intros [Hfs Hrest]%andb_prop. apply negb_true_iff in Hfs.
  unfold fits, text_extent in Hfs.
  destruct (_get_font font truetype load_default fs) as [f|]; [|auto].
  destruct (getbbox f text) as [[[b0 b1] b2] b3]. rewrite Hfs. auto.
Qed.

(** Some size fits: the search returns a font and the text, and only logs. *)
Lemma try_font_sizes_some (sizes : list Z) (text : string) (mw mh : Z) (w : world) :
  forallb (fun fs => negb (fits_at text mw mh fs)) sizes = false ->
  exists f tw th line,
    try_sizes sizes text mw mh w
    = (Returned (Some f, Some text, tw, th), with_log (log w ++ [line]) w).
Proof.
  induction sizes as [|fs rest IH]; simpl; [discriminate|].
  intros H. unfold fits, text_extent in H.
  destruct (_get_font font truetype load_default fs) as [f|] eqn:Ef; simpl in H; [|auto].
  destruct (getbbox f text) as [[[b0 b1] b2] b3].
  destruct ((b2 - b0 <=? mw)%Z && (b3 - b1 <=? mh)%Z) eqn:Efit; simpl in H; [|auto].
  exists f, (b2 - b0)%Z, (b3 - b1)%Z. eexists. reflexivity.
Qed.

(** What every call does: it returns, keeps all objects as they were and
    the disk as it was, and the result is described case by case. *)
Lemma add_text_overlay_run (image : positive) (im : Img.image) (text : string)
    (font_size opacity : option Z) (w : world) :
  heap w !! image = Some im ->
  returns (overlay_text image text font_size opacity) w
    (fun result w' =>
       keeps (heap w) (heap w') /\ files w' = files w
       /\ (blank text = true -> result = image /\ w' = w)
       /\ (blank text = false -> heap w !! result = None /\ is_Some (heap w' !! result))
       /\ (blank text = false -> no_fit im text font_size = true ->
           heap w' !! result = Some im)).
Proof.
  intros Him. unfold add_text_overlay. fold (blank text).
  destruct (blank text) eqn:Eblank.
  { apply returns_ret. split; [apply keeps_refl|]. split; [reflexivity|].
    repeat split; intros; discriminate. }
  apply returns_bind. unfold copy. apply returns_bind.
  apply (returns_deref image im); [exact Him|]. apply returns_alloc.
  set (l1 := fresh (dom (heap w))).
  assert (Hl1 : heap w !! l1 = None) by apply keeps_fresh, keeps_refl.
  assert (K1 : keeps (heap w) (<[l1 := im]> (heap w))) by apply keeps_alloc, keeps_refl.
  apply returns_bind. apply (returns_deref l1 im); [apply lookup_insert_eq|].
  cbn [size heap with_heap]. apply returns_bind. unfold _find_optimal_text_layout.
  set (w1 := with_heap (<[l1:=im]> (heap w)) w).
  fold (nothing_fits font truetype load_default getbbox im text font_size).
  destruct (nothing_fits font truetype load_default getbbox im text font_size) eqn:Efit.
  - eapply returns_intro; [apply try_font_sizes_none; exact Efit|].
    apply returns_bind, returns_logger, returns_ret. cbn.
    split; [exact K1|]. split; [reflexivity|].
    split; [discriminate|]. split; intros; [split; [exact Hl1|]|]; rewrite lookup_insert_eq; eauto.
  - edestruct try_font_sizes_some as (f & tw & th & line & Hrun); [exact Efit|].
    eapply returns_intro; [exact Hrun|]. clear Hrun.
    apply returns_bind, returns_alloc. cbn [heap with_heap with_log w1].
    set (l2 := fresh (dom (<[l1:=im]> (heap w)))).
    assert (Hl2 : heap w !! l2 = None) by apply keeps_fresh, K1.
    set (h2 := <[l2 := _]> (<[l1:=im]> (heap w))).
    assert (K2 : keeps (heap w) h2) by apply keeps_alloc, K1.
    apply returns_bind. eapply returns_mutate; [apply lookup_insert_eq|].
    cbn [heap with_heap with_log].
    apply returns_bind. eapply returns_mutate; [apply lookup_insert_eq|].
    cbn [heap with_heap with_log].
    set (h4 := <[l2 := _]> (<[l2 := _]> h2)).
    assert (K4 : keeps (heap w) h4) by (do 2 (apply keeps_update; [exact Hl2|]); exact K2).
    assert (Hne : l1 <> l2).
    { intros E. pose proof (is_fresh (dom (<[l1:=im]> (heap w)))) as Hf.
      apply Hf. fold l2. rewrite <- E. apply elem_of_dom. rewrite lookup_insert_eq. eauto. }
    assert (H41 : h4 !! l1 = Some im).
    { unfold h4, h2. rewrite !lookup_insert_ne by (intros E; apply Hne; symmetry; exact E).
      apply lookup_insert_eq. }
    apply returns_bind.
    destruct (negb (mode im =? "RGBA")) eqn:Emode.
    + apply returns_alloc. cbn [heap with_heap with_log].
      set (l3 := fresh (dom h4)).
      assert (Hl3 : heap w !! l3 = None) by apply keeps_fresh, K4.
      assert (K5 : keeps (heap w) (<[l3 := convert convert_pixel "RGBA" im]> h4))
        by apply keeps_alloc, K4.
      apply returns_bind. eapply returns_deref; [apply lookup_insert_eq|].
      apply returns_bind. eapply returns_deref.
      { cbn [heap with_heap with_log]. rewrite lookup_insert_ne.
        - unfold h4. apply lookup_insert_eq.
        - intros E. pose proof (is_fresh (dom h4)) as Hf. apply Hf. fold l3. rewrite E.
          apply elem_of_dom. unfold h4. rewrite lookup_insert_eq. eauto. }
      apply returns_bind. eapply returns_intro.
      { unfold alpha_composite.
        cbn [mode width height convert draw_text rectangle Img.new fst snd].
        rewrite !String.eqb_refl, !Z.eqb_refl. reflexivity. }
      apply returns_alloc. cbn [heap with_heap with_log files].
      split; [apply keeps_alloc, K5|]. split; [reflexivity|].
      split; [discriminate|]. split; [|discriminate].
      intros _. split; [apply keeps_fresh, K5|]. rewrite lookup_insert_eq. eauto.
    + apply returns_ret.
      apply returns_bind. eapply returns_deref; [exact H41|].
      apply returns_bind. eapply returns_deref; [apply lookup_insert_eq|].
      apply returns_bind. apply negb_false_iff in Emode.
      eapply returns_intro.
      { unfold alpha_composite. cbn [mode width height draw_text rectangle Img.new fst snd].
        rewrite Emode, !Z.eqb_refl. reflexivity. }
      apply returns_alloc. cbn [heap with_heap with_log files].
      split; [apply keeps_alloc, K4|]. split; [reflexivity|].
      split; [discriminate|]. split; [|discriminate].
      intros _. split; [apply keeps_fresh, K4|]. rewrite lookup_insert_eq. eauto.
Qed.


Lemma blank_spaces (text : string) :
  text = "" \/ all_chars isspace text = true -> blank text = true.
Proof.
  intros [-> | H]; [reflexivity|]. unfold blank.
  rewrite (strip_blank text H). apply orb_true_r.
Qed.

(** C7. With an empty or whitespace-only text, or when no candidate font
    size from the start size down to the floor fits the space inside the
    margins, [add_text_overlay] returns (it does not raise) an image with
    the pixels, mode and size of the input; for a blank text it is the
    input object itself and nothing in the world changes. *)
Theorem add_text_overlay_unchanged_when_blank_or_unfit (image : positive)
    (im : Img.image) (text : string) (font_size opacity : option Z) (w : world) :
  heap w !! image = Some im ->
  (text = "" \/ all_chars isspace text = true) \/ no_fit im text font_size = true ->
  returns (overlay_text image text font_size opacity) w
    (fun result w' =>
       heap w' !! result = Some im
       /\ (text = "" \/ all_chars isspace text = true -> result = image /\ w' = w)).
Proof.
  intros Him Hcase.
  eapply returns_weaken; [|apply (add_text_overlay_run image im text font_size opacity w Him)].
  intros result w' (Hkeep & _ & Hblank & _ & Hunfit). split.
  - destruct (blank text) eqn:Eb.
    + destruct (Hblank eq_refl) as [-> ->]. exact Him.
    + destruct Hcase as [Hsp | Hfit].
      * rewrite (blank_spaces text Hsp) in Eb. discriminate.
      * apply Hunfit; [reflexivity | exact Hfit].
  - intros Hsp. apply Hblank, blank_spaces, Hsp.
Qed.

(** C10. [add_text_overlay] never changes the image object it is given,
    nor any other live image object: each holds after the call what it
    held before. When an overlay is applied (the text is not blank and some
    size fits) the result is an object that did not exist before the call. *)
Theorem add_text_overlay_never_mutates_input (image : positive)
    (im : Img.image) (text : string) (font_size opacity : option Z) (w : world) :
  heap w !! image = Some im ->
  returns (overlay_text image text font_size opacity) w
    (fun result w' =>
       heap w' !! image = Some im
       /\ keeps (heap w) (heap w')
       /\ (blank text = false -> no_fit im text font_size = false ->
           heap w !! result = None /\ is_Some (heap w' !! result))).
Proof.
  intros Him.
  eapply returns_weaken; [|apply (add_text_overlay_run image im text font_size opacity w Him)].
  intros result w' (Hkeep & _ & _ & Hnew & _).
  split; [apply Hkeep, Him|]. split; [exact Hkeep|]. intros Hb _. apply Hnew, Hb.
Qed.

End Pillow.

Lemma add_text_overlay_unchanged_when_blank_or_unfit_witness :
  returns (toy_overlay 1%positive "   " None None) (one_image (grey 640 480))
    (fun result w' => heap w' !! result = Some (grey 640 480)
                      /\ result = 1%positive /\ w' = one_image (grey 640 480))
  /\ returns (toy_overlay 1%positive "Sale now on" None None) (one_image (grey 40 30))
    (fun result w' => heap w' !! result = Some (grey 40 30)).
Proof.
  split.
  - eapply returns_weaken;
      [|apply (add_text_overlay_unchanged_when_blank_or_unfit Z (fun _ sz => Some sz) 12%Z
                 toy_bbox (fun _ _ _ fill _ _ _ => fill) (fun _ _ p => p) (fun _ top => top)
                 1%positive (grey 640 480) "   " None None (one_image (grey 640 480)))].
    + intros result w' [H1 H2]. split; [exact H1|]. apply H2. right. reflexivity.
    + reflexivity.
    + left. right. reflexivity.
  - eapply returns_weaken;
      [|apply (add_text_overlay_unchanged_when_blank_or_unfit Z (fun _ sz => Some sz) 12%Z
                 toy_bbox (fun _ _ _ fill _ _ _ => fill) (fun _ _ p => p) (fun _ top => top)
                 1%positive (grey 40 30) "Sale now on" None None (one_image (grey 40 30)))].
    + intros result w' [H1 _]. exact H1.
    + reflexivity.
    + right. vm_compute. reflexivity.
Defined.

Lemma add_text_overlay_never_mutates_input_witness :
  returns (toy_overlay 1%positive "Sale now on" None None) (one_image (grey 640 480))
    (fun result w' => heap w' !! 1%positive = Some (grey 640 480) /\ result <> 1%positive).
Proof.
  eapply returns_weaken;
    [|apply (add_text_overlay_never_mutates_input Z (fun _ sz => Some sz) 12%Z
               toy_bbox (fun _ _ _ fill _ _ _ => fill) (fun _ _ p => p) (fun _ top => top)
               1%positive (grey 640 480) "Sale now on" None None (one_image (grey 640 480)))].
  - intros result w' (H1 & _ & Hnew). split; [exact H1|].
    destruct Hnew as [Hnone _]; [reflexivity | vm_compute; reflexivity |].
    intros ->. vm_compute in Hnone. discriminate.
  - reflexivity.
Defined.

Lemma crop_to_ratio_exact_dimensions_witness :
  size (landscape (fun _ _ _ _ => [0%Z]) (grey 640 480)) = (1536, 864)%Z
  /\ size (portrait (fun _ _ _ _ => [0%Z]) (grey 640 480)) = (864, 1536)%Z.
Proof.
  destruct (crop_to_ratio_exact_dimensions (fun _ _ _ _ => [0%Z]) (grey 640 480)
              "out.png" (one_image (grey 640 480))) as (H1 & H2 & _ & _ & _);
    [reflexivity | reflexivity |].
  split; [exact H1 | exact H2].
Defined.

End ImageFacts.

(** ** The temporary files of outpainting *)

Module OutpaintFacts.
Import PyStr Yaml Img Effects Outcome OutcomeFacts ImageGeneration Fixtures.

Section Client.
Variable convert_pixel : string -> string -> pixel -> pixel.
Variable images_edit : nat -> edit_request -> result string.
Variable b64decode : string -> result (list N).
Variable open_png_bytes : list N -> option image.

Local Abbreviation outpaint :=
  (outpaint_with_dalle convert_pixel images_edit b64decode open_png_bytes).
Local Abbreviation request := (outpaint_request convert_pixel).
Local Abbreviation canvas_sent := (sent_canvas convert_pixel).

Local Abbreviation staged := (ImageGeneration.staged convert_pixel).

Lemma outpaint_unfold (canvas : image) (inner_box : Z * Z * Z * Z) (prompt : string)
    (w : world) :
  files w !! "temp_canvas.png" <> Some Dir ->
  files w !! "temp_mask.png" <> Some Dir ->
  outpaint canvas inner_box prompt w
  = let w1 := count_call
                (with_files (staged canvas inner_box (files w))
                   (with_log (log w ++ [(DEBUG, "Outpainting with DALL-E 2 at 1024x1024")]) w)) in
    match images_edit (api_calls w) (request canvas inner_box prompt) with
    | Raised e => (Raised e, w1)
    | Returned b64 =>
        match b64decode b64 with
        | Raised e => (Raised e, w1)
        | Returned img_bytes =>
            let w2 :=
              with_files (delete "temp_mask.png" (delete "temp_canvas.png" (files w1))) w1 in
            match open_png_bytes img_bytes with
            | Some im => (Returned im, w2)
            | None => (Raised UnidentifiedImageError, w2)
            end
        end
    end.
Proof.
  intros Hc Hm. unfold outpaint_with_dalle. fold (canvas_sent canvas).
  unfold ImageProcessing.save.
  unfold bind at 1. rewrite (write_file_free _ _ _ Hc).
  unfold bind at 1. unfold logger at 1. cbn [log files with_files with_log].
  unfold bind at 1. rewrite write_file_free.
  2:{ cbn [log files with_files with_log]. rewrite lookup_insert_ne by discriminate. exact Hm. }
  cbn [log files with_files with_log heap api_calls now].
  unfold bind at 1. unfold bind at 1. unfold read_file at 1.
  cbn [log files with_files with_log heap api_calls now].
  rewrite lookup_insert_ne by discriminate. rewrite lookup_insert_eq.
  unfold bind at 1. unfold read_file at 1.
  cbn [log files with_files with_log heap api_calls now].
  rewrite lookup_insert_eq.
  unfold call_images_edit. cbn [log files with_files with_log heap api_calls now].
  fold (ImageGeneration.staged convert_pixel canvas inner_box (files w)).
  unfold outpaint_request.
  destruct (images_edit (api_calls w) _) as [b64|e]; [|reflexivity].
  unfold bind at 1. destruct (b64decode b64) as [img_bytes|e]; [|reflexivity].
  unfold bind at 1. unfold os_remove at 1.
  cbn [log files with_files with_log heap api_calls now count_call].
  unfold ImageGeneration.staged at 1. rewrite lookup_insert_ne by discriminate. rewrite lookup_insert_eq.
  unfold bind at 1. unfold os_remove at 1.
  cbn [log files with_files with_log heap api_calls now count_call].
  rewrite lookup_delete_ne by discriminate. unfold ImageGeneration.staged at 1. rewrite lookup_insert_eq.
  destruct (open_png_bytes img_bytes); reflexivity.
Qed.


(** C9, as stated, fails: the request returns, its reply is not base64,
    decoding it raises before either file is removed, and both temporary
    files stay on the disk. *)
Lemma outpaint_cleanup_claim_counterexample :
  garbled_edit 0
    (outpaint_request (fun _ _ p => p) (grey 1024 1024) (225, 225, 798, 798)%Z "a beach")
  = Returned "abc"
  /\ toy_b64decode "abc" = Raised (ValueError "Incorrect padding")
  /\ exists w',
       toy_outpaint garbled_edit (grey 1024 1024) (225, 225, 798, 798)%Z "a beach"
         (empty_disk 0)
       = (Raised (ValueError "Incorrect padding"), w')
       /\ is_Some (files w' !! "temp_canvas.png")
       /\ is_Some (files w' !! "temp_mask.png").
Proof.
  split; [reflexivity|]. split; [reflexivity|].
  eexists. split; [vm_compute; reflexivity|]. split; vm_compute; eexists; reflexivity.
Qed.

(** C9 (amended). Once the two temporary files are written and the edit
    request is sent: if the request returns and its reply decodes as
    base64, both files are removed (whether or not the bytes then open as
    an image); if the request raises, or it returns a reply that does not
    decode, the exception leaves [outpaint_with_dalle] and both files are
    still on the disk, holding the canvas and the mask. *)
Theorem outpaint_temp_files_cleanup (canvas : image) (inner_box : Z * Z * Z * Z)
    (prompt : string) (w : world) :
  files w !! "temp_canvas.png" <> Some Dir ->
  files w !! "temp_mask.png" <> Some Dir ->
  match images_edit (api_calls w) (request canvas inner_box prompt) with
  | Returned b64 =>
      match b64decode b64 with
      | Returned img_bytes =>
          exists r w',
            outpaint canvas inner_box prompt w = (r, w')
            /\ r = match open_png_bytes img_bytes with
                   | Some im => Returned im
                   | None => Raised UnidentifiedImageError
                   end
            /\ files w' !! "temp_canvas.png" = None
            /\ files w' !! "temp_mask.png" = None
      | Raised e =>
          exists w',
            outpaint canvas inner_box prompt w = (Raised e, w')
            /\ files w' !! "temp_canvas.png" = Some (File (PngImage (canvas_sent canvas)))
            /\ files w' !! "temp_mask.png"
               = Some (File (PngImage (_make_outpaint_mask (canvas_sent canvas) inner_box)))
      end
  | Raised e =>
      exists w',
        outpaint canvas inner_box prompt w = (Raised e, w')
        /\ files w' !! "temp_canvas.png" = Some (File (PngImage (canvas_sent canvas)))
        /\ files w' !! "temp_mask.png"
           = Some (File (PngImage (_make_outpaint_mask (canvas_sent canvas) inner_box)))
  end.
Proof.
  intros Hc Hm. rewrite (outpaint_unfold canvas inner_box prompt w Hc Hm). cbv zeta.
  assert (Hleft : forall fs,
            ImageGeneration.staged convert_pixel canvas inner_box fs !! "temp_canvas.png"
            = Some (File (PngImage (canvas_sent canvas)))
            /\ ImageGeneration.staged convert_pixel canvas inner_box fs !! "temp_mask.png"
               = Some (File (PngImage (_make_outpaint_mask (canvas_sent canvas) inner_box)))).
  { intros fs. unfold ImageGeneration.staged. split.
    - rewrite lookup_insert_ne by discriminate. apply lookup_insert_eq.
    - apply lookup_insert_eq. }
  destruct (images_edit (api_calls w) _) as [b64|e].
  - destruct (b64decode b64) as [img_bytes|e].
    + destruct (open_png_bytes img_bytes); eexists _, _; (split; [reflexivity|]);
        (split; [reflexivity|]); cbn [files with_files count_call]; split.
      * rewrite lookup_delete_ne by discriminate. apply lookup_delete_eq.
      * apply lookup_delete_eq.
      * rewrite lookup_delete_ne by discriminate. apply lookup_delete_eq.
      * apply lookup_delete_eq.
    + eexists. split; [reflexivity|]. cbn [files with_files count_call]. apply Hleft.
  - eexists. split; [reflexivity|]. cbn [files with_files count_call]. apply Hleft.
Qed.

(** A directory in the way of a temporary file: the write raises and no
    request is sent. *)
Lemma outpaint_blocked (canvas : image) (inner_box : Z * Z * Z * Z) (prompt : string)
    (w : world) :
  files w !! "temp_canvas.png" = Some Dir ->
  outpaint canvas inner_box prompt w = (Raised (IsADirectoryError "temp_canvas.png"), w).
Proof.
  intros Hd. unfold outpaint_with_dalle, ImageProcessing.save, bind, write_file.
  rewrite Hd. reflexivity.
Qed.

End Client.

Lemma outpaint_temp_files_cleanup_witness :
  (exists w', toy_outpaint flaky_edit (grey 1024 1024) (225, 225, 799, 799)%Z "a beach"
                (empty_disk 0) = (Raised (APIError "rate limit reached"), w')
              /\ is_Some (files w' !! "temp_canvas.png")
              /\ is_Some (files w' !! "temp_mask.png"))
  /\ (exists r w', toy_outpaint flaky_edit (grey 1024 1024) (225, 225, 799, 799)%Z "a beach"
                     (empty_disk 1) = (r, w')
                   /\ files w' !! "temp_canvas.png" = None
                   /\ files w' !! "temp_mask.png" = None)
  /\ (exists w', toy_outpaint garbled_edit (grey 1024 1024) (225, 225, 799, 799)%Z "a beach"
                   (empty_disk 0) = (Raised (ValueError "Incorrect padding"), w')
                 /\ is_Some (files w' !! "temp_canvas.png")
                 /\ is_Some (files w' !! "temp_mask.png")).
Proof.
  split; [|split].
  - destruct (outpaint_temp_files_cleanup (fun _ _ p => p) flaky_edit toy_b64decode
                (fun _ => Some (grey 1024 1024)) (grey 1024 1024) (225, 225, 799, 799)%Z
                "a beach" (empty_disk 0)) as (w' & Hrun & H1 & H2);
      [discriminate | discriminate |].
    exists w'. split; [exact Hrun|]. rewrite H1, H2. split; eexists; reflexivity.
  - destruct (outpaint_temp_files_cleanup (fun _ _ p => p) flaky_edit toy_b64decode
                (fun _ => Some (grey 1024 1024)) (grey 1024 1024) (225, 225, 799, 799)%Z
                "a beach" (empty_disk 1)) as (r & w' & Hrun & _ & H1 & H2);
      [discriminate | discriminate |].
    exists r, w'. split; [exact Hrun|]. split; [exact H1 | exact H2].
  - destruct (outpaint_temp_files_cleanup (fun _ _ p => p) garbled_edit toy_b64decode
                (fun _ => Some (grey 1024 1024)) (grey 1024 1024) (225, 225, 799, 799)%Z
                "a beach" (empty_disk 0)) as (w' & Hrun & H1 & H2);
      [discriminate | discriminate |].
    exists w'. split; [exact Hrun|]. rewrite H1, H2. split; eexists; reflexivity.
Defined.

End OutpaintFacts.

(** ** Paths *)

Module PathFacts.
Import PyStr Yaml Effects Processor.

Lemma app_empty (b : string) : "" +:+ b = b.
Proof. reflexivity. Qed.

Lemma app_String (c : ascii) (a b : string) : String c a +:+ b = String c (a +:+ b).
Proof. reflexivity. Qed.

Lemma last_char_app (a b : string) :
  last_char (a +:+ b) = match last_char b with Some c => Some c | None => last_char a end.
Proof.
  induction a as [|c a IH].
  - rewrite app_empty. destruct (last_char b); reflexivity.
  - rewrite app_String. cbn [last_char]. rewrite IH.
    destruct (last_char b); reflexivity.
Qed.

Lemma last_char_join (a b : string) (c : ascii) :
  last_char b = Some c -> last_char (a </> b) = Some c.
Proof.
  intros Hb. unfold path_join. rewrite !last_char_app, Hb. reflexivity.
Qed.

Lemma string_length_app (a b : string) :
  String.length (a +:+ b) = String.length a + String.length b.
Proof.
  induction a as [|c a IH]; [reflexivity|].
  rewrite app_String. cbn [String.length]. rewrite IH. reflexivity.
Qed.

Lemma string_app_inv_tail (a b s : string) : a +:+ s = b +:+ s -> a = b.
Proof.
  revert b. induction a as [|c a IH]; intros [|d b]; rewrite ?app_empty, ?app_String; intros H.
  - reflexivity.
  - apply (f_equal String.length) in H. cbn [String.length] in H.
    rewrite string_length_app in H. lia.
  - apply (f_equal String.length) in H. cbn [String.length] in H.
    rewrite string_length_app in H. lia.
  - injection H as -> H. f_equal. apply IH, H.
Qed.

Lemma marker_file_inj (p q : string) : marker_file p = marker_file q -> p = q.
Proof. unfold marker_file, path_join. apply string_app_inv_tail. Qed.

Lemma path_join_inj (dir a b : string) : dir </> a = dir </> b -> a = b.
Proof.
  unfold path_join. intros H. apply String.app_inj in H. injection H as H. exact H.
Qed.

(** A marker file is no results folder and no picture. *)
Lemma marker_not_results (d campaign_path : string) :
  marker_file d <> campaign_path </> Config.RESULTS_DIR.
Proof.
  intros H. apply (f_equal last_char) in H. unfold marker_file in H.
  rewrite (last_char_join d "meta.yaml" "l"%char eq_refl) in H.
  rewrite (last_char_join campaign_path Config.RESULTS_DIR "s"%char eq_refl) in H.
  discriminate.
Qed.

Lemma marker_not_png (d stem : string) : marker_file d <> stem +:+ ".png".
Proof.
  intros H. apply (f_equal last_char) in H. unfold marker_file in H.
  rewrite (last_char_join d "meta.yaml" "l"%char eq_refl) in H.
  rewrite last_char_app in H. discriminate.
Qed.

Lemma strip_prefix_app (pre s r : string) : strip_prefix pre s = Some r -> s = pre +:+ r.
Proof.
  revert s. induction pre as [|c pre IH]; intros s; simpl.
  - intros [= ->]. reflexivity.
  - destruct s as [|d s]; [discriminate|].
    destruct (Ascii.eqb c d) eqn:E; [|discriminate].
    apply Ascii.eqb_eq in E. subst d. intros H. rewrite (IH s H). reflexivity.
Qed.

Lemma child_name_path (dir key name : string) :
  child_name dir key = Some name -> key = dir </> name.
Proof.
  unfold child_name. destruct (strip_prefix (dir +:+ "/") key) as [n|] eqn:E; [|discriminate].
  destruct (_ || _); [discriminate|]. intros [= <-].
  apply strip_prefix_app in E. rewrite E. unfold path_join.
  clear E. induction dir as [|c dir IH]; [reflexivity|].
  rewrite !app_String. f_equal. exact IH.
Qed.

Lemma iterdir_names_NoDup (dir : string) (fs : gmap string node) :
  NoDup (omap (child_name dir) (map_to_list fs).*1).
Proof.
  pose proof (NoDup_fst_map_to_list fs) as Hnd.
  induction Hnd as [|k keys Hk _ IH]; simpl; [constructor|].
  destruct (child_name dir k) as [n|] eqn:E; [|exact IH].
  constructor; [|exact IH].
  intros Hin. apply list_elem_of_omap in Hin as (k' & Hk' & E').
  apply child_name_path in E, E'. subst k k'. exact (Hk Hk').
Qed.

End PathFacts.

(** ** The brief loader *)

Module LoaderFacts.
Import PyStr Yaml Img Effects Outcome OutcomeFacts PathFacts Loader Fixtures.

Lemma dict_get_set_eq (k : string) (v : yaml) (d : dict) :
  dict_get k (dict_set k v d) = Some v.
Proof.
  induction d as [|[k' v'] d IH]; simpl.
  - rewrite String.eqb_refl. reflexivity.
  - destruct (String.eqb k' k) eqn:E; simpl.
    + rewrite String.eqb_refl. reflexivity.
    + rewrite E. exact IH.
Qed.

Lemma dict_get_set_ne (k k' : string) (v : yaml) (d : dict) :
  k <> k' -> dict_get k' (dict_set k v d) = dict_get k' d.
Proof.
  intros Hne. induction d as [|[k0 v0] d IH]; simpl.
  - apply String.eqb_neq in Hne. rewrite Hne. reflexivity.
  - destruct (String.eqb k0 k) eqn:E; simpl.
    + apply String.eqb_eq in E. subst k0. apply String.eqb_neq in Hne. rewrite Hne. reflexivity.
    + destruct (String.eqb k0 k'); [reflexivity | exact IH].
Qed.

Lemma only_logged_refl (w : world) : only_logged w w.
Proof. repeat split. exists []. rewrite app_nil_r. reflexivity. Qed.

Lemma only_logged_trans (w1 w2 w3 : world) :
  only_logged w1 w2 -> only_logged w2 w3 -> only_logged w1 w3.
Proof.
  intros (Hf & Hh & Ha & Hn & l1 & Hl1) (Hf' & Hh' & Ha' & Hn' & l2 & Hl2).
  repeat split; try congruence. exists (l1 ++ l2)%list. rewrite Hl2, Hl1. symmetry. apply app_assoc.
Qed.

Lemma only_logged_line (w : world) (line : level * string) :
  only_logged w (with_log (log w ++ [line]) w).
Proof. repeat split. exists [line]. reflexivity. Qed.

Ltac logged_step :=
  eexists _, _; (split; [reflexivity|]);
  split; [first [apply only_logged_refl | apply only_logged_line]
         | first [reflexivity | split; reflexivity]].

(** The completed-campaign check: it only logs, it answers [true] exactly
    for a marker that says done, and [false] only for a marker it lets
    through. *)
Lemma already_completed_spec (campaign_dir name : string) (w : world) :
  exists r w',
    already_completed campaign_dir name w = (r, w')
    /\ only_logged w w'
    /\ match r with
       | Returned skip =>
           skip = marked_done w campaign_dir
           /\ marker_lets_through w campaign_dir = negb skip
       | Raised e => marked_done w campaign_dir = false
       end.
Proof.
  unfold already_completed, marked_done, marker_lets_through, bind, path_exists, try_except,
    safe_load_file, reports_done, ret, raise, logger.
  destruct (files w !! (campaign_dir </> "meta.yaml")) as [[|[[doc|]|im]]|] eqn:E;
    simpl; rewrite ?E; simpl.
  - logged_step.
  - destruct doc as [|b|n|s|items|fields]; simpl.
    + logged_step.
    + destruct b; simpl; logged_step.
    + destruct (n =? 0)%Z; simpl; logged_step.
    + destruct (String.eqb s ""); simpl; logged_step.
    + destruct items; simpl; logged_step.
    + remember (eq_str (default (YStr "") (dict_get "status" fields)) "done") as dn eqn:Edn.
      destruct fields as [|kv fields]; cbn [truthy negb orb].
      * subst dn. logged_step.
      * destruct dn; logged_step.
  - logged_step.
  - logged_step.
  - logged_step.
Qed.


(** One pass of the loop: it only logs; when it returns, the list is the
    same or one brief longer, the new brief carrying the folder's name and
    path, and a brief is only added for a folder not marked done. *)
Lemma visit_campaign_spec (campaigns_dir name : string) (briefs : list yaml) (w : world) :
  exists r w',
    visit_campaign campaigns_dir name briefs w = (r, w')
    /\ only_logged w w'
    /\ match r with
       | Returned bs =>
           bs = briefs
           \/ exists b,
               bs = (briefs ++ [b])%list
               /\ brief_name b = Some (YStr name)
               /\ brief_path b = Some (YStr (campaigns_dir </> name))
               /\ marker_lets_through w (campaigns_dir </> name) = true
       | Raised e => True
       end.
Proof.
  unfold visit_campaign. unfold bind at 1. unfold is_dir at 1.
  destruct (files w !! (campaigns_dir </> name)) as [[|data]|] eqn:Edir;
    try (eexists _, _; split; [reflexivity|]; split; [apply only_logged_refl | left; reflexivity]).
  destruct (already_completed_spec (campaigns_dir </> name) name w) as (r & w1 & Hrun & Hlog & Hr).
  unfold bind at 1. rewrite Hrun. destruct r as [skip|e].
  2:{ eexists _, _. split; [reflexivity|]. split; [exact Hlog | exact I]. }
  destruct skip.
  { eexists _, _. split; [reflexivity|]. split; [exact Hlog | left; reflexivity]. }
  destruct Hr as [_ Hr]. cbn [negb] in Hr. pose proof Hlog as (Hfiles & _).
  unfold bind at 1. unfold path_exists at 1. rewrite Hfiles.
  destruct (files w !! (campaigns_dir </> name </> Config.BRIEF_FILE)) as [nd|] eqn:Ebrief.
  2:{ eexists _, _. split; [reflexivity|]. split; [exact Hlog | left; reflexivity]. }
  unfold try_except, bind at 1. unfold safe_load_file at 1. rewrite Hfiles, Ebrief.
  destruct nd as [|[[doc|]|im]].
  - eexists _, _. split; [reflexivity|]. split; [exact Hlog | exact I].
  - destruct doc as [|b|n|s|items|fields];
      try (eexists _, _; split; [reflexivity|]; split; [exact Hlog | exact I]).
    eexists _, _. split; [reflexivity|]. split.
    + eapply only_logged_trans; [exact Hlog | apply only_logged_line].
    + right. eexists. split; [reflexivity|]. cbn [brief_name brief_path].
      split; [|split; [|exact Hr]].
      * rewrite dict_get_set_ne by discriminate. apply dict_get_set_eq.
      * apply dict_get_set_eq.
  - eexists _, _. split; [reflexivity|]. split; [|left; reflexivity].
    eapply only_logged_trans; [exact Hlog | apply only_logged_line].
  - eexists _, _. split; [reflexivity|]. split; [exact Hlog | exact I].
Qed.


Lemma Forall2_In_r {A B} (P : A -> B -> Prop) (l : list A) (k : list B) (b : B) :
  Forall2 P l k -> In b k -> exists a, P a b.
Proof.
  induction 1 as [|a b' l k Hab _ IH]; simpl; [tauto|].
  intros [<- | Hin]; [exists a; exact Hab | exact (IH Hin)].
Qed.

Lemma marked_done_only_logged (w w' : world) (campaign_dir : string) :
  only_logged w w' -> marked_done w' campaign_dir = marked_done w campaign_dir.
Proof. intros (Hf & _). unfold marked_done. rewrite Hf. reflexivity. Qed.

Lemma marker_lets_through_only_logged (w w' : world) (campaign_dir : string) :
  only_logged w w' ->
  marker_lets_through w' campaign_dir = marker_lets_through w campaign_dir.
Proof. intros (Hf & _). unfold marker_lets_through. rewrite Hf. reflexivity. Qed.

(** A marker the check lets through is a file (or absent) and does not
    say done. *)
Lemma lets_through_not_done (w : world) (campaign_dir : string) :
  marker_lets_through w campaign_dir = true ->
  marked_done w campaign_dir = false
  /\ files w !! (campaign_dir </> "meta.yaml") <> Some Dir.
Proof.
  unfold marker_lets_through, marked_done.
  destruct (files w !! (campaign_dir </> "meta.yaml")) as [[|[[doc|]|im]]|];
    try discriminate; try (split; [reflexivity | discriminate]).
  destruct doc as [|b|n|s|items|fields]; try (split; [reflexivity | discriminate]).
  destruct fields as [|kv fields]; cbn [truthy negb orb].
  - split; [reflexivity | discriminate].
  - intros H. apply negb_true_iff in H. split; [exact H | discriminate].
Qed.

(** The scan only logs; the briefs it adds come, in order, from a
    sub-sequence of the names it was given. *)
Lemma scan_campaigns_spec (campaigns_dir : string) (names : list string)
    (briefs : list yaml) (w : world) :
  exists r w',
    scan_campaigns campaigns_dir names briefs w = (r, w')
    /\ only_logged w w'
    /\ match r with
       | Returned bs =>
           exists taken added,
             bs = (briefs ++ added)%list
             /\ sublist taken names
             /\ Forall2 (loaded_from w campaigns_dir) taken added
       | Raised e => True
       end.
Proof.
  revert briefs w. induction names as [|name rest IH]; intros briefs w; simpl.
  - eexists _, _. split; [reflexivity|]. split; [apply only_logged_refl|].
    exists [], []. rewrite app_nil_r. repeat split; constructor.
  - destruct (visit_campaign_spec campaigns_dir name briefs w) as (r & w1 & Hrun & Hlog & Hr).
    unfold bind. rewrite Hrun. destruct r as [bs|e].
    2:{ eexists _, _. split; [reflexivity|]. split; [exact Hlog | exact I]. }
    destruct (IH bs w1) as (r2 & w2 & Hrun2 & Hlog2 & Hr2). rewrite Hrun2.
    eexists _, _. split; [reflexivity|].
    split; [eapply only_logged_trans; eassumption|].
    destruct r2 as [bs2|e2]; [|exact I].
    destruct Hr2 as (taken & added & -> & Hsub & Hall).
    assert (Hall' : Forall2 (loaded_from w campaigns_dir) taken added).
    { eapply Forall2_impl; [exact Hall|]. intros n b (H1 & H2 & H3).
      repeat split; try assumption.
      rewrite <- (marker_lets_through_only_logged w w1 _ Hlog). exact H3. }
    destruct Hr as [-> | (b & -> & Hb)].
    + exists taken, added. split; [reflexivity|]. split; [|exact Hall'].
      apply sublist_cons, Hsub.
    + exists (name :: taken), (b :: added). split; [rewrite <- app_assoc; reflexivity|].
      split; [apply sublist_skip, Hsub|]. constructor; [exact Hb | exact Hall'].
Qed.

Lemma load_campaign_briefs_spec (campaigns_dir : option string) (w : world) :
  exists r w',
    load_campaign_briefs campaigns_dir w = (r, w')
    /\ only_logged w w'
    /\ match r with
       | Returned bs =>
           exists taken,
             NoDup taken
             /\ Forall2 (loaded_from w (default Config.CAMPAIGNS_DIR campaigns_dir)) taken bs
       | Raised e => True
       end.
Proof.
  unfold load_campaign_briefs. set (dir := default Config.CAMPAIGNS_DIR campaigns_dir).
  unfold bind at 1. unfold path_exists at 1.
  destruct (files w !! dir) as [nd|] eqn:Edir; cbn [negb].
  2:{ eexists _, _. split; [reflexivity|]. split; [apply only_logged_line|].
      exists []. split; constructor. }
  unfold bind at 1. unfold iterdir at 1. rewrite Edir. destruct nd as [|data].
  2:{ eexists _, _. split; [reflexivity|]. split; [apply only_logged_refl | exact I]. }
  destruct (scan_campaigns_spec dir (omap (child_name dir) (map_to_list (files w)).*1) [] w)
    as (r & w' & Hrun & Hlog & Hr).
  rewrite Hrun. eexists _, _. split; [reflexivity|]. split; [exact Hlog|].
  destruct r as [bs|e]; [|exact I].
  destruct Hr as (taken & added & -> & Hsub & Hall). exists taken. split; [|exact Hall].
  exact (sublist_NoDup _ _ (iterdir_names_NoDup dir (files w)) Hsub).
Qed.


(** C1. A campaign folder whose [meta.yaml] parses to a mapping with
    [status: done] is never among the returned briefs, whatever its brief
    file is (valid, malformed or missing): no returned brief carries its
    name or its path, and the pass over that folder returns the list as it
    was, logging the skip. *)
Theorem load_campaign_briefs_excludes_done (campaigns_dir : option string)
    (name : string) (fields : dict) (w : world) :
  let dir := default Config.CAMPAIGNS_DIR campaigns_dir in
  files w !! (dir </> name </> "meta.yaml") = Some (File (YamlText (Some (YDict fields)))) ->
  dict_get "status" fields = Some (YStr "done") ->
  (forall briefs w',
      load_campaign_briefs campaigns_dir w = (Returned briefs, w') ->
      forall b, In b briefs ->
        brief_name b <> Some (YStr name) /\ brief_path b <> Some (YStr (dir </> name)))
  /\ (forall briefs,
      files w !! (dir </> name) = Some Dir ->
      visit_campaign dir name briefs w
      = (Returned briefs,
         with_log (log w ++ [(INFO, "Skipping completed campaign: " +:+ name)]) w)).
Proof.
  intros dir Hmeta Hstatus.
  assert (Hdone : marked_done w (dir </> name) = true).
  { unfold marked_done. rewrite Hmeta, Hstatus. reflexivity. }
  split.
  - intros briefs w' Hrun b Hb.
    destruct (load_campaign_briefs_spec campaigns_dir w) as (r & w1 & Hrun' & _ & Hr).
    rewrite Hrun in Hrun'. injection Hrun' as <- <-.
    destruct Hr as (taken & _ & Hall). fold dir in Hall.
    destruct (Forall2_In_r _ _ _ b Hall Hb) as (n & Hn & Hp & Hm).
    apply lets_through_not_done in Hm as [Hm _].
    split; intros E; rewrite E in *.
    + injection Hn as <-. congruence.
    + injection Hp as Hp. rewrite <- Hp in Hm. congruence.
  - intros briefs Hdir.
    unfold visit_campaign. unfold bind at 1. unfold is_dir at 1. rewrite Hdir.
    unfold bind at 1. unfold already_completed. fold dir.
    unfold bind at 1. unfold path_exists at 1. rewrite Hmeta.
    unfold try_except, bind at 1. unfold safe_load_file at 1. rewrite Hmeta.
    unfold bind at 1. unfold reports_done.
    destruct fields as [|kv fields]; [discriminate Hstatus|]. cbn [truthy].
    unfold ret at 1. rewrite Hstatus. reflexivity.
Qed.

Lemma load_campaign_briefs_excludes_done_witness :
  load_campaign_briefs None done_disk
  = (Returned [loaded_brief "c2" "Eco Bottle"],
     with_log [(INFO, "Skipping completed campaign: c1"); (INFO, "Loaded campaign: c2")]
       done_disk)
  /\ Forall (fun b => brief_name b <> Some (YStr "c1"))
       match fst (load_campaign_briefs None done_disk) with
       | Returned briefs => briefs
       | Raised _ => []
       end.
Proof.
  split; [vm_compute; reflexivity|].
  destruct (load_campaign_briefs None done_disk) as [[briefs|e] w'] eqn:Hrun; [|constructor].
  apply Forall_forall. intros b Hb.
  destruct (load_campaign_briefs_excludes_done None "c1"
              [("status", YStr "done"); ("completed_at", YStr "2024-01-01T00:00:00")]
              done_disk) as [Hout _]; [reflexivity | reflexivity |].
  apply list_elem_of_In in Hb. exact (proj1 (Hout briefs w' Hrun b Hb)).
Defined.


(** The check lets the folder through: it returns [false] and only logs. *)
Lemma already_completed_lets_through (campaign_dir name : string) (w : world) :
  marker_lets_through w campaign_dir = true ->
  exists w', already_completed campaign_dir name w = (Returned false, w')
             /\ only_logged w w'.
Proof.
  intros Hpass.
  destruct (already_completed_spec campaign_dir name w) as (r & w' & Hrun & Hlog & Hr).
  exists w'. split; [|exact Hlog]. rewrite Hrun. f_equal.
  revert Hrun Hr Hpass.
  unfold already_completed, marker_lets_through, marked_done, bind, path_exists, try_except,
    safe_load_file, reports_done, ret, raise, logger.
  destruct (files w !! (campaign_dir </> "meta.yaml")) as [[|[[doc|]|im]]|] eqn:E;
    simpl; rewrite ?E; simpl; try discriminate.
  - destruct doc as [|b|n|s|items|fields]; simpl.
    + intros [= <- _]. reflexivity.
    + destruct b; simpl; [discriminate|]. intros [= <- _]. reflexivity.
    + destruct (n =? 0)%Z; simpl; [|discriminate]. intros [= <- _]. reflexivity.
    + destruct (String.eqb s ""); simpl; [|discriminate]. intros [= <- _]. reflexivity.
    + destruct items; simpl; [|discriminate]. intros [= <- _]. reflexivity.
    + remember (eq_str (default (YStr "") (dict_get "status" fields)) "done") as dn eqn:Edn.
      destruct fields as [|kv fields]; cbn [truthy negb orb].
      * intros [= <- _]. reflexivity.
      * destruct dn; [discriminate|]. intros [= <- _]. reflexivity.
  - intros [= <- _]. reflexivity.
  - intros [= <- _]. reflexivity.
Qed.

(** C4, as stated, fails: the brief of campaign c1 is malformed, yet the
    loader logs no error (the whole log is two INFO lines), because the
    folder is marked done and skipped before its brief is looked at. *)
Lemma load_malformed_brief_counterexample :
  files done_disk !! "campaigns/c1" = Some Dir
  /\ files done_disk !! "campaigns/c1/brief.yaml" = Some (File (YamlText None))
  /\ load_campaign_briefs None done_disk
     = (Returned [loaded_brief "c2" "Eco Bottle"],
        with_log [(INFO, "Skipping completed campaign: c1"); (INFO, "Loaded campaign: c2")]
          done_disk)
  /\ forallb (fun line => match fst line with ERROR => false | _ => true end)
       (log (snd (load_campaign_briefs None done_disk))) = true.
Proof. repeat split; vm_compute; reflexivity. Qed.

(** C4 (amended). For a campaign folder that the completed-campaign check
    lets through and whose brief file exists but is not YAML, the pass over
    the folder returns (it does not raise) the list as it was, only logs,
    and the log gets the error line; the scan then goes on with the
    remaining folders. *)
Theorem load_campaign_briefs_skips_malformed (campaigns_dir name : string)
    (rest : list string) (briefs : list yaml) (w : world) :
  files w !! (campaigns_dir </> name) = Some Dir ->
  marker_lets_through w (campaigns_dir </> name) = true ->
  files w !! (campaigns_dir </> name </> Config.BRIEF_FILE) = Some (File (YamlText None)) ->
  exists w',
    visit_campaign campaigns_dir name briefs w = (Returned briefs, w')
    /\ only_logged w w'
    /\ In (ERROR, "Failed to parse " +:+ (campaigns_dir </> name </> Config.BRIEF_FILE)
                  +:+ ": " +:+ exn_str YAMLError) (log w')
    /\ scan_campaigns campaigns_dir (name :: rest) briefs w
       = scan_campaigns campaigns_dir rest briefs w'.
Proof.
  intros Hdir Hpass Hbrief.
  destruct (already_completed_lets_through (campaigns_dir </> name) name w Hpass)
    as (w1 & Hrun & Hlog).
  pose proof Hlog as (Hfiles & _).
  assert (Hvisit : visit_campaign campaigns_dir name briefs w
                   = (Returned briefs,
                      with_log (log w1 ++ [(ERROR, "Failed to parse "
                          +:+ (campaigns_dir </> name </> Config.BRIEF_FILE)
                          +:+ ": " +:+ exn_str YAMLError)]) w1)).
  { unfold visit_campaign. unfold bind at 1. unfold is_dir at 1. rewrite Hdir.
    unfold bind at 1. rewrite Hrun.
    unfold bind at 1. unfold path_exists at 1. rewrite Hfiles, Hbrief.
    unfold try_except, bind at 1. unfold safe_load_file at 1. rewrite Hfiles, Hbrief.
    reflexivity. }
  eexists. split; [exact Hvisit|]. split; [|split].
  - eapply only_logged_trans; [exact Hlog | apply only_logged_line].
  - cbn [log with_log]. apply in_or_app. right. left. reflexivity.
  - simpl. unfold bind at 1. rewrite Hvisit. reflexivity.
Qed.

Lemma load_campaign_briefs_skips_malformed_witness :
  exists w',
    visit_campaign "campaigns" "c1" [] bad_brief_disk = (Returned [], w')
    /\ In (ERROR, "Failed to parse campaigns/c1/brief.yaml: YAMLError") (log w')
    /\ scan_campaigns "campaigns" ["c1"; "c2"] [] bad_brief_disk
       = scan_campaigns "campaigns" ["c2"] [] w'.
Proof.
  destruct (load_campaign_briefs_skips_malformed "campaigns" "c1" ["c2"] [] bad_brief_disk)
    as (w' & Hvisit & _ & Herr & Hscan); [reflexivity | reflexivity | reflexivity |].
  exists w'. split; [exact Hvisit|]. split; [exact Herr | exact Hscan].
Defined.

End LoaderFacts.

(** ** The campaign driver *)

Module ProcessorFacts.
Import PyStr Yaml Img Effects Outcome OutcomeFacts PathFacts Loader LoaderFacts Processor Fixtures.

Lemma same_markers_refl (fs : gmap string node) : same_markers fs fs.
Proof. intros d. reflexivity. Qed.

Lemma same_markers_trans (f1 f2 f3 : gmap string node) :
  same_markers f1 f2 -> same_markers f2 f3 -> same_markers f1 f3.
Proof. intros H12 H23 d. rewrite H23. apply H12. Qed.

Lemma nothing_lost_refl (fs : gmap string node) : nothing_lost fs fs.
Proof. intros p _ H. exact H. Qed.

Lemma nothing_lost_trans (f1 f2 f3 : gmap string node) :
  nothing_lost f1 f2 -> nothing_lost f2 f3 -> nothing_lost f1 f3.
Proof. intros H12 H23 p Hp H. apply (H23 p Hp), (H12 p Hp), H. Qed.

Lemma nothing_lost_insert (fs : gmap string node) (p : string) (nd : node) :
  nothing_lost fs (<[p := nd]> fs).
Proof.
  intros q _ H. destruct (decide (p = q)) as [<- | Hne].
  - rewrite lookup_insert_eq. eauto.
  - rewrite lookup_insert_ne by exact Hne. exact H.
Qed.

Lemma asset_for_pure (assets : yaml) (i : nat) (w : world) :
  exists r, asset_for assets i w = (r, w).
Proof.
  unfold asset_for, try_except, index, ret, raise.
  destruct assets as [| | | s | items | fields]; try (eexists; reflexivity).
  - destruct (chars s !! i); eexists; reflexivity.
  - destruct (items !! i); eexists; reflexivity.
Qed.

(** Writing the marker: the call always returns; it stores the done
    document unless a directory sits at the marker's path, and touches no
    other path. *)
Lemma mark_campaign_done_spec (campaign_path : string) (w : world) :
  exists w',
    _mark_campaign_done campaign_path None w = (Returned tt, w')
    /\ ((files w !! marker_file campaign_path <> Some Dir
         /\ files w' = <[marker_file campaign_path
                         := File (YamlText (Some (done_document (now w))))]> (files w))
        \/ (files w !! marker_file campaign_path = Some Dir /\ files w' = files w)).
Proof.
  unfold _mark_campaign_done, bind, isoformat_now, try_except, write_file.
  destruct (files w !! marker_file campaign_path) as [[|data]|] eqn:E.
  - eexists. split; [reflexivity|]. right. split; reflexivity.
  - eexists. split; [reflexivity|]. left. split; [discriminate | reflexivity].
  - eexists. split; [reflexivity|]. left. split; [discriminate | reflexivity].
Qed.

(** What the loader hands to the loop: mappings with pairwise different
    folders, each let through by the completed-campaign check. *)
Lemma loaded_briefs_facts (w : world) (dir : string) (taken : list string)
    (briefs : list yaml) :
  NoDup taken ->
  Forall2 (loaded_from w dir) taken briefs ->
  Forall (fun b => exists fields, b = YDict fields) briefs
  /\ NoDup (brief_path <$> briefs)
  /\ Forall (fun b => exists n, loaded_from w dir n b) briefs.
Proof.
  intros Hnd Hall.
  assert (Hpaths : brief_path <$> briefs = (fun n => Some (YStr (dir </> n))) <$> taken).
  { clear Hnd. induction Hall as [|n b taken briefs (_ & Hb & _) _ IH]; [reflexivity|].
    rewrite !fmap_cons, Hb, IH. reflexivity. }
  split; [|split].
  - clear Hnd Hpaths. induction Hall as [|n b taken briefs (Hname & _) _ IH]; constructor.
    + destruct b; try discriminate. eexists. reflexivity.
    + exact IH.
  - rewrite Hpaths. apply NoDup_fmap_2; [|exact Hnd].
    intros a b [= H]. exact (path_join_inj dir a b H).
  - clear Hnd Hpaths. induction Hall as [|n b taken briefs Hb _ IH]; constructor.
    + exists n. exact Hb.
    + exact IH.
Qed.

Section WorkerContract.
Variable worker : yaml -> yaml -> yaml -> string -> string -> yaml -> M unit.

(** What the driver relies on. In the source the worker creates folders
    (assets, results, base, the language codes, the three ratios), writes
    files whose names all end in [.png], and removes only the two
    temporary files of outpainting: it never writes a [meta.yaml] and
    never deletes anything else. *)
Hypothesis worker_keeps_markers :
  forall brief product asset results_path campaign_path languages w,
    same_markers (files w)
      (files (snd (worker brief product asset results_path campaign_path languages w))).
Hypothesis worker_loses_nothing :
  forall brief product asset results_path campaign_path languages w,
    nothing_lost (files w)
      (files (snd (worker brief product asset results_path campaign_path languages w))).

Local Abbreviation products_of := (process_products worker).
Local Abbreviation campaign := (process_single_campaign worker).
Local Abbreviation campaigns := (process_campaigns worker).
Local Abbreviation all_returned := (all_products_returned worker).

Lemma process_products_spec (brief : yaml) (items : list yaml) (i total : nat)
    (assets : yaml) (results_path campaign_path : string) (languages : yaml) (w : world) :
  exists r w',
    products_of brief items i total assets results_path campaign_path languages w = (r, w')
    /\ same_markers (files w) (files w')
    /\ nothing_lost (files w) (files w')
    /\ match r with
       | Returned _ =>
           all_returned brief assets results_path campaign_path languages total i items w w'
       | Raised _ => True
       end.
Proof.
  revert i w. induction items as [|product rest IH]; intros i w.
  - eexists _, _. split; [reflexivity|].
    split; [apply same_markers_refl|]. split; [apply nothing_lost_refl | constructor].
  - cbn [process_products]. destruct (asset_for_pure assets i w) as [ra Ha].
    unfold bind at 1. rewrite Ha. destruct ra as [asset_file|e].
    2:{ eexists _, _. split; [reflexivity|].
        split; [apply same_markers_refl|]. split; [apply nothing_lost_refl | exact I]. }
    unfold bind at 1. unfold logger at 1. unfold bind at 1.
    set (w1 := with_log _ w).
    pose proof (worker_keeps_markers brief product asset_file results_path campaign_path
                  languages w1) as Hm.
    pose proof (worker_loses_nothing brief product asset_file results_path campaign_path
                  languages w1) as Hl.
    destruct (worker brief product asset_file results_path campaign_path languages w1)
      as [[[]|e] w2] eqn:Hw; cbn [snd] in Hm, Hl.
    2:{ eexists _, _. split; [reflexivity|]. split; [exact Hm|]. split; [exact Hl | exact I]. }
    destruct (IH (S i) w2) as (r & w3 & Hrun & Hm3 & Hl3 & Hr). rewrite Hrun.
    eexists _, _. split; [reflexivity|].
    split; [eapply same_markers_trans; [exact Hm | exact Hm3]|].
    split; [eapply nothing_lost_trans; [exact Hl | exact Hl3]|].
    destruct r as [u|e]; [|exact I].
    eapply apr_next; [exact Ha | exact Hw | exact Hr].
Qed.


(** One campaign: when the run raises, every marker file is as before;
    when it returns, the worker returned for every product of the brief,
    and writing the marker is the last thing done. *)
Lemma process_single_campaign_spec (brief : yaml) (w : world) :
  exists r w',
    campaign brief w = (r, w')
    /\ nothing_lost (files w) (files w')
    /\ match r with
       | Raised e => same_markers (files w) (files w')
       | Returned _ =>
           exists fields campaign_name campaign_path items w0 wn,
             brief = YDict fields
             /\ dict_get "campaign_name" fields = Some campaign_name
             /\ dict_get "campaign_path" fields = Some (YStr campaign_path)
             /\ fst (iterate (default (YList []) (dict_get "products" fields)) w)
                = Returned items
             /\ all_returned brief (default (YList []) (dict_get "assets" fields))
                  (campaign_path </> Config.RESULTS_DIR) campaign_path
                  (default (YList [YStr "English"]) (dict_get "languages" fields))
                  (length items) 0 items w0 wn
             /\ same_markers (files w) (files wn)
             /\ _mark_campaign_done campaign_path None
                  (with_log
                     (log wn ++ [(INFO, "Completed processing campaign: " +:+ str campaign_name);
                                 (INFO, "Results saved in: "
                                        +:+ (campaign_path </> Config.RESULTS_DIR))])
                     wn)
                = (Returned tt, w')
       end.
Proof.
  unfold process_single_campaign.
  destruct brief as [|b0|n0|s0|items0|fields];
    try (eexists _, _; split; [reflexivity|];
         split; [apply nothing_lost_refl | apply same_markers_refl]).
  unfold bind at 1. unfold getitem at 1.
  destruct (dict_get "campaign_name" fields) as [campaign_name|] eqn:Ename.
  2:{ eexists _, _. split; [reflexivity|].
      split; [apply nothing_lost_refl | apply same_markers_refl]. }
  unfold ret at 1. unfold bind at 1. unfold bind at 1. unfold getitem at 1.
  destruct (dict_get "campaign_path" fields) as [pv|] eqn:Epath.
  2:{ eexists _, _. split; [reflexivity|].
      split; [apply nothing_lost_refl | apply same_markers_refl]. }
  unfold ret at 1. unfold as_path at 1.
  destruct pv as [|pb|pn|campaign_path|pl|pf];
    try (eexists _, _; split; [reflexivity|];
         split; [apply nothing_lost_refl | apply same_markers_refl]).
  unfold ret at 1. unfold bind at 1. unfold logger at 1.
  set (w1 := with_log _ w).
  unfold bind at 1. unfold mkdir_exist_ok at 1.
  set (results_path := campaign_path </> Config.RESULTS_DIR).
  assert (Hstart : exists w2,
             nothing_lost (files w) (files w2) /\ same_markers (files w) (files w2)
             /\ match files w1 !! results_path with
                | Some Dir => (Returned tt, w1)
                | Some (File _) => (Raised (FileExistsError results_path), w1)
                | None => (Returned tt, with_files (<[results_path:=Dir]> (files w1)) w1)
                end
                = (match files w1 !! results_path with
                   | Some (File _) => Raised (FileExistsError results_path)
                   | _ => Returned tt
                   end, w2)).
  { destruct (files w1 !! results_path) as [[|data]|] eqn:Er.
    - exists w1. split; [apply nothing_lost_refl|]. split; [apply same_markers_refl | reflexivity].
    - exists w1. split; [apply nothing_lost_refl|]. split; [apply same_markers_refl | reflexivity].
    - eexists. split; [|split; [|reflexivity]].
      + apply nothing_lost_insert.
      + intros d. cbn [files with_files w1 with_log].
        apply lookup_insert_ne. intros E. exact (marker_not_results d campaign_path (eq_sym E)). }
  destruct Hstart as (w2 & Hl2 & Hm2 & ->).
  destruct (files w1 !! results_path) as [[|data]|] eqn:Er.
  2:{ eexists _, _. split; [reflexivity|]. split; assumption. }
  all: unfold bind at 1; unfold get_or at 1; unfold ret at 1;
    unfold bind at 1; unfold get_or at 1; unfold ret at 1;
    unfold bind at 1; unfold get_or at 1; unfold ret at 1;
    unfold bind at 1; unfold logger at 1;
    set (w3 := with_log _ w2);
    unfold bind at 1.
  all: assert (Hit : forall wa wb,
             fst (iterate (default (YList []) (dict_get "products" fields)) wa)
             = fst (iterate (default (YList []) (dict_get "products" fields)) wb)
             /\ snd (iterate (default (YList []) (dict_get "products" fields)) wa) = wa)
      by (intros wa wb; destruct (default (YList []) (dict_get "products" fields));
          split; reflexivity).
  all: destruct (iterate (default (YList []) (dict_get "products" fields)) w3)
      as [[items|e] w3'] eqn:Eit;
    pose proof (Hit w3 w) as [Hfst Hsnd]; rewrite Eit in Hfst, Hsnd; cbn [fst snd] in Hfst, Hsnd;
    subst w3'.
  2,4: eexists _, _; (split; [reflexivity|]); split; assumption.
  all: unfold bind at 1;
    destruct (process_products_spec (YDict fields) items 0 (length items)
                (default (YList []) (dict_get "assets" fields)) results_path campaign_path
                (default (YList [YStr "English"]) (dict_get "languages" fields)) w3)
      as (r & wn & Hrun & Hmn & Hln & Hr);
    rewrite Hrun; cbn [files with_log w3] in Hmn, Hln;
    destruct r as [u|e].
  2,4: eexists _, _; (split; [reflexivity|]); split;
    [eapply nothing_lost_trans; eassumption | eapply same_markers_trans; eassumption].
  all: unfold bind at 1; unfold logger at 1; unfold bind at 1; unfold logger at 1;
    cbn [log with_log];
    match goal with
    | |- context [_mark_campaign_done ?cp None ?wm] =>
        destruct (mark_campaign_done_spec cp wm) as (w' & Hmark & Hfiles)
    end;
    rewrite Hmark; eexists _, _; (split; [reflexivity|]); split.
  1,3: eapply nothing_lost_trans; [exact Hl2|]; eapply nothing_lost_trans; [exact Hln|];
    destruct Hfiles as [[_ ->] | [_ ->]]; [apply nothing_lost_insert | apply nothing_lost_refl].
  all: exists fields, campaign_name, campaign_path, items, w3, wn;
    repeat split; try assumption; try (symmetry; exact Hfst);
    try (eapply same_markers_trans; eassumption).
  all: rewrite <- Hmark; f_equal; unfold with_log; cbn [files heap api_calls now log];
    rewrite <- app_assoc; reflexivity.
Qed.


(** The loop stops at the first product whose worker raises: with that
    exception, in the world the worker left. *)
Lemma product_failure_ends_loop (brief assets : yaml) (results_path campaign_path : string)
    (languages : yaml) (total i : nat) (pre post : list yaml) (product asset_file : yaml)
    (w0 w1 w1' w2 : world) (e : exn) :
  all_returned brief assets results_path campaign_path languages total i pre w0 w1 ->
  asset_for assets (i + length pre) w1 = (Returned asset_file, w1') ->
  worker brief product asset_file results_path campaign_path languages
    (with_log (log w1' ++ [(INFO, product_line (i + length pre) total product)]) w1')
  = (Raised e, w2) ->
  products_of brief (pre ++ product :: post) i total assets results_path campaign_path
    languages w0
  = (Raised e, w2).
Proof.
  intros Hpre. induction Hpre as [i w|i p rest a w wa wb wc Ha Hw _ IH]; intros Hasset Hraise.
  - cbn [length] in Hasset, Hraise. rewrite Nat.add_0_r in Hasset, Hraise.
    cbn [app process_products]. unfold bind at 1. rewrite Hasset.
    unfold bind at 1. unfold logger at 1. unfold bind at 1. rewrite Hraise. reflexivity.
  - cbn [app process_products]. unfold bind at 1. rewrite Ha.
    unfold bind at 1. unfold logger at 1. unfold bind at 1. rewrite Hw.
    apply IH; cbn [length] in Hasset, Hraise;
      rewrite Nat.add_succ_r in Hasset, Hraise; assumption.
Qed.

(** C3. [process_single_campaign] writes the marker only as its last
    step, after the worker has returned for every product of the brief, in
    order: when the run returns, the marker was untouched up to the end of
    the product loop and holds status done afterwards (for an existing
    campaign folder with no directory sitting at the marker's path), no
    other campaign's marker having changed; when the run raises (in
    particular when the worker raises for some product, which ends the loop
    on the spot) no marker is written and every marker file on disk is
    what it was before the run. *)
Theorem marker_written_only_after_all_products (brief : yaml) (w : world) :
  (exists r w',
      process_single_campaign worker brief w = (r, w')
      /\ match r with
         | Raised e => same_markers (files w) (files w')
         | Returned _ =>
             exists fields campaign_name campaign_path items w0 wn,
               brief = YDict fields
               /\ dict_get "campaign_name" fields = Some campaign_name
               /\ dict_get "campaign_path" fields = Some (YStr campaign_path)
               /\ fst (iterate (default (YList []) (dict_get "products" fields)) w)
                  = Returned items
               /\ all_products_returned worker brief (default (YList []) (dict_get "assets" fields))
                    (campaign_path </> Config.RESULTS_DIR) campaign_path
                    (default (YList [YStr "English"]) (dict_get "languages" fields))
                    (length items) 0 items w0 wn
               /\ same_markers (files w) (files wn)
               /\ _mark_campaign_done campaign_path None
                    (with_log
                       (log wn
                        ++ [(INFO, "Completed processing campaign: " +:+ str campaign_name);
                            (INFO, "Results saved in: "
                                   +:+ (campaign_path </> Config.RESULTS_DIR))])
                       wn)
                  = (Returned tt, w')
               /\ (files w !! campaign_path = Some Dir ->
                   files w !! marker_file campaign_path <> Some Dir ->
                   files w' !! marker_file campaign_path
                   = Some (File (YamlText (Some (done_document (now wn)))))
                   /\ marked_done w' campaign_path = true)
               /\ (forall d, d <> campaign_path ->
                             files w' !! marker_file d = files w !! marker_file d)
         end)
  /\ (forall assets results_path campaign_path languages total pre post product asset_file
             w0 w1 w1' w2 e,
        all_products_returned worker brief assets results_path campaign_path languages total 0 pre w0 w1 ->
        asset_for assets (length pre) w1 = (Returned asset_file, w1') ->
        worker brief product asset_file results_path campaign_path languages
          (with_log (log w1' ++ [(INFO, product_line (length pre) total product)]) w1')
        = (Raised e, w2) ->
        process_products worker brief (pre ++ product :: post) 0 total assets results_path campaign_path
          languages w0
        = (Raised e, w2)).
Proof.
  split.
  - destruct (process_single_campaign_spec brief w) as (r & w' & Hrun & _ & Hr).
    exists r, w'. split; [exact Hrun|]. destruct r as [u|e]; [|exact Hr].
    destruct Hr as (fields & campaign_name & campaign_path & items & w0 & wn
                    & Hbrief & Hname & Hpath & Hitems & Hall & Hsame & Hmark).
    exists fields, campaign_name, campaign_path, items, w0, wn.
    repeat (split; [assumption|]).
    destruct (mark_campaign_done_spec campaign_path
                (with_log
                   (log wn
                    ++ [(INFO, "Completed processing campaign: " +:+ str campaign_name);
                        (INFO, "Results saved in: "
                               +:+ (campaign_path </> Config.RESULTS_DIR))])
                   wn)) as (w'' & Hmark' & Hcases).
    rewrite Hmark in Hmark'. injection Hmark' as <-.
    cbn [files now with_log] in Hcases. split.
    + intros _ Hfree. rewrite <- (Hsame campaign_path) in Hfree.
      destruct Hcases as [[_ Hfiles] | [Hdir _]]; [|destruct (Hfree Hdir)].
      assert (Hfile : files w' !! marker_file campaign_path
                      = Some (File (YamlText (Some (done_document (now wn)))))).
      { rewrite Hfiles. apply lookup_insert_eq. }
      split; [exact Hfile|]. unfold marked_done. fold (marker_file campaign_path).
      rewrite Hfile. reflexivity.
    + intros d Hd. rewrite <- (Hsame d).
      destruct Hcases as [[_ Hfiles] | [_ Hfiles]]; rewrite Hfiles; [|reflexivity].
      apply lookup_insert_ne. intros E. apply Hd. symmetry. exact (marker_file_inj _ _ E).
  - intros assets results_path campaign_path languages total pre post product asset_file
      w0 w1 w1' w2 e Hpre Hasset Hraise.
    exact (product_failure_ends_loop brief assets results_path campaign_path languages total 0
             pre post product asset_file w0 w1 w1' w2 e Hpre Hasset Hraise).
Qed.

(** *** The loop over the briefs *)

Lemma marked_done_same (w w' : world) (d : string) :
  files w' !! marker_file d = files w !! marker_file d ->
  marked_done w' d = marked_done w d.
Proof. unfold marked_done, marker_file. intros ->. reflexivity. Qed.

Lemma log_failure_dict (fields : dict) (e : exn) (w : world) :
  log_failure (YDict fields) e w
  = (Returned tt,
     with_log (log w ++ [(ERROR, "Failed to process campaign "
                                 +:+ str (default (YStr "unknown")
                                            (dict_get "campaign_name" fields))
                                 +:+ ": " +:+ exn_str e)]) w).
Proof. reflexivity. Qed.

(** One pass of the loop over a brief that is a mapping: it returns; it
    loses no file; a marker file either stays what it was or is the
    brief's own, now saying done; a failed run changes no marker at all. *)
Lemma attempt_spec (fields : dict) (w : world) :
  exists w',
    try_except (campaign (YDict fields)) is_exception (log_failure (YDict fields)) w
    = (Returned tt, w')
    /\ nothing_lost (files w) (files w')
    /\ (forall d,
          files w' !! marker_file d = files w !! marker_file d
          \/ (brief_path (YDict fields) = Some (YStr d) /\ marked_done w' d = true))
    /\ (fst (campaign (YDict fields) w) = Returned tt ->
        w' = snd (campaign (YDict fields) w)
        /\ forall d, brief_path (YDict fields) = Some (YStr d) ->
                     files w !! marker_file d <> Some Dir -> marked_done w' d = true)
    /\ (forall e, fst (campaign (YDict fields) w) = Raised e ->
        w' = failure_logged (YDict fields) e (snd (campaign (YDict fields) w))
        /\ same_markers (files w) (files w')).
Proof.
  destruct (process_single_campaign_spec (YDict fields) w) as (r & w1 & Hrun & Hlost & Hr).
  unfold try_except. rewrite Hrun. cbn [fst snd is_exception].
  destruct r as [[]|e].
  - destruct Hr as (fields' & cname & cpath & items & wa & wn & [= <-] & _ & Hpath & _ & _
                    & Hmn & Hmark).
    destruct (mark_campaign_done_spec cpath
                (with_log (log wn ++ [(INFO, "Completed processing campaign: " +:+ str cname);
                                      (INFO, "Results saved in: "
                                             +:+ (cpath </> Config.RESULTS_DIR))]) wn))
      as (w2 & Hmark' & Hfiles).
    rewrite Hmark in Hmark'. injection Hmark' as <-. cbn [files with_log now] in Hfiles.
    exists w1. split; [reflexivity|]. split; [exact Hlost|]. split; [|split].
    + intros d. destruct Hfiles as [[_ Hf] | [_ Hf]].
      * destruct (decide (d = cpath)) as [-> | Hne].
        -- right. split; [exact Hpath|]. unfold marked_done. fold (marker_file cpath).
           rewrite Hf, lookup_insert_eq. reflexivity.
        -- left. rewrite Hf, lookup_insert_ne; [apply Hmn|].
           intros E. apply marker_file_inj in E. congruence.
      * left. rewrite Hf. apply Hmn.
    + intros _. split; [reflexivity|]. intros d Hd Hnodir.
      cbn [brief_path] in Hd. rewrite Hpath in Hd. injection Hd as <-.
      destruct Hfiles as [[_ Hf] | [Hdir _]].
      * unfold marked_done. fold (marker_file cpath). rewrite Hf, lookup_insert_eq. reflexivity.
      * rewrite <- (Hmn cpath) in Hnodir. contradiction.
    + intros e [=].
  - rewrite log_failure_dict.
    eexists. split; [reflexivity|]. cbn [files with_log].
    split; [exact Hlost|]. split; [|split].
    + intros d. left. apply Hr.
    + intros [=].
    + intros e' [= <-]. split; [|exact Hr].
      unfold failure_logged. rewrite log_failure_dict. reflexivity.
Qed.

Lemma process_campaigns_spec (briefs : list yaml) (w : world) :
  Forall (fun b => exists fields, b = YDict fields) briefs ->
  exists w',
    campaigns briefs w = (Returned tt, w')
    /\ nothing_lost (files w) (files w')
    /\ (forall d, marked_done w d = true -> marked_done w' d = true)
    /\ (forall d, Some (YStr d) ∉ brief_path <$> briefs ->
                  files w' !! marker_file d = files w !! marker_file d).
Proof.
  intros Hdict. revert w. induction Hdict as [|b rest [fields ->] _ IH]; intros w.
  - exists w. split; [reflexivity|]. split; [apply nothing_lost_refl|]. split; auto.
  - cbn [process_campaigns]. destruct (attempt_spec fields w) as (w1 & Hrun & Hl & Hm & _).
    unfold bind. rewrite Hrun.
    destruct (IH w1) as (w2 & Hrun2 & Hl2 & Hdone2 & Hsame2). rewrite Hrun2.
    exists w2. split; [reflexivity|].
    split; [eapply nothing_lost_trans; eassumption|]. split.
    + intros d Hd. apply Hdone2. destruct (Hm d) as [Hsame | [_ Htrue]]; [|exact Htrue].
      rewrite (marked_done_same w w1 d Hsame). exact Hd.
    + intros d Hnot. rewrite fmap_cons in Hnot. apply not_elem_of_cons in Hnot as [Hne Hnot].
      rewrite (Hsame2 d Hnot).
      destruct (Hm d) as [Hsame | [Hpath _]]; [exact Hsame|].
      exfalso. apply Hne. symmetry. exact Hpath.
Qed.

Lemma process_campaigns_app (l1 l2 : list yaml) (w : world) :
  Forall (fun b => exists fields, b = YDict fields) l1 ->
  campaigns (l1 ++ l2) w = campaigns l2 (world_after worker l1 w).
Proof.
  intros Hdict. revert w. induction Hdict as [|b rest [fields ->] Hrest IH]; intros w.
  - reflexivity.
  - unfold world_after. cbn [app process_campaigns].
    destruct (attempt_spec fields w) as (w1 & Hrun & _).
    unfold bind. rewrite Hrun. rewrite IH. unfold world_after. reflexivity.
Qed.

(** C2. For the briefs the loader returned: when the run of one campaign
    raises, the loop catches the exception, logs it and goes on with every
    later brief, and [process_all_campaigns] returns. At the end the failed
    campaign is not marked done, while every earlier campaign whose run
    returned is marked done and none of the files present after its run
    has been lost (the worker's two temporary files apart). *)
Theorem process_all_campaigns_isolates_failure (w0 w1 : world) (pre post : list yaml)
    (b : yaml) (e : exn) :
  let briefs := (pre ++ b :: post)%list in
  let ws := loop_start briefs w1 in
  let wb := world_after worker pre ws in
  let w3 := snd (process_single_campaign worker b wb) in
  let w_end := world_after worker briefs ws in
  load_campaign_briefs None w0 = (Returned briefs, w1) ->
  fst (process_single_campaign worker b wb) = Raised e ->
  process_all_campaigns worker w0 = (Returned tt, w_end)
  /\ process_campaigns worker briefs ws
     = process_campaigns worker post (failure_logged b e w3)
  /\ (exists name,
        brief_name b = Some name
        /\ failure_logged b e w3
           = with_log (log w3 ++ [(ERROR, "Failed to process campaign " +:+ str name
                                          +:+ ": " +:+ exn_str e)]) w3)
  /\ (forall path, brief_path b = Some (YStr path) -> marked_done w_end path = false)
  /\ (forall pre1 c pre2 path,
        pre = (pre1 ++ c :: pre2)%list ->
        fst (process_single_campaign worker c (world_after worker pre1 ws)) = Returned tt ->
        brief_path c = Some (YStr path) ->
        marked_done w_end path = true
        /\ nothing_lost
             (files (snd (process_single_campaign worker c (world_after worker pre1 ws))))
             (files w_end)).
Proof.
  intros briefs ws wb w3 w_end Hload Hraise.
  destruct (load_campaign_briefs_spec None w0) as (r & w1' & Hload' & Hlog & Hr).
  rewrite Hload in Hload'. injection Hload' as <- <-.
  destruct Hr as (taken & Hnd & Hall). cbn [default] in Hall.
  destruct (loaded_briefs_facts w0 Config.CAMPAIGNS_DIR taken briefs Hnd Hall)
    as (Hdict & Hpaths & Hloaded).
  assert (Hfiles : files ws = files w0) by (destruct Hlog as [H _]; exact H).
  unfold briefs in Hdict, Hpaths, Hloaded.
  apply Forall_app in Hdict as [Hdpre Hdrest].
  pose proof Hdrest as Hdrest'. apply Forall_cons in Hdrest' as [[fb ->] Hdpost].
  apply Forall_app in Hloaded as [Hlpre Hlrest]. apply Forall_cons in Hlrest as [Hlb _].
  rewrite fmap_app, fmap_cons in Hpaths.
  apply NoDup_app in Hpaths as (Hnd_pre & Hpre_rest & Hrest).
  apply NoDup_cons in Hrest as [Hb_post _].
  assert (Hb_pre : brief_path (YDict fb) ∉ brief_path <$> pre).
  { intros Hin. apply (Hpre_rest _ Hin). apply list_elem_of_here. }
  (* the three legs of the loop: before, at and after the failing brief *)
  destruct (process_campaigns_spec pre ws Hdpre) as (wb' & Hrun_pre & _ & _ & Hs_pre).
  assert (Ewb : wb' = wb) by (unfold wb, world_after; rewrite Hrun_pre; reflexivity).
  subst wb'.
  destruct (attempt_spec fb wb) as (w4 & Hrun_b & _ & _ & _ & Hfail).
  destruct (Hfail e Hraise) as [Ew4 Hm_b]. fold w3 in Ew4.
  destruct (process_campaigns_spec post w4 Hdpost) as (w5 & Hrun_post & _ & _ & Hs_post).
  assert (Hcut : campaigns briefs ws = campaigns post (failure_logged (YDict fb) e w3)).
  { unfold briefs. rewrite (process_campaigns_app pre (YDict fb :: post) ws Hdpre).
    fold wb. cbn [process_campaigns]. unfold bind. rewrite Hrun_b, Ew4. reflexivity. }
  assert (Eend : w_end = w5).
  { unfold w_end, world_after. rewrite Hcut, <- Ew4, Hrun_post. reflexivity. }
  split; [|split; [exact Hcut|split; [|split]]].
  - assert (Hgoal : campaigns briefs ws = (Returned tt, w_end)).
    { rewrite Hcut, <- Ew4, Hrun_post, Eend. reflexivity. }
    unfold process_all_campaigns. unfold bind at 1. rewrite Hload.
    clear - Hgoal. clearbody w_end. unfold ws, loop_start, briefs in *.
    destruct pre; exact Hgoal.
  - destruct Hlb as (n & Hname & _). exists (YStr n). split; [exact Hname|].
    unfold failure_logged. rewrite log_failure_dict.
    cbn [brief_name] in Hname. rewrite Hname. reflexivity.
  - intros path Hpath. rewrite Eend.
    destruct Hlb as (n & _ & Hpath' & Hthrough).
    rewrite Hpath in Hpath'. injection Hpath' as ->.
    apply lets_through_not_done in Hthrough as [Hnot _].
    rewrite <- Hnot. apply marked_done_same.
    rewrite Hs_post by (rewrite <- Hpath; exact Hb_post).
    rewrite (Hm_b _).
    rewrite Hs_pre by (rewrite <- Hpath; exact Hb_pre).
    rewrite Hfiles. reflexivity.
  - intros pre1 c pre2 path Hsplit Hret Hpath.
    set (rest := (pre2 ++ YDict fb :: post)%list).
    assert (Hbriefs : briefs = (pre1 ++ c :: rest)%list).
    { unfold briefs, rest. rewrite Hsplit, <- app_assoc. reflexivity. }
    rewrite Hsplit in Hdpre, Hlpre, Hnd_pre.
    apply Forall_app in Hdpre as [Hd1 Hdc]. apply Forall_cons in Hdc as [[fc ->] Hd2].
    apply Forall_app in Hlpre as [_ Hlc]. apply Forall_cons in Hlc as [Hlc _].
    rewrite fmap_app, fmap_cons in Hnd_pre. apply NoDup_app in Hnd_pre as (_ & Hc_pre1 & _).
    assert (Hdrest2 : Forall (fun b => exists fields, b = YDict fields) rest).
    { apply Forall_app. split; [exact Hd2 | exact Hdrest]. }
    destruct Hlc as (n & _ & Hpath' & Hthrough).
    rewrite Hpath in Hpath'. injection Hpath' as ->.
    apply lets_through_not_done in Hthrough as [_ Hnodir].
    destruct (process_campaigns_spec pre1 ws Hd1) as (wc & Hrun1 & _ & _ & Hs1).
    assert (Ewc : world_after worker pre1 ws = wc)
      by (unfold world_after; rewrite Hrun1; reflexivity).
    rewrite Ewc in *.
    destruct (attempt_spec fc wc) as (wc' & Hrun_c & _ & _ & Hok & _).
    destruct (Hok Hret) as [Ewc' Hmarked]. rewrite <- Ewc'.
    assert (Hdone_c : marked_done wc' (Config.CAMPAIGNS_DIR </> n) = true).
    { apply Hmarked; [exact Hpath|]. fold (marker_file (Config.CAMPAIGNS_DIR </> n)) in Hnodir.
      rewrite Hs1; [rewrite Hfiles; exact Hnodir|].
      intros Hin. apply (Hc_pre1 _ Hin). rewrite <- Hpath. apply list_elem_of_here. }
    destruct (process_campaigns_spec rest wc' Hdrest2) as (wz & Hrun_z & Hl_z & Hd_z & _).
    assert (Ez : w_end = wz).
    { unfold w_end, world_after. rewrite Hbriefs.
      rewrite (process_campaigns_app pre1 (YDict fc :: rest) ws Hd1), Ewc.
      cbn [process_campaigns]. unfold bind. rewrite Hrun_c, Hrun_z. reflexivity. }
    rewrite Ez. split; [apply Hd_z, Hdone_c | exact Hl_z].
Qed.

End WorkerContract.

(** The toy worker keeps the contract: it writes one picture. *)
Lemma toy_worker_files (brief product asset : yaml) (results_path campaign_path : string)
    (languages : yaml) (w : world) :
  files (snd (toy_worker brief product asset results_path campaign_path languages w)) = files w
  \/ files (snd (toy_worker brief product asset results_path campaign_path languages w))
     = <[results_path </> (str product +:+ ".png") := File (PngImage (grey 8 8))]> (files w).
Proof.
  unfold toy_worker, bind, write_file.
  destruct (files w !! (results_path </> (str product +:+ ".png"))) as [[|data]|];
    [left; reflexivity | right | right];
    destruct (eq_str product "Broken"); reflexivity.
Qed.

Lemma toy_worker_keeps_markers (brief product asset : yaml)
    (results_path campaign_path : string) (languages : yaml) (w : world) :
  same_markers (files w)
    (files (snd (toy_worker brief product asset results_path campaign_path languages w))).
Proof.
  destruct (toy_worker_files brief product asset results_path campaign_path languages w)
    as [-> | ->]; [apply same_markers_refl|].
  intros d. apply lookup_insert_ne. intros E. apply (f_equal last_char) in E.
  unfold marker_file in E. rewrite (last_char_join d "meta.yaml" "l"%char eq_refl) in E.
  rewrite (last_char_join results_path (str product +:+ ".png") "g"%char) in E;
    [discriminate|]. rewrite last_char_app. reflexivity.
Qed.

Lemma toy_worker_loses_nothing (brief product asset : yaml)
    (results_path campaign_path : string) (languages : yaml) (w : world) :
  nothing_lost (files w)
    (files (snd (toy_worker brief product asset results_path campaign_path languages w))).
Proof.
  destruct (toy_worker_files brief product asset results_path campaign_path languages w)
    as [-> | ->]; [apply nothing_lost_refl | apply nothing_lost_insert].
Qed.

Lemma marker_written_only_after_all_products_witness :
  (exists w',
      process_single_campaign toy_worker (loaded_brief "c2" "Broken") two_campaigns
      = (Raised (APIError "content policy violation"), w')
      /\ files w' !! "campaigns/c2/meta.yaml" = None
      /\ is_Some (files w' !! "campaigns/c2/results/Broken.png"))
  /\ (exists w',
        process_single_campaign toy_worker (loaded_brief "c1" "Eco Bottle") two_campaigns
        = (Returned tt, w')
        /\ marked_done w' "campaigns/c1" = true
        /\ files w' !! "campaigns/c2/meta.yaml" = None).
Proof.
  split.
  - destruct (marker_written_only_after_all_products toy_worker toy_worker_keeps_markers
                toy_worker_loses_nothing (loaded_brief "c2" "Broken") two_campaigns)
      as [(r & w' & Hrun & Hr) _].
    exists w'.
    assert (Hfst : fst (process_single_campaign toy_worker (loaded_brief "c2" "Broken")
                          two_campaigns)
                   = Raised (APIError "content policy violation")) by (vm_compute; reflexivity).
    assert (Hpng : is_Some (files (snd (process_single_campaign toy_worker
                                          (loaded_brief "c2" "Broken") two_campaigns))
                            !! "campaigns/c2/results/Broken.png"))
      by (vm_compute; eexists; reflexivity).
    rewrite Hrun in Hfst, Hpng. cbn [fst snd] in Hfst, Hpng. subst r.
    split; [exact Hrun|]. split; [|exact Hpng].
    change "campaigns/c2/meta.yaml" with (marker_file "campaigns/c2").
    rewrite (Hr "campaigns/c2"). vm_compute. reflexivity.
  - destruct (marker_written_only_after_all_products toy_worker toy_worker_keeps_markers
                toy_worker_loses_nothing (loaded_brief "c1" "Eco Bottle") two_campaigns)
      as [(r & w' & Hrun & Hr) _].
    exists w'.
    assert (Hfst : fst (process_single_campaign toy_worker (loaded_brief "c1" "Eco Bottle")
                          two_campaigns)
                   = Returned tt) by (vm_compute; reflexivity).
    rewrite Hrun in Hfst. cbn [fst] in Hfst. subst r.
    destruct Hr as (fields & campaign_name & campaign_path & items & w0 & wn
                    & Hbrief & _ & Hpath & _ & _ & _ & _ & Hdone & Hothers).
    injection Hbrief as <-. injection Hpath as <-.
    split; [exact Hrun|]. split.
    + apply Hdone; [reflexivity | discriminate].
    + change "campaigns/c2/meta.yaml" with (marker_file "campaigns/c2").
      rewrite (Hothers "campaigns/c2"); [reflexivity | discriminate].
Defined.

Lemma process_all_campaigns_isolates_failure_witness :
  exists w_end,
    process_all_campaigns toy_worker two_campaigns = (Returned tt, w_end)
    /\ marked_done w_end "campaigns/c2" = false
    /\ marked_done w_end "campaigns/c1" = true
    /\ is_Some (files w_end !! "campaigns/c1/results/Eco Bottle.png").
Proof.
  destruct (process_all_campaigns_isolates_failure toy_worker toy_worker_keeps_markers
              toy_worker_loses_nothing two_campaigns
              (snd (load_campaign_briefs None two_campaigns))
              [loaded_brief "c1" "Eco Bottle"] [] (loaded_brief "c2" "Broken")
              (APIError "content policy violation"))
    as (Hall & _ & _ & Hfailed & Hearlier);
    [vm_compute; reflexivity | vm_compute; reflexivity |].
  eexists. split; [exact Hall|]. split; [exact (Hfailed "campaigns/c2" eq_refl)|].
  destruct (Hearlier [] (loaded_brief "c1" "Eco Bottle") [] "campaigns/c1" eq_refl)
    as [Hdone Hkept]; [vm_compute; reflexivity | reflexivity |].
  split; [exact Hdone|].
  apply Hkept; [reflexivity|]. vm_compute. eexists. reflexivity.
Defined.

End ProcessorFacts.


(** ** The loader, folder by folder *)

Module FolderFacts.
Import PyStr Yaml Effects Loader Outcome Folders Fixtures PathFacts LoaderFacts.

Lemma visit_campaign_returns (campaigns_dir name : string) (briefs bs : list yaml)
    (w w' : world) :
  visit_campaign campaigns_dir name briefs w = (Returned bs, w') ->
  bs = (briefs ++ option_list (folder_brief w campaigns_dir name))%list.
Proof.
  unfold visit_campaign, folder_brief. unfold bind at 1. unfold is_dir at 1.
  destruct (files w !! (campaigns_dir </> name)) as [[|data]|] eqn:Edir;
    try (intros [= <- <-]; rewrite app_nil_r; reflexivity).
  destruct (already_completed_spec (campaigns_dir </> name) name w) as (r & w1 & Hrun & Hlog & Hr).
  unfold bind at 1. rewrite Hrun. destruct r as [skip|e]; [|discriminate].
  destruct Hr as [<- _]. destruct skip.
  { intros [= <- <-]. rewrite app_nil_r. reflexivity. }
  pose proof Hlog as (Hfiles & _).
  unfold bind at 1. unfold path_exists at 1. rewrite Hfiles.
  destruct (files w !! (campaigns_dir </> name </> Config.BRIEF_FILE)) as [nd|] eqn:Ebrief.
  2:{ intros [= <- <-]. rewrite app_nil_r. reflexivity. }
  unfold try_except, bind at 1. unfold safe_load_file at 1. rewrite Hfiles, Ebrief.
  destruct nd as [|[[doc|]|im]]; try discriminate.
  - destruct doc as [|b|n|s|items|fields]; try discriminate.
    intros [= <- <-]. reflexivity.
  - intros [= <- <-]. rewrite app_nil_r. reflexivity.
Qed.

Lemma folder_brief_only_logged (w w' : world) (campaigns_dir name : string) :
  only_logged w w' -> folder_brief w' campaigns_dir name = folder_brief w campaigns_dir name.
Proof.
  intros Hlog. unfold folder_brief.
  rewrite (marked_done_only_logged _ _ _ Hlog). destruct Hlog as (-> & _). reflexivity.
Qed.

Lemma scan_campaigns_returns (campaigns_dir : string) (names : list string)
    (briefs bs : list yaml) (w w' : world) :
  scan_campaigns campaigns_dir names briefs w = (Returned bs, w') ->
  bs = (briefs ++ omap (folder_brief w campaigns_dir) names)%list.
Proof.
  revert briefs w. induction names as [|name rest IH]; intros briefs w; simpl.
  - intros [= <- <-]. rewrite app_nil_r. reflexivity.
  - destruct (visit_campaign_spec campaigns_dir name briefs w) as (r & w1 & Hrun & Hlog & _).
    unfold bind. rewrite Hrun. destruct r as [bs1|e]; [|discriminate].
    intros Hrest. apply IH in Hrest. apply visit_campaign_returns in Hrun. subst bs bs1.
    rewrite <- app_assoc. f_equal.
    assert (Hsame : omap (folder_brief w1 campaigns_dir) rest
                    = omap (folder_brief w campaigns_dir) rest).
    { clear - Hlog. induction rest as [|n rest IH]; [reflexivity|]. cbn [omap list_omap].
      rewrite IH, (folder_brief_only_logged _ _ _ _ Hlog). reflexivity. }
    rewrite Hsame. cbn [omap list_omap]. destruct (folder_brief w campaigns_dir name); reflexivity.
Qed.

Lemma strip_prefix_same (a b c : string) :
  strip_prefix (a +:+ b) (a +:+ c) = strip_prefix b c.
Proof.
  induction a as [|x a IH]; [rewrite !app_empty; reflexivity|].
  rewrite !app_String. cbn [strip_prefix]. rewrite Ascii.eqb_refl. exact IH.
Qed.

Lemma child_name_join (dir name : string) :
  file_name name = true -> child_name dir (dir </> name) = Some name.
Proof.
  unfold file_name, child_name, path_join. intros [Hne Hns]%andb_true_iff.
  rewrite strip_prefix_same. rewrite app_String, app_empty. cbn [strip_prefix].
  rewrite Ascii.eqb_refl. apply negb_true_iff in Hne. rewrite Hne, Hns. reflexivity.
Qed.

Lemma entries_elem (w : world) (dir name : string) :
  files w !! dir = Some Dir -> file_name name = true ->
  is_Some (files w !! (dir </> name)) -> name ∈ entries w dir.
Proof.
  intros Hdir Hname [nd Hnd]. unfold entries. rewrite Hdir.
  apply list_elem_of_omap. exists (dir </> name). split; [|apply child_name_join, Hname].
  apply list_elem_of_fmap. exists (dir </> name, nd). split; [reflexivity|].
  apply elem_of_map_to_list, Hnd.
Qed.

Lemma folder_brief_Some (w : world) (dir name : string) (b : yaml) :
  folder_brief w dir name = Some b ->
  files w !! (dir </> name) = Some Dir
  /\ marked_done w (dir </> name) = false
  /\ exists fields,
       files w !! (dir </> name </> Config.BRIEF_FILE)
       = Some (File (YamlText (Some (YDict fields))))
       /\ b = YDict (dict_set "campaign_path" (YStr (dir </> name))
                       (dict_set "campaign_name" (YStr name) fields)).
Proof.
  unfold folder_brief.
  destruct (files w !! (dir </> name)) as [[|?]|]; try discriminate.
  destruct (marked_done w (dir </> name)); try discriminate.
  destruct (files w !! (dir </> name </> Config.BRIEF_FILE)) as [[|[[[]|]|]]|];
    try discriminate.
  intros [= <-]. repeat split. eexists. split; reflexivity.
Qed.

(** X1. When [load_campaign_briefs] returns, its list is exactly, in the
    order of the directory listing, the briefs of the folders that are
    directories, are not marked done and hold a brief file with a mapping:
    each is that mapping with [campaign_name] and [campaign_path] set to
    the folder (replacing such keys of the file). No such folder is left
    out, every returned brief comes from one, and nothing but the log
    changed. *)
Theorem load_campaign_briefs_lists_folder_briefs (campaigns_dir : option string)
    (briefs : list yaml) (w w' : world) :
  let dir := default Config.CAMPAIGNS_DIR campaigns_dir in
  load_campaign_briefs campaigns_dir w = (Returned briefs, w') ->
  briefs = omap (folder_brief w dir) (entries w dir)
  /\ NoDup (entries w dir)
  /\ (forall name b,
        files w !! dir = Some Dir -> file_name name = true ->
        folder_brief w dir name = Some b -> In b briefs)
  /\ (forall b, In b briefs ->
        exists name fields,
          files w !! (dir </> name) = Some Dir
          /\ marked_done w (dir </> name) = false
          /\ files w !! (dir </> name </> Config.BRIEF_FILE)
             = Some (File (YamlText (Some (YDict fields))))
          /\ b = YDict (dict_set "campaign_path" (YStr (dir </> name))
                          (dict_set "campaign_name" (YStr name) fields)))
  /\ only_logged w w'.
Proof.
  intros dir Hrun.
  assert (Hlist : briefs = omap (folder_brief w dir) (entries w dir)).
  { revert Hrun. unfold load_campaign_briefs, entries. fold dir.
    unfold bind at 1. unfold path_exists at 1.
    destruct (files w !! dir) as [nd|] eqn:Edir; cbn [negb].
    2:{ intros [= <- <-]. reflexivity. }
    unfold bind at 1. unfold iterdir at 1. rewrite Edir. destruct nd as [|data]; [|discriminate].
    intros Hscan. apply scan_campaigns_returns in Hscan. exact Hscan. }
  split; [exact Hlist|]. split; [|split; [|split]].
  - unfold entries. destruct (files w !! dir) as [[|?]|]; try constructor.
    apply iterdir_names_NoDup.
  - intros name b Hdir Hname Hb. subst briefs. apply list_elem_of_In, list_elem_of_omap.
    exists name. split; [|exact Hb]. apply entries_elem; [exact Hdir | exact Hname|].
    apply folder_brief_Some in Hb as (Hd & _). rewrite Hd. eexists. reflexivity.
  - intros b Hb. subst briefs. apply list_elem_of_In, list_elem_of_omap in Hb as (name & _ & Hb).
    apply folder_brief_Some in Hb as (Hd & Hm & fields & Hf & ->).
    exists name, fields. repeat split; assumption.
  - destruct (load_campaign_briefs_spec campaigns_dir w) as (r & w1 & Hrun' & Hlog & _).
    rewrite Hrun in Hrun'. injection Hrun' as <- <-. exact Hlog.
Qed.

Lemma load_campaign_briefs_lists_folder_briefs_witness :
  [loaded_brief "c2" "Eco Bottle"]
  = omap (folder_brief done_disk "campaigns") (entries done_disk "campaigns")
  /\ entries done_disk "campaigns" = ["c1"; "c2"].
Proof.
  split; [|vm_compute; reflexivity].
  refine (proj1 (load_campaign_briefs_lists_folder_briefs None _ done_disk _ _)).
  vm_compute. reflexivity.
Defined.

(** The scan raises as soon as it reaches a folder whose pass raises. *)
Lemma scan_raises_at (dir : string) (names : list string) (name : string)
    (briefs : list yaml) (w : world) :
  name ∈ names ->
  (forall briefs w1, only_logged w w1 ->
     exists e w2, visit_campaign dir name briefs w1 = (Raised e, w2) /\ only_logged w1 w2) ->
  exists e w', scan_campaigns dir names briefs w = (Raised e, w') /\ only_logged w w'.
Proof.
  revert briefs w. induction names as [|n rest IH]; intros briefs w Hin Hvisit.
  - apply elem_of_nil in Hin as [].
  - cbn [scan_campaigns]. unfold bind.
    destruct (visit_campaign_spec dir n briefs w) as (r & w1 & Hrun & Hlog & _).
    rewrite Hrun. destruct r as [bs|e].
    2:{ exists e, w1. split; [reflexivity | exact Hlog]. }
    apply elem_of_cons in Hin as [-> | Hin].
    + destruct (Hvisit briefs w (only_logged_refl w)) as (e & w2 & Hr & _). congruence.
    + destruct (IH bs w1 Hin) as (e & w2 & Hr & Hlog2).
      * intros bs' w2 Hlog2. apply Hvisit. eapply only_logged_trans; eassumption.
      * exists e, w2. split; [exact Hr | eapply only_logged_trans; eassumption].
Qed.

Lemma load_raises_at (dir name : string) (w : world) :
  files w !! dir = Some Dir -> file_name name = true ->
  is_Some (files w !! (dir </> name)) ->
  (forall briefs w1, only_logged w w1 ->
     exists e w2, visit_campaign dir name briefs w1 = (Raised e, w2) /\ only_logged w1 w2) ->
  exists e w', load_campaign_briefs (Some dir) w = (Raised e, w') /\ only_logged w w'.
Proof.
  intros Hdir Hname Hthere Hvisit. unfold load_campaign_briefs.
  change (default Config.CAMPAIGNS_DIR (Some dir)) with dir.
  unfold bind at 1. unfold path_exists at 1. rewrite Hdir. cbn [negb].
  unfold bind at 1. unfold iterdir at 1. rewrite Hdir.
  apply (scan_raises_at dir _ name); [|exact Hvisit].
  pose proof (entries_elem w dir name Hdir Hname Hthere) as Hin.
  unfold entries in Hin. rewrite Hdir in Hin. exact Hin.
Qed.

Lemma visit_non_mapping_brief (dir name : string) (doc : yaml) (briefs : list yaml)
    (w : world) :
  files w !! (dir </> name) = Some Dir ->
  marker_lets_through w (dir </> name) = true ->
  files w !! (dir </> name </> Config.BRIEF_FILE) = Some (File (YamlText (Some doc))) ->
  not_mapping doc = true ->
  exists w', visit_campaign dir name briefs w = (Raised TypeError, w') /\ only_logged w w'.
Proof.
  intros Hdir Hmarker Hbrief Hdoc.
  destruct (already_completed_lets_through (dir </> name) name w Hmarker) as (w1 & Hrun & Hlog).
  exists w1. split; [|exact Hlog]. pose proof Hlog as (Hfiles & _).
  unfold visit_campaign. unfold bind at 1. unfold is_dir at 1. rewrite Hdir.
  unfold bind at 1. rewrite Hrun.
  unfold bind at 1. unfold path_exists at 1. rewrite Hfiles, Hbrief.
  unfold try_except, bind at 1. unfold safe_load_file at 1. rewrite Hfiles, Hbrief.
  destruct doc; try discriminate Hdoc; reflexivity.
Qed.

(** X2. A brief file that is valid YAML but not a mapping (an empty file,
    a list, a plain word) is not skipped like a malformed one: the pass
    over its folder raises [TypeError] when the folder's name is to be
    stored in it, nothing catches it, and the whole load raises instead of
    returning the briefs of the other folders. Only the log has changed. *)
Theorem load_campaign_briefs_raises_on_non_mapping_brief (dir name : string) (doc : yaml)
    (w : world) :
  files w !! dir = Some Dir ->
  file_name name = true ->
  files w !! (dir </> name) = Some Dir ->
  marker_lets_through w (dir </> name) = true ->
  files w !! (dir </> name </> Config.BRIEF_FILE) = Some (File (YamlText (Some doc))) ->
  not_mapping doc = true ->
  (forall briefs,
      exists w', visit_campaign dir name briefs w = (Raised TypeError, w')
                 /\ only_logged w w')
  /\ exists e w', load_campaign_briefs (Some dir) w = (Raised e, w') /\ only_logged w w'.
Proof.
  intros Hdir Hname Hfolder Hmarker Hbrief Hdoc. split.
  - intros briefs. apply (visit_non_mapping_brief dir name doc); assumption.
  - apply (load_raises_at dir name); [assumption | assumption | rewrite Hfolder; eexists; reflexivity |].
    intros briefs w1 Hlog. exists TypeError. pose proof Hlog as (Hfiles & _).
    apply (visit_non_mapping_brief dir name doc); rewrite ?Hfiles; try assumption.
    rewrite (marker_lets_through_only_logged _ _ _ Hlog). exact Hmarker.
Qed.

Lemma load_campaign_briefs_raises_on_non_mapping_brief_witness :
  exists e w',
    load_campaign_briefs (Some "campaigns")
      (disk [("campaigns", Dir);
             ("campaigns/c1", Dir); ("campaigns/c1/brief.yaml", good_brief "Eco Bottle");
             ("campaigns/c2", Dir); ("campaigns/c2/brief.yaml", File (YamlText (Some YNull)))])
    = (Raised e, w').
Proof.
  destruct (load_campaign_briefs_raises_on_non_mapping_brief "campaigns" "c2" YNull
              (disk [("campaigns", Dir);
                     ("campaigns/c1", Dir); ("campaigns/c1/brief.yaml", good_brief "Eco Bottle");
                     ("campaigns/c2", Dir);
                     ("campaigns/c2/brief.yaml", File (YamlText (Some YNull)))]))
    as [_ (e & w' & Hrun & _)]; try reflexivity.
  exists e, w'. exact Hrun.
Defined.




(** X4. A marker file that is not YAML does not block its campaign: the
    check logs one WARNING and the brief is loaded like that of a folder
    without a marker, so the campaign is processed again. *)
Theorem unreadable_marker_does_not_skip (dir name : string) (fields : dict)
    (briefs : list yaml) (w : world) :
  files w !! (dir </> name) = Some Dir ->
  files w !! (dir </> name </> "meta.yaml") = Some (File (YamlText None)) ->
  files w !! (dir </> name </> Config.BRIEF_FILE)
  = Some (File (YamlText (Some (YDict fields)))) ->
  visit_campaign dir name briefs w
  = (Returned (briefs ++ [YDict (dict_set "campaign_path" (YStr (dir </> name))
                                   (dict_set "campaign_name" (YStr name) fields))])%list,
     with_log (log w ++ [(WARNING, "Failed to parse meta.yaml for " +:+ name +:+ ": "
                                   +:+ exn_str YAMLError);
                         (INFO, "Loaded campaign: " +:+ name)])%list w).
Proof.
  intros Hdir Hmarker Hbrief.
  unfold visit_campaign. unfold bind at 1. unfold is_dir at 1. rewrite Hdir.
  unfold bind at 1. unfold already_completed.
  unfold bind at 1. unfold path_exists at 1. rewrite Hmarker.
  unfold try_except at 1, bind at 1. unfold safe_load_file at 1. rewrite Hmarker.
  cbn [is_yaml_error]. unfold bind at 1, logger at 1, ret at 1.
  unfold bind at 1. unfold path_exists at 1. cbn [files with_log]. rewrite Hbrief.
  unfold try_except, bind at 1. unfold safe_load_file at 1. cbn [files with_log].
  rewrite Hbrief. unfold bind, setitem, ret, logger. cbn [files heap api_calls now log with_log].
  unfold with_log. cbn [files heap api_calls now log]. rewrite <- app_assoc. reflexivity.
Qed.

Lemma unreadable_marker_does_not_skip_witness :
  fst (visit_campaign "campaigns" "c1" []
         (disk [("campaigns", Dir); ("campaigns/c1", Dir);
                ("campaigns/c1/meta.yaml", File (YamlText None));
                ("campaigns/c1/brief.yaml", good_brief "Eco Bottle")]))
  = Returned [loaded_brief "c1" "Eco Bottle"].
Proof.
  rewrite (unreadable_marker_does_not_skip "campaigns" "c1"
             [("message", YStr "Hello"); ("products", YList [YStr "Eco Bottle"])]);
    reflexivity.
Defined.

End FolderFacts.


(** ** The campaign driver at its edges *)

Module CampaignFacts.
Import PyStr Yaml Effects Loader Outcome Folders Processor Campaign Fixtures.
Import PathFacts LoaderFacts FolderFacts ProcessorFacts.

Lemma mark_campaign_done_spec_any (campaign_path : string) (scene_prompt : option string)
    (w : world) :
  exists w',
    _mark_campaign_done campaign_path scene_prompt w = (Returned tt, w')
    /\ (forall p, p <> marker_file campaign_path -> files w' !! p = files w !! p)
    /\ (files w !! marker_file campaign_path <> Some Dir ->
        files w' !! marker_file campaign_path
        = Some (File (YamlText (Some (YDict (marker_fields (now w) scene_prompt)))))
        /\ marked_done w' campaign_path = true).
Proof.
  assert (Hfields :
    match scene_prompt with
    | Some p => if String.eqb p "" then [("status", YStr "done"); ("completed_at", YStr (now w))]
                else dict_set "scene_prompt" (YStr p)
                       [("status", YStr "done"); ("completed_at", YStr (now w))]
    | None => [("status", YStr "done"); ("completed_at", YStr (now w))]
    end = marker_fields (now w) scene_prompt).
  { unfold marker_fields. destruct scene_prompt as [p|]; [|reflexivity].
    destruct (String.eqb p ""); reflexivity. }
  unfold _mark_campaign_done. unfold bind at 1. unfold isoformat_now at 1.
  rewrite Hfields.
  assert (Hdone : dict_get "status" (marker_fields (now w) scene_prompt) = Some (YStr "done"))
    by reflexivity.
  unfold try_except, bind, write_file, logger.
  destruct (files w !! marker_file campaign_path) as [[|data]|] eqn:E.
  - eexists. split; [reflexivity|]. cbn [files heap api_calls log with_log is_exception].
    split; [reflexivity | congruence].
  - eexists. split; [reflexivity|]. cbn [files heap api_calls log with_log with_files].
    split.
    + intros p Hp. apply lookup_insert_ne. congruence.
    + intros _. split; [apply lookup_insert_eq|].
      unfold marked_done, marker_file. cbn [files with_log with_files].
      rewrite lookup_insert_eq, Hdone. reflexivity.
  - eexists. split; [reflexivity|]. cbn [files heap api_calls log with_log with_files].
    split.
    + intros p Hp. apply lookup_insert_ne. congruence.
    + intros _. split; [apply lookup_insert_eq|].
      unfold marked_done, marker_file. cbn [files with_log with_files].
      rewrite lookup_insert_eq, Hdone. reflexivity.
Qed.

(** X5. [_mark_campaign_done] never raises and writes at most its own
    marker file: every other path, the image objects and the request
    count are as before. For an existing campaign folder, unless a
    directory sits at the marker's path, the marker afterwards holds exactly status done, the time of the call
    and the scene prompt if one was given and is not empty (whatever the
    file held before is gone), and the campaign counts as done; with a
    directory in the way the disk is unchanged and one ERROR is logged. *)
Theorem mark_campaign_done_never_raises (campaign_path : string)
    (scene_prompt : option string) (w : world) :
  exists w',
    _mark_campaign_done campaign_path scene_prompt w = (Returned tt, w')
    /\ heap w' = heap w /\ api_calls w' = api_calls w
    /\ (forall p, p <> marker_file campaign_path -> files w' !! p = files w !! p)
    /\ (files w !! campaign_path = Some Dir ->
        files w !! marker_file campaign_path <> Some Dir ->
        files w' !! marker_file campaign_path
        = Some (File (YamlText (Some (YDict (marker_fields (now w) scene_prompt)))))
        /\ marked_done w' campaign_path = true
        /\ log w' = (log w ++ [(INFO, "Marked campaign as completed: "
                                      +:+ marker_file campaign_path)])%list)
    /\ (files w !! marker_file campaign_path = Some Dir ->
        files w' = files w
        /\ log w' = (log w ++ [(ERROR, "Failed to mark campaign as completed: "
                                       +:+ exn_str (IsADirectoryError
                                                      (marker_file campaign_path)))])%list).
Proof.
  assert (Hfields :
    match scene_prompt with
    | Some p => if String.eqb p "" then [("status", YStr "done"); ("completed_at", YStr (now w))]
                else dict_set "scene_prompt" (YStr p)
                       [("status", YStr "done"); ("completed_at", YStr (now w))]
    | None => [("status", YStr "done"); ("completed_at", YStr (now w))]
    end = marker_fields (now w) scene_prompt).
  { unfold marker_fields. destruct scene_prompt as [p|]; [|reflexivity].
    destruct (String.eqb p ""); reflexivity. }
  unfold _mark_campaign_done. unfold bind at 1. unfold isoformat_now at 1.
  rewrite Hfields.
  assert (Hdone : dict_get "status" (marker_fields (now w) scene_prompt) = Some (YStr "done"))
    by reflexivity.
  unfold try_except, bind, write_file, logger.
  destruct (files w !! marker_file campaign_path) as [[|data]|] eqn:E.
  - eexists. split; [reflexivity|]. cbn [files heap api_calls log with_log is_exception].
    repeat split; try reflexivity; try congruence.
  - eexists. split; [reflexivity|].
    cbn [files heap api_calls log with_log with_files].
    split; [reflexivity|]. split; [reflexivity|]. split; [|split].
    + intros p Hp. apply lookup_insert_ne. congruence.
    + intros _ _. split; [apply lookup_insert_eq|]. split; [|reflexivity].
      unfold marked_done, marker_file. cbn [files with_log with_files].
      rewrite lookup_insert_eq, Hdone. reflexivity.
    + discriminate.
  - eexists. split; [reflexivity|].
    cbn [files heap api_calls log with_log with_files].
    split; [reflexivity|]. split; [reflexivity|]. split; [|split].
    + intros p Hp. apply lookup_insert_ne. congruence.
    + intros _ _. split; [apply lookup_insert_eq|]. split; [|reflexivity].
      unfold marked_done, marker_file. cbn [files with_log with_files].
      rewrite lookup_insert_eq, Hdone. reflexivity.
    + discriminate.
Qed.


Lemma mark_campaign_done_never_raises_witness :
  marked_done (snd (_mark_campaign_done "campaigns/c2" (Some "a beach") two_campaigns))
    "campaigns/c2" = true.
Proof.
  destruct (mark_campaign_done_never_raises "campaigns/c2" (Some "a beach") two_campaigns)
    as (w' & Hrun & _ & _ & _ & Hfree & _).
  rewrite Hrun. apply Hfree; [reflexivity | discriminate].
Defined.

Lemma visit_marked_done (dir name : string) (fields : dict) (briefs : list yaml) (w : world) :
  files w !! (dir </> name) = Some Dir ->
  files w !! (dir </> name </> "meta.yaml") = Some (File (YamlText (Some (YDict fields)))) ->
  dict_get "status" fields = Some (YStr "done") ->
  visit_campaign dir name briefs w
  = (Returned briefs, with_log (log w ++ [(INFO, "Skipping completed campaign: " +:+ name)]) w).
Proof.
  intros Hdir Hmeta Hstatus.
  unfold visit_campaign. unfold bind at 1. unfold is_dir at 1. rewrite Hdir.
  unfold bind at 1. unfold already_completed.
  unfold bind at 1. unfold path_exists at 1. rewrite Hmeta.
  unfold try_except, bind at 1. unfold safe_load_file at 1. rewrite Hmeta.
  unfold bind at 1. unfold reports_done.
  destruct fields as [|kv fields]; [discriminate Hstatus|]. cbn [truthy].
  unfold ret at 1. rewrite Hstatus. reflexivity.
Qed.

(** X6. What the processor writes, the loader honours: once
    [_mark_campaign_done] has run for a campaign folder (no directory
    sitting at its marker's path), the folder counts as done, the loader's
    pass over it returns the list unchanged with the line "Skipping
    completed campaign", and no brief returned by a later
    [load_campaign_briefs] carries that folder's path. *)
Theorem marked_campaign_is_skipped (dir name : string) (scene_prompt : option string)
    (w : world) :
  files w !! (dir </> name) = Some Dir ->
  files w !! marker_file (dir </> name) <> Some Dir ->
  let w1 := snd (_mark_campaign_done (dir </> name) scene_prompt w) in
  marked_done w1 (dir </> name) = true
  /\ folder_brief w1 dir name = None
  /\ (forall briefs,
        visit_campaign dir name briefs w1
        = (Returned briefs,
           with_log (log w1 ++ [(INFO, "Skipping completed campaign: " +:+ name)]) w1))
  /\ (forall briefs w2,
        load_campaign_briefs (Some dir) w1 = (Returned briefs, w2) ->
        forall b, In b briefs -> brief_path b <> Some (YStr (dir </> name))).
Proof.
  intros Hdir Hfree w1.
  destruct (mark_campaign_done_spec_any (dir </> name) scene_prompt w)
    as (w' & Hrun & Hother & Hmarker).
  assert (Ew1 : w1 = w') by (unfold w1; rewrite Hrun; reflexivity). clearbody w1. subst w'.
  destruct (Hmarker Hfree) as (Hfile & Hdone).
  assert (Hdir1 : files w1 !! (dir </> name) = Some Dir).
  { rewrite Hother; [exact Hdir|]. unfold marker_file. intros E.
    apply (f_equal String.length) in E. unfold path_join in E.
    rewrite !string_length_app in E. cbn in E. lia. }
  split; [exact Hdone|]. split; [|split].
  - unfold folder_brief. rewrite Hdir1, Hdone. reflexivity.
  - intros briefs. apply (visit_marked_done dir name (marker_fields (now w) scene_prompt));
      [exact Hdir1 | exact Hfile | reflexivity].
  - intros briefs w2 Hload b Hb Hpath.
    destruct (load_campaign_briefs_spec (Some dir) w1) as (r & w3 & Hload' & _ & Hr).
    rewrite Hload in Hload'. injection Hload' as <- <-.
    destruct Hr as (taken & _ & Hall).
    destruct (Forall2_In_r _ _ _ b Hall Hb) as (n & _ & Hp & Hm).
    change (default Config.CAMPAIGNS_DIR (Some dir)) with dir in Hp, Hm.
    rewrite Hpath in Hp. injection Hp as Hp. apply path_join_inj in Hp. subst n.
    apply lets_through_not_done in Hm as [Hm _]. congruence.
Qed.

Lemma marked_campaign_is_skipped_witness :
  fst (load_campaign_briefs (Some "campaigns")
         (snd (_mark_campaign_done "campaigns/c2" None two_campaigns)))
  = Returned [loaded_brief "c1" "Eco Bottle"]
  /\ folder_brief (snd (_mark_campaign_done "campaigns/c2" None two_campaigns))
       "campaigns" "c2" = None.
Proof.
  split; [vm_compute; reflexivity|].
  refine (proj1 (proj2 (marked_campaign_is_skipped "campaigns" "c2" None two_campaigns _ _)));
    [reflexivity | discriminate].
Defined.


Lemma marked_done_fields (w : world) (campaign_dir : string) :
  marked_done w campaign_dir = true ->
  exists fields,
    files w !! (campaign_dir </> "meta.yaml") = Some (File (YamlText (Some (YDict fields))))
    /\ dict_get "status" fields = Some (YStr "done").
Proof.
  unfold marked_done.
  destruct (files w !! (campaign_dir </> "meta.yaml")) as [[|[[[]|]|]]|]; try discriminate.
  intros Hdone. eexists. split; [reflexivity|].
  destruct (dict_get "status" fields) as [[]|]; try discriminate Hdone.
  cbn in Hdone. apply String.eqb_eq in Hdone. subst. reflexivity.
Qed.

Lemma scan_all_done (dir : string) (names : list string) (briefs : list yaml) (w : world) :
  (forall name, name ∈ names -> files w !! (dir </> name) = Some Dir ->
                marked_done w (dir </> name) = true) ->
  exists w', scan_campaigns dir names briefs w = (Returned briefs, w') /\ only_logged w w'.
Proof.
  revert w. induction names as [|name rest IH]; intros w Hdone.
  - exists w. split; [reflexivity | apply only_logged_refl].
  - cbn [scan_campaigns]. unfold bind.
    assert (Hvisit : exists w1, visit_campaign dir name briefs w = (Returned briefs, w1)
                                /\ only_logged w w1).
    { destruct (files w !! (dir </> name)) as [[|data]|] eqn:Edir.
      - destruct (marked_done_fields w (dir </> name)) as (fields & Hmeta & Hstatus).
        { apply Hdone; [apply list_elem_of_here | exact Edir]. }
        rewrite (visit_marked_done dir name fields briefs w Edir Hmeta Hstatus).
        eexists. split; [reflexivity | apply only_logged_line].
      - exists w. split; [|apply only_logged_refl].
        unfold visit_campaign, bind, is_dir. rewrite Edir. reflexivity.
      - exists w. split; [|apply only_logged_refl].
        unfold visit_campaign, bind, is_dir. rewrite Edir. reflexivity. }
    destruct Hvisit as (w1 & -> & Hlog). pose proof Hlog as (Hfiles & _).
    destruct (IH w1) as (w2 & Hrun & Hlog2).
    { intros n Hn Hd. rewrite (marked_done_only_logged _ _ _ Hlog).
      apply Hdone; [apply list_elem_of_further, Hn | rewrite <- Hfiles; exact Hd]. }
    exists w2. split; [exact Hrun | eapply only_logged_trans; eassumption].
Qed.

Section AnyWorker.
Variable worker : yaml -> yaml -> yaml -> string -> string -> yaml -> M unit.

(** One pass of the campaign loop over a mapping returns, whatever the
    campaign did. *)
Lemma attempt_returns (fields : dict) (w : world) :
  exists w',
    try_except (process_single_campaign worker (YDict fields)) is_exception
      (log_failure (YDict fields)) w
    = (Returned tt, w').
Proof.
  unfold try_except.
  destruct (process_single_campaign worker (YDict fields) w) as [[[]|e] w1].
  - eexists. reflexivity.
  - cbn [is_exception]. rewrite log_failure_dict. eexists. reflexivity.
Qed.

Lemma process_campaigns_returns (briefs : list yaml) (w : world) :
  Forall (fun b => exists fields, b = YDict fields) briefs ->
  exists w', process_campaigns worker briefs w = (Returned tt, w').
Proof.
  intros Hall. revert w. induction Hall as [|b briefs [fields ->] _ IH]; intros w.
  - eexists. reflexivity.
  - cbn [process_campaigns]. unfold bind at 1.
    destruct (attempt_returns fields w) as (w1 & ->). apply IH.
Qed.

(** X7. The only exceptions that leave [process_all_campaigns] are those
    of the loader: the call raises [e] exactly when [load_campaign_briefs]
    raises [e], and returns otherwise, whatever the per-product worker
    does (no assumption is made on it) and however many campaigns fail. *)
Theorem process_all_campaigns_raises_only_from_loader (w : world) :
  (forall e,
      fst (process_all_campaigns worker w) = Raised e
      <-> fst (load_campaign_briefs None w) = Raised e)
  /\ (fst (process_all_campaigns worker w) = Returned tt
      <-> exists briefs, fst (load_campaign_briefs None w) = Returned briefs).
Proof.
  destruct (load_campaign_briefs_spec None w) as (r & w1 & Hload & _ & Hr).
  unfold process_all_campaigns. unfold bind at 1. unfold bind at 2. rewrite Hload.
  destruct r as [briefs|e0]; cbn [fst].
  - assert (Hret : exists w',
               match briefs with
               | [] => logger INFO "No campaign briefs found"
               | _ :: _ =>
                   let* _ := logger INFO ("Found " +:+ pretty (length briefs)
                                          +:+ " campaign(s) to process") in
                   process_campaigns worker briefs
               end w1 = (Returned tt, w')).
    { destruct Hr as (taken & Hnd & Hall).
      destruct (loaded_briefs_facts _ _ _ _ Hnd Hall) as (Hdicts & _).
      destruct briefs as [|b briefs]; [eexists; reflexivity|].
      unfold bind, logger. apply process_campaigns_returns. exact Hdicts. }
    destruct Hret as (w' & ->). cbn [fst]. split.
    + intros e. split; discriminate.
    + split; [intros _; eexists; reflexivity | reflexivity].
  - split.
    + intros e. split; intros [= ->]; reflexivity.
    + split; [discriminate | intros [briefs Hb]; discriminate].
Qed.

(** X8. A second run is a no-op: when the campaigns directory is
    missing, or every folder in it is marked done, [process_all_campaigns]
    returns having done nothing but log (the last line being "No campaign
    briefs found"): no file is written or removed, no request is made, and
    the per-product worker is never called, whatever it is. *)
Theorem rerun_over_completed_campaigns_only_logs (w : world) :
  (forall data, files w !! Config.CAMPAIGNS_DIR <> Some (File data)) ->
  (forall name,
      name ∈ entries w Config.CAMPAIGNS_DIR ->
      files w !! (Config.CAMPAIGNS_DIR </> name) = Some Dir ->
      marked_done w (Config.CAMPAIGNS_DIR </> name) = true) ->
  exists w',
    process_all_campaigns worker w = (Returned tt, w')
    /\ only_logged w w'
    /\ last (log w') = Some (INFO, "No campaign briefs found").
Proof.
  intros Hroot Hdone.
  assert (Hload : exists w1, load_campaign_briefs None w = (Returned [], w1)
                             /\ only_logged w w1).
  { unfold load_campaign_briefs. change (default Config.CAMPAIGNS_DIR None)
      with Config.CAMPAIGNS_DIR.
    unfold bind at 1. unfold path_exists at 1. unfold entries in Hdone.
    destruct (files w !! Config.CAMPAIGNS_DIR) as [[|data]|] eqn:Edir; cbn [negb].
    - unfold bind at 1. unfold iterdir at 1. rewrite Edir.
      apply scan_all_done. exact Hdone.
    - destruct (Hroot data eq_refl).
    - eexists. split; [reflexivity | apply only_logged_line]. }
  destruct Hload as (w1 & Hload & Hlog).
  unfold process_all_campaigns. unfold bind at 1. rewrite Hload.
  eexists. split; [reflexivity|]. split.
  - eapply only_logged_trans; [exact Hlog | apply only_logged_line].
  - cbn [log with_log]. apply last_snoc.
Qed.

(** The campaign up to its product loop, for a brief that names its
    campaign and folder and a results path not taken by a file. *)
Lemma process_single_campaign_start (fields : dict) (campaign_name : yaml)
    (campaign_path : string) (w : world) :
  dict_get "campaign_name" fields = Some campaign_name ->
  dict_get "campaign_path" fields = Some (YStr campaign_path) ->
  (forall data, files w !! (campaign_path </> Config.RESULTS_DIR) <> Some (File data)) ->
  process_single_campaign worker (YDict fields) w
  = (let* items := iterate (default (YList []) (dict_get "products" fields)) in
     process_products worker (YDict fields) items 0 (length items)
       (default (YList []) (dict_get "assets" fields))
       (campaign_path </> Config.RESULTS_DIR) campaign_path
       (default (YList [YStr "English"]) (dict_get "languages" fields)) ;;
     logger INFO ("Completed processing campaign: " +:+ str campaign_name) ;;
     logger INFO ("Results saved in: " +:+ (campaign_path </> Config.RESULTS_DIR)) ;;
     _mark_campaign_done campaign_path None)
      (campaign_start campaign_name campaign_path w).
Proof.
  intros Hname Hpath Hfree.
  unfold process_single_campaign.
  unfold bind at 1. unfold getitem at 1. rewrite Hname. unfold ret at 1.
  unfold bind at 1. unfold bind at 1. unfold getitem at 1. rewrite Hpath.
  unfold ret at 1. unfold as_path at 1. unfold ret at 1.
  unfold bind at 1. unfold logger at 1.
  unfold bind at 1. unfold mkdir_exist_ok at 1. cbn [files with_log].
  unfold campaign_start.
  destruct (files w !! (campaign_path </> Config.RESULTS_DIR)) as [[|data]|] eqn:Er.
  - unfold bind at 1. unfold get_or at 1. unfold ret at 1.
    unfold bind at 1. unfold get_or at 1. unfold ret at 1.
    unfold bind at 1. unfold get_or at 1. unfold ret at 1.
    unfold bind at 1. unfold logger at 1.
    unfold with_log. cbn [files heap api_calls now log]. rewrite <- app_assoc. reflexivity.
  - destruct (Hfree data eq_refl).
  - unfold bind at 1. unfold get_or at 1. unfold ret at 1.
    unfold bind at 1. unfold get_or at 1. unfold ret at 1.
    unfold bind at 1. unfold get_or at 1. unfold ret at 1.
    unfold bind at 1. unfold logger at 1.
    unfold with_log, with_files. cbn [files heap api_calls now log].
    rewrite <- app_assoc. reflexivity.
Qed.

(** X9. Products and assets are paired by position, and a missing asset
    is tolerated: with the assets given as a list, [asset_for] returns the
    entry at the product's index, or [None] when the list is too short;
    with the assets given as one text, it returns the character at that
    index, or [None] past the end. In both cases it never raises and
    changes nothing. Only [IndexError] is caught: a number, a truth value
    or null for the assets raises [TypeError]. *)
Theorem asset_for_pairs_by_position (i : nat) (w : world) :
  (forall items,
      asset_for (YList items) i w = (Returned (default YNull (items !! i)), w))
  /\ (forall s,
      asset_for (YStr s) i w = (Returned (default YNull (chars s !! i)), w))
  /\ (forall assets, scalar assets = true -> asset_for assets i w = (Raised TypeError, w)).
Proof.
  unfold asset_for, try_except, index. split; [|split].
  - intros items. destruct (items !! i); reflexivity.
  - intros s. destruct (chars s !! i); reflexivity.
  - intros assets Hscalar. destruct assets; try discriminate Hscalar; reflexivity.
Qed.

(** X10. A campaign (its folder exists) whose brief lists no product (no
    [products] key, or an empty list) is marked done at once: the results folder is created,
    the per-product worker is never called (the result is the same for
    every worker), and the marker is written, so later runs skip the
    campaign although nothing was produced for it. *)
Theorem campaign_without_products_is_marked_done (fields : dict) (campaign_name : yaml)
    (campaign_path : string) (w : world) :
  dict_get "campaign_name" fields = Some campaign_name ->
  dict_get "campaign_path" fields = Some (YStr campaign_path) ->
  files w !! campaign_path = Some Dir ->
  (forall data, files w !! (campaign_path </> Config.RESULTS_DIR) <> Some (File data)) ->
  files w !! marker_file campaign_path <> Some Dir ->
  default (YList []) (dict_get "products" fields) = YList [] ->
  process_single_campaign worker (YDict fields) w
  = _mark_campaign_done campaign_path None
      (campaign_end campaign_name campaign_path
         (campaign_start campaign_name campaign_path w))
  /\ fst (process_single_campaign worker (YDict fields) w) = Returned tt
  /\ marked_done (snd (process_single_campaign worker (YDict fields) w)) campaign_path = true
  /\ files (snd (process_single_campaign worker (YDict fields) w))
     !! (campaign_path </> Config.RESULTS_DIR) = Some Dir.
Proof.
  intros Hname Hpath Hfolder Hfree Hmarker Hnone.
  assert (Hrun : process_single_campaign worker (YDict fields) w
                 = _mark_campaign_done campaign_path None
                     (campaign_end campaign_name campaign_path
                        (campaign_start campaign_name campaign_path w))).
  { rewrite (process_single_campaign_start fields campaign_name campaign_path w Hname Hpath Hfree).
    rewrite Hnone. unfold bind at 1. unfold iterate at 1. unfold ret at 1.
    cbn [process_products]. unfold bind at 1. unfold ret at 1.
    unfold bind at 1. unfold logger at 1. unfold bind at 1. unfold logger at 1.
    unfold campaign_end, with_log. cbn [files heap api_calls now log].
    rewrite <- app_assoc. reflexivity. }
  split; [exact Hrun|]. rewrite Hrun.
  set (w2 := campaign_end _ _ _).
  assert (Hres : files w2 !! (campaign_path </> Config.RESULTS_DIR) = Some Dir).
  { unfold w2, campaign_end, campaign_start. cbn [files with_log].
    destruct (files w !! (campaign_path </> Config.RESULTS_DIR)) as [[|data]|] eqn:Er.
    - exact Er.
    - destruct (Hfree data eq_refl).
    - apply lookup_insert_eq. }
  assert (Hm2 : files w2 !! marker_file campaign_path <> Some Dir).
  { unfold w2, campaign_end, campaign_start. cbn [files with_log].
    destruct (files w !! (campaign_path </> Config.RESULTS_DIR)); [exact Hmarker|].
    rewrite lookup_insert_ne; [exact Hmarker|].
    intros E. exact (marker_not_results _ _ (eq_sym E)). }
  destruct (mark_campaign_done_spec_any campaign_path None w2) as (w' & -> & Hother & Hdone).
  cbn [fst snd]. split; [reflexivity|]. split; [apply (Hdone Hm2)|].
  rewrite Hother; [exact Hres|]. intros E. exact (marker_not_results _ _ (eq_sym E)).
Qed.

(** X11. [products] need not be a list. Given as one text, the loop runs
    once per character of the text, each character taken as a product;
    given as a number, a truth value or an explicit null, the campaign
    raises [TypeError] after the results folder was created, before any
    product is handled, and no marker is written. *)
Theorem products_given_as_text_or_scalar (fields : dict) (campaign_name : yaml)
    (campaign_path : string) (w : world) :
  dict_get "campaign_name" fields = Some campaign_name ->
  dict_get "campaign_path" fields = Some (YStr campaign_path) ->
  files w !! campaign_path = Some Dir ->
  (forall data, files w !! (campaign_path </> Config.RESULTS_DIR) <> Some (File data)) ->
  (forall s,
      dict_get "products" fields = Some (YStr s) ->
      process_single_campaign worker (YDict fields) w
      = (process_products worker (YDict fields) (chars s) 0 (String.length s)
           (default (YList []) (dict_get "assets" fields))
           (campaign_path </> Config.RESULTS_DIR) campaign_path
           (default (YList [YStr "English"]) (dict_get "languages" fields)) ;;
         logger INFO ("Completed processing campaign: " +:+ str campaign_name) ;;
         logger INFO ("Results saved in: " +:+ (campaign_path </> Config.RESULTS_DIR)) ;;
         _mark_campaign_done campaign_path None)
          (campaign_start campaign_name campaign_path w))
  /\ (forall products,
      dict_get "products" fields = Some products ->
      scalar products = true ->
      process_single_campaign worker (YDict fields) w
      = (Raised TypeError, campaign_start campaign_name campaign_path w)
      /\ files (campaign_start campaign_name campaign_path w)
         !! marker_file campaign_path = files w !! marker_file campaign_path).
Proof.
  intros Hname Hpath Hfolder Hfree.
  pose proof (process_single_campaign_start fields campaign_name campaign_path w
                Hname Hpath Hfree) as Hrun.
  split.
  - intros s Hproducts. rewrite Hproducts in Hrun.
    change (default (YList []) (Some (YStr s))) with (YStr s) in Hrun.
    rewrite Hrun. unfold bind at 1. unfold iterate at 1. unfold ret at 1.
    assert (Hlen : forall t, length (chars t) = String.length t).
    { induction t as [|c t IH]; [reflexivity|]. cbn. rewrite IH. reflexivity. }
    cbn beta iota. rewrite Hlen. reflexivity.
  - intros products Hproducts Hscalar. rewrite Hproducts in Hrun.
    change (default (YList []) (Some products)) with products in Hrun.
    split.
    + rewrite Hrun. destruct products; try discriminate Hscalar; reflexivity.
    + unfold campaign_start. cbn [files].
      destruct (files w !! (campaign_path </> Config.RESULTS_DIR)); [reflexivity|].
      apply lookup_insert_ne. intros E. exact (marker_not_results _ _ (eq_sym E)).
Qed.

(** X12. What [process_single_campaign] needs fails before anything is
    produced: a brief without [campaign_name] or [campaign_path] raises
    [KeyError] with the world untouched, and a results path taken by a
    regular file raises [FileExistsError] with only the line announcing
    the campaign logged; in none of these cases is the worker called or a
    marker written. *)
Theorem process_single_campaign_fails_early (fields : dict) (w : world) :
  (dict_get "campaign_name" fields = None ->
   process_single_campaign worker (YDict fields) w = (Raised (KeyError "campaign_name"), w))
  /\ (forall campaign_name,
        dict_get "campaign_name" fields = Some campaign_name ->
        dict_get "campaign_path" fields = None ->
        process_single_campaign worker (YDict fields) w
        = (Raised (KeyError "campaign_path"), w))
  /\ (forall campaign_name campaign_path data,
        dict_get "campaign_name" fields = Some campaign_name ->
        dict_get "campaign_path" fields = Some (YStr campaign_path) ->
        files w !! (campaign_path </> Config.RESULTS_DIR) = Some (File data) ->
        process_single_campaign worker (YDict fields) w
        = (Raised (FileExistsError (campaign_path </> Config.RESULTS_DIR)),
           with_log (log w ++ [(INFO, "Processing campaign: " +:+ str campaign_name)])%list w)).
Proof.
  split; [|split].
  - intros Hname. unfold process_single_campaign.
    unfold bind at 1. unfold getitem at 1. rewrite Hname. reflexivity.
  - intros campaign_name Hname Hpath. unfold process_single_campaign.
    unfold bind at 1. unfold getitem at 1. rewrite Hname. unfold ret at 1.
    unfold bind at 1. unfold bind at 1. unfold getitem at 1. rewrite Hpath. reflexivity.
  - intros campaign_name campaign_path data Hname Hpath Hfile.
    unfold process_single_campaign.
    unfold bind at 1. unfold getitem at 1. rewrite Hname. unfold ret at 1.
    unfold bind at 1. unfold bind at 1. unfold getitem at 1. rewrite Hpath.
    unfold ret at 1. unfold as_path at 1. unfold ret at 1.
    unfold bind at 1. unfold logger at 1.
    unfold bind at 1. unfold mkdir_exist_ok at 1. cbn [files with_log].
    rewrite Hfile. reflexivity.
Qed.

End AnyWorker.

Lemma asset_for_pairs_by_position_witness :
  asset_for (YList [YStr "bottle.png"]) 0 two_campaigns
  = (Returned (YStr "bottle.png"), two_campaigns)
  /\ asset_for (YList [YStr "bottle.png"]) 1 two_campaigns = (Returned YNull, two_campaigns)
  /\ asset_for YNull 0 two_campaigns = (Raised TypeError, two_campaigns).
Proof.
  split; [|split].
  - exact (proj1 (asset_for_pairs_by_position 0 two_campaigns) [YStr "bottle.png"]).
  - exact (proj1 (asset_for_pairs_by_position 1 two_campaigns) [YStr "bottle.png"]).
  - exact (proj2 (proj2 (asset_for_pairs_by_position 0 two_campaigns)) YNull eq_refl).
Defined.

Lemma campaign_without_products_is_marked_done_witness :
  marked_done
    (snd (process_single_campaign no_worker
            (YDict [("message", YStr "Hello"); ("campaign_name", YStr "c1");
                    ("campaign_path", YStr "campaigns/c1")])
            two_campaigns))
    "campaigns/c1" = true.
Proof.
  refine (proj1 (proj2 (proj2
    (campaign_without_products_is_marked_done no_worker
       [("message", YStr "Hello"); ("campaign_name", YStr "c1");
        ("campaign_path", YStr "campaigns/c1")]
       (YStr "c1") "campaigns/c1" two_campaigns _ _ _ _ _ _))));
    try reflexivity; discriminate.
Defined.

Lemma products_given_as_text_or_scalar_witness :
  exists w',
    process_single_campaign toy_worker
      (YDict [("products", YStr "ab"); ("campaign_name", YStr "c1");
              ("campaign_path", YStr "campaigns/c1")])
      two_campaigns
    = (Returned tt, w')
    /\ is_Some (files w' !! "campaigns/c1/results/a.png")
    /\ is_Some (files w' !! "campaigns/c1/results/b.png").
Proof.
  destruct (products_given_as_text_or_scalar toy_worker
              [("products", YStr "ab"); ("campaign_name", YStr "c1");
               ("campaign_path", YStr "campaigns/c1")]
              (YStr "c1") "campaigns/c1" two_campaigns
              eq_refl eq_refl eq_refl ltac:(intros data; discriminate)) as [Htext _].
  rewrite (Htext "ab" eq_refl).
  eexists. split; [vm_compute; reflexivity|]. split; vm_compute; eexists; reflexivity.
Defined.

Lemma process_single_campaign_fails_early_witness :
  process_single_campaign no_worker (YDict [("message", YStr "Hello")]) two_campaigns
  = (Raised (KeyError "campaign_name"), two_campaigns).
Proof.
  exact (proj1 (process_single_campaign_fails_early no_worker [("message", YStr "Hello")]
                  two_campaigns) eq_refl).
Defined.

Lemma rerun_over_completed_campaigns_only_logs_witness :
  exists w',
    process_all_campaigns no_worker
      (disk [("campaigns", Dir); ("campaigns/c1", Dir);
             ("campaigns/c1/meta.yaml", done_marker);
             ("campaigns/c1/brief.yaml", good_brief "Eco Bottle");
             ("campaigns/notes.txt", File (YamlText None))])
    = (Returned tt, w')
    /\ files w' = files (disk [("campaigns", Dir); ("campaigns/c1", Dir);
                               ("campaigns/c1/meta.yaml", done_marker);
                               ("campaigns/c1/brief.yaml", good_brief "Eco Bottle");
                               ("campaigns/notes.txt", File (YamlText None))]).
Proof.
  destruct (rerun_over_completed_campaigns_only_logs no_worker
              (disk [("campaigns", Dir); ("campaigns/c1", Dir);
                     ("campaigns/c1/meta.yaml", done_marker);
                     ("campaigns/c1/brief.yaml", good_brief "Eco Bottle");
                     ("campaigns/notes.txt", File (YamlText None))]))
    as (w' & Hrun & (Hfiles & _) & _).
  - intros data. discriminate.
  - intros name Hin. vm_compute in Hin.
    apply elem_of_cons in Hin as [-> | Hin]; [intros _; reflexivity|].
    apply elem_of_cons in Hin as [-> | Hin]; [discriminate|].
    apply elem_of_nil in Hin as [].
  - exists w'. split; [exact Hrun | exact Hfiles].
Defined.

End CampaignFacts.


(** ** Folder names and language codes *)

Module NameFacts.
Import PyStr Sanitize LanguageCode Names.
Import PyStrFacts SanitizeFacts LanguageCodeFacts PathFacts ImageFacts.

Lemma lstrip_starts (s : string) : starts_with isspace (lstrip s) = false.
Proof.
  induction s as [|c s IH]; [reflexivity|]. cbn [lstrip].
  destruct (isspace c) eqn:E; [exact IH | cbn; exact E].
Qed.

Lemma rstrip_starts (P : ascii -> bool) (s : string) :
  starts_with P s = false -> starts_with P (rstrip s) = false.
Proof.
  destruct s as [|c s]; [reflexivity|]. cbn [rstrip starts_with]. intros Hc.
  destruct (rstrip s); [destruct (isspace c)|]; cbn; auto.
Qed.

Lemma last_char_cons (a : ascii) (s : string) (c : ascii) :
  last_char s = Some c -> last_char (String a s) = Some c.
Proof. intros H. cbn [last_char]. rewrite H. reflexivity. Qed.

Lemma last_char_some (x : ascii) (r : string) : exists d, last_char (String x r) = Some d.
Proof. cbn [last_char]. destruct (last_char r); eexists; reflexivity. Qed.

Lemma rstrip_ends (s : string) : ends_with isspace (rstrip s) = false.
Proof.
  unfold ends_with. induction s as [|c s IH]; [reflexivity|]. cbn [rstrip].
  destruct (rstrip s) as [|x r] eqn:E.
  - destruct (isspace c) eqn:Ec; [reflexivity | cbn; exact Ec].
  - destruct (last_char_some x r) as [d El].
    rewrite (last_char_cons c _ d El). rewrite El in IH. exact IH.
Qed.

Lemma strip_ends (s : string) :
  starts_with isspace (strip s) = false /\ ends_with isspace (strip s) = false.
Proof.
  unfold strip. split; [apply rstrip_starts, lstrip_starts | apply rstrip_ends].
Qed.

Lemma kept_not_underscore (c : ascii) : kept c = true -> is_underscore c = false.
Proof. each_char c. Qed.

Lemma underscore_lower_char (c : ascii) : is_underscore (lower_char c) = is_underscore c.
Proof. each_char c. Qed.

(** After a run was replaced the result does not go on with an
    underscore, and nowhere do two underscores meet. *)
Lemma sub_space_runs_shape (b : bool) (s : string) :
  all_chars kept s = true ->
  (b = true \/ starts_with isspace s = false ->
   starts_with is_underscore (sub_space_runs "_"%char b s) = false)
  /\ no_neighbours is_underscore (sub_space_runs "_"%char b s) = true.
Proof.
  revert b. induction s as [|c s IH]; intros b Hs; [split; reflexivity|].
  cbn [all_chars] in Hs. apply andb_prop in Hs as [Hc Hs].
  pose proof (kept_not_underscore c Hc) as Hu.
  cbn [sub_space_runs starts_with]. destruct (isspace c) eqn:Ec.
  - destruct (IH true Hs) as [Hstart Hnn].
    destruct b.
    + split; [intros _; apply Hstart; left; reflexivity | exact Hnn].
    + split; [intros [?|?]; discriminate|].
      cbn [no_neighbours]. rewrite (Hstart (or_introl eq_refl)), Hnn.
      rewrite andb_false_r. reflexivity.
  - destruct (IH false Hs) as [_ Hnn]. cbn [starts_with no_neighbours].
    rewrite Hu, Hnn. split; [intros _; reflexivity | reflexivity].
Qed.

Lemma sub_space_runs_last (r : ascii) (b : bool) (s : string) (c : ascii) :
  last_char s = Some c -> isspace c = false ->
  last_char (sub_space_runs r b s) = Some c.
Proof.
  revert b. induction s as [|a s IH]; intros b; [discriminate|].
  cbn [last_char]. destruct (last_char s) as [d|] eqn:El.
  - intros [= ->] Hc. specialize (fun b => IH b eq_refl Hc). cbn [sub_space_runs].
    destruct (isspace a); [destruct b|]; try apply last_char_cons; apply IH.
  - intros [= ->] Hc. destruct s as [|x s]; [|destruct (last_char_some x s); congruence].
    cbn [sub_space_runs]. rewrite Hc. reflexivity.
Qed.

Lemma all_chars_last (P : ascii -> bool) (s : string) (c : ascii) :
  all_chars P s = true -> last_char s = Some c -> P c = true.
Proof.
  induction s as [|a s IH]; [discriminate|]. cbn [all_chars last_char].
  intros [Ha Hs]%andb_prop. destruct (last_char s) as [d|].
  - intros [= ->]. apply IH; [exact Hs | reflexivity].
  - intros [= ->]. exact Ha.
Qed.

Lemma lower_starts (s : string) :
  starts_with is_underscore (lower s) = starts_with is_underscore s.
Proof. destruct s; [reflexivity|]. cbn. apply underscore_lower_char. Qed.

Lemma lower_last (s : string) : last_char (lower s) = option_map lower_char (last_char s).
Proof.
  induction s as [|a s IH]; [reflexivity|]. cbn [lower last_char]. rewrite IH.
  destruct (last_char s); reflexivity.
Qed.

Lemma lower_neighbours (s : string) :
  no_neighbours is_underscore (lower s) = no_neighbours is_underscore s.
Proof.
  induction s as [|a s IH]; [reflexivity|]. cbn [lower no_neighbours].
  rewrite IH, underscore_lower_char, lower_starts. reflexivity.
Qed.

Lemma lower_length (s : string) : String.length (lower s) = String.length s.
Proof. induction s as [|a s IH]; [reflexivity|]. cbn. rewrite IH. reflexivity. Qed.

Lemma lstrip_length (s : string) : String.length (lstrip s) <= String.length s.
Proof.
  induction s as [|a s IH]; [reflexivity|]. cbn [lstrip].
  destruct (isspace a); cbn [String.length]; lia.
Qed.

Lemma rstrip_length (s : string) : String.length (rstrip s) <= String.length s.
Proof.
  induction s as [|a s IH]; [reflexivity|]. cbn [rstrip].
  destruct (rstrip s); [destruct (isspace a)|]; cbn [String.length] in *; lia.
Qed.

Lemma sub_space_runs_length (r : ascii) (b : bool) (s : string) :
  String.length (sub_space_runs r b s) <= String.length s.
Proof.
  revert b. induction s as [|a s IH]; intros b; [reflexivity|]. cbn [sub_space_runs].
  pose proof (IH true). pose proof (IH false).
  destruct (isspace a); [destruct b|]; cbn [String.length]; lia.
Qed.

(** X13. A sanitised product name is safe as one folder name: it is
    made of [a-z], digits, hyphen and underscore only (so no slash, dot,
    space or upper-case letter), it is no longer than the product name,
    it neither starts nor ends with an underscore, and no two underscores
    follow each other: each stands for one whitespace run inside the
    name. *)
Theorem sanitized_name_shape (product : string) :
  all_chars safe (_sanitize_product_name product) = true
  /\ String.length (_sanitize_product_name product) <= String.length product
  /\ starts_with is_underscore (_sanitize_product_name product) = false
  /\ ends_with is_underscore (_sanitize_product_name product) = false
  /\ no_neighbours is_underscore (_sanitize_product_name product) = true.
Proof.
  split; [apply sanitized_safe|]. unfold _sanitize_product_name.
  set (k := keep_chars kept product). set (t := strip k).
  assert (Hk : all_chars kept k = true) by apply all_chars_keep_chars.
  assert (Ht : all_chars kept t = true) by (apply all_chars_strip, Hk).
  destruct (strip_ends k) as [Hstart Hend]. fold t in Hstart, Hend.
  destruct (sub_space_runs_shape false t Ht) as [Hs Hnn].
  split; [|split; [|split]].
  - rewrite lower_length.
    pose proof (sub_space_runs_length "_"%char false t).
    pose proof (rstrip_length (lstrip k)). pose proof (lstrip_length k).
    pose proof (keep_chars_length kept product). unfold t, strip, k in *. lia.
  - rewrite lower_starts. apply Hs. right. exact Hstart.
  - unfold ends_with in *. rewrite lower_last.
    destruct (last_char t) as [c|] eqn:El.
    + rewrite (sub_space_runs_last _ _ _ c El Hend). cbn [option_map].
      rewrite underscore_lower_char. apply kept_not_underscore.
      exact (all_chars_last kept t c Ht El).
    + destruct t as [|x t]; [reflexivity | destruct (last_char_some x t); congruence].
  - rewrite lower_neighbours. exact Hnn.
Qed.

Lemma all_chars_keep_chars_or (P Q : ascii -> bool) (s : string) :
  all_chars Q (keep_chars P s) = all_chars (fun c => negb (P c) || Q c) s.
Proof.
  induction s as [|a s IH]; [reflexivity|]. cbn [keep_chars all_chars].
  destruct (P a); cbn [all_chars negb orb]; rewrite IH; reflexivity.
Qed.

Lemma lstrip_empty (s : string) : lstrip s = "" -> all_chars isspace s = true.
Proof.
  induction s as [|a s IH]; [reflexivity|]. cbn [lstrip all_chars].
  destruct (isspace a); [exact IH | discriminate].
Qed.

Lemma rstrip_empty (s : string) : rstrip s = "" -> all_chars isspace s = true.
Proof.
  induction s as [|a s IH]; [reflexivity|]. cbn [rstrip all_chars].
  destruct (rstrip s); [|discriminate].
  destruct (isspace a); [intros _; apply IH; reflexivity | discriminate].
Qed.

Lemma strip_empty (s : string) : strip s = "" -> all_chars isspace s = true.
Proof.
  unfold strip. intros H. apply rstrip_empty in H. apply lstrip_empty.
  pose proof (lstrip_starts s) as Hs. destruct (lstrip s) as [|a r]; [reflexivity|].
  cbn in H, Hs. rewrite Hs in H. discriminate.
Qed.

(** X14. The sanitised name is empty exactly when the product name has
    no letter, digit or hyphen: a product called only by punctuation,
    symbols or blanks (or by nothing) gets the empty folder name, and all
    such products share it. *)
Theorem sanitized_name_empty_iff (product : string) :
  _sanitize_product_name product = ""
  <-> all_chars (fun c => negb (plain c)) product = true.
Proof.
  assert (Hk : all_chars isspace (keep_chars kept product)
               = all_chars (fun c => negb (plain c)) product).
  { rewrite all_chars_keep_chars_or. induction product as [|a s IH]; [reflexivity|].
    cbn [all_chars]. rewrite IH. f_equal. unfold plain.
    destruct (kept a), (isspace a); reflexivity. }
  rewrite <- Hk. unfold _sanitize_product_name. split.
  - intros H. apply strip_empty.
    destruct (strip (keep_chars kept product)) as [|a t]; [reflexivity|].
    cbn [sub_space_runs] in H. destruct (isspace a); discriminate H.
  - intros H. rewrite (strip_blank _ H). reflexivity.
Qed.


Lemma sanitized_name_empty_iff_witness :
  _sanitize_product_name "!!! ???" = "" /\ _sanitize_product_name "(TM)" <> "".
Proof.
  split.
  - apply (proj2 (sanitized_name_empty_iff "!!! ???")). reflexivity.
  - intros H. apply (proj1 (sanitized_name_empty_iff "(TM)")) in H. discriminate H.
Defined.

Lemma lower_char_idem (c : ascii) : lower_char (lower_char c) = lower_char c.
Proof. each_char c. Qed.

Lemma lower_idem (s : string) : lower (lower s) = lower s.
Proof.
  induction s as [|a s IH]; [reflexivity|]. cbn [lower]. rewrite IH, lower_char_idem.
  reflexivity.
Qed.

Lemma language_codes_hit (name code : string) :
  language_codes !! name = Some code -> In (name, code) language_table.
Proof.
  intros H. apply list_elem_of_In. apply elem_of_list_to_map_2. exact H.
Qed.

(** X15. Language codes are lower-case whatever the spelling of the
    language, but the table is matched by exact spelling only: a listed
    language written in lower case falls to the two-letter prefix rule
    (so [german] gives [ge], not [de]), and an unlisted language whose
    first two letters spell a listed code gets that code, sharing the
    listed language's folder. *)
Theorem language_code_case_and_collisions :
  (forall language, lower (_get_language_code language) = _get_language_code language)
  /\ (forall name code,
        In (name, code) language_table ->
        _get_language_code (lower name) = take 2 (lower name))
  /\ (forall name code other,
        In (name, code) language_table ->
        ~ In other (map fst language_table) ->
        take 2 (lower other) = code ->
        _get_language_code other = _get_language_code name).
Proof.
  split; [|split].
  - intros language. unfold _get_language_code.
    destruct (language_codes !! language) as [code|] eqn:E; cbn [default].
    + apply language_codes_hit in E. cbn in E.
      repeat (destruct E as [[= <- <-] | E]; [reflexivity|]). destruct E.
    + change (lower (take 2 (lower language)) = take 2 (lower language)).
      rewrite lower_take, lower_idem. reflexivity.
  - intros name code Hin. cbn in Hin.
    repeat (destruct Hin as [[= <- <-] | Hin]; [reflexivity|]). destruct Hin.
  - intros name code other Hin Hout Hcode.
    unfold _get_language_code at 1. rewrite (language_codes_miss other Hout).
    unfold _get_language_code. rewrite (language_codes_lookup name code Hin).
    exact Hcode.
Qed.

Lemma language_code_case_and_collisions_witness :
  _get_language_code "german" = "ge" /\ _get_language_code "Japan" = _get_language_code "Japanese".
Proof.
  destruct language_code_case_and_collisions as (_ & Hcase & Hshare). split.
  - exact (Hcase "German" "de" ltac:(cbn; tauto)).
  - apply (Hshare "Japanese" "ja" "Japan"); [cbn; tauto | | reflexivity].
    cbn. intros H. repeat (destruct H as [H | H]; [discriminate H|]). exact H.
Defined.

End NameFacts.


(** ** Cropping and the text layout *)

Module LayoutFacts.
Import PyStr Yaml Img Effects ImageProcessing Outcome Layout Fixtures.
Import OutcomeFacts LoaderFacts ImageFacts.

Lemma range_down_candidates (start c : Z) :
  In c (range_down start 12 4) <-> candidate start c.
Proof.
  unfold range_down, candidate. rewrite in_map_iff. split.
  - intros (k & <- & Hk). apply in_seq in Hk.
    split; [Z.div_mod_to_equations; lia|].
    replace (start - (start - 4 * Z.of_nat k))%Z with (Z.of_nat k * 4)%Z by lia.
    apply Z.mod_mul. lia.
  - intros [[Hlo Hhi] Hmod].
    apply Z.mod_divide in Hmod as [q Hq]; [|lia].
    exists (Z.to_nat q). split; [lia|]. apply in_seq.
    Z.div_mod_to_equations. lia.
Qed.


Lemma find_first_is_largest (P : Z -> bool) (start : Z) (a n : nat) (fs : Z) :
  find P (map (fun k => start - 4 * Z.of_nat k)%Z (seq a n)) = Some fs ->
  forall c, In c (map (fun k => start - 4 * Z.of_nat k)%Z (seq a n)) ->
            P c = true -> (c <= fs)%Z.
Proof.
  revert a. induction n as [|n IH]; intros a; [discriminate|].
  cbn [seq map find]. destruct (P (start - 4 * Z.of_nat a)%Z) eqn:Ehead.
  - intros [= <-] c [<- | Hc] _; [lia|].
    apply in_map_iff in Hc as (k & <- & Hk). apply in_seq in Hk. lia.
  - intros Hfind c [<- | Hc] Pc; [congruence|]. exact (IH (S a) Hfind c Hc Pc).
Qed.

Section Pillow.
Variable font : Type.
Variable truetype : string -> Z -> option font.
Variable load_default : font.
Variable getbbox : font -> string -> Z * Z * Z * Z.
Variable lanczos : image -> Z * Z -> Z -> Z -> pixel.
Variable render_text : font -> string -> Z * Z -> pixel -> image -> Z -> Z -> pixel.
Variable convert_pixel : string -> string -> pixel -> pixel.
Variable blend : pixel -> pixel -> pixel.

Local Abbreviation overlay_text :=
  (add_text_overlay font truetype load_default getbbox render_text convert_pixel blend).
Local Abbreviation fits_at := (fits font truetype load_default getbbox).
Local Abbreviation try_sizes := (try_font_sizes font truetype load_default getbbox).
Local Abbreviation find_layout :=
  (_find_optimal_text_layout font truetype load_default getbbox).
Local Abbreviation best := (best_size font truetype load_default getbbox).
Local Abbreviation layout := (layout_at font truetype load_default getbbox).

(** X16. [crop_to_ratio] accepts the two ratios 16x9 and 9x16 only: for
    any other ratio (1x1 included) it raises [ValueError] naming the
    ratio, having logged the input size and saved nothing. *)
Theorem crop_to_ratio_rejects_other_ratios (image : Img.image) (out_path ratio : string)
    (w : world) :
  ratio <> "16x9" -> ratio <> "9x16" ->
  crop_to_ratio lanczos image out_path ratio w
  = (Raised (ValueError ("Unsupported ratio: " +:+ ratio)),
     with_log (log w ++ [(DEBUG, "Input size for " +:+ ratio +:+ " conversion: "
                                 +:+ show_Z (width image) +:+ "x"
                                 +:+ show_Z (height image))])%list w).
Proof.
  intros H1 H2. apply String.eqb_neq in H1, H2.
  unfold crop_to_ratio, size. unfold bind at 1. unfold logger at 1.
  unfold bind at 1. rewrite H1, H2. reflexivity.
Qed.

(** The search over the candidate sizes stops at the first that fits. *)
Lemma try_font_sizes_find (sizes : list Z) (text : string) (mw mh : Z) (w : world) :
  try_sizes sizes text mw mh w
  = match find (fits_at text mw mh) sizes with
    | None => (Returned (None, None, 0%Z, 0%Z), w)
    | Some fs =>
        match layout text fs with
        | Some (f, tw, th) =>
            (Returned (Some f, Some text, tw, th),
             with_log (log w ++ [(DEBUG, "Found optimal layout: font_size=" +:+ show_Z fs)])%list
               w)
        | None => (Returned (None, None, 0%Z, 0%Z), w)
        end
    end.
Proof.
  induction sizes as [|fs rest IH]; [reflexivity|].
  cbn [try_font_sizes find]. unfold fits at 1, text_extent, layout_at.
  destruct (_get_font font truetype load_default fs) as [f|] eqn:Ef; [|exact IH].
  destruct (getbbox f text) as [[[b0 b1] b2] b3] eqn:Eb.
  destruct ((b2 - b0 <=? mw)%Z && (b3 - b1 <=? mh)%Z); [|exact IH].
  rewrite Ef, Eb. reflexivity.
Qed.

Lemma fits_layout (text : string) (mw mh fs : Z) :
  fits_at text mw mh fs = true ->
  exists f tw th, layout text fs = Some (f, tw, th) /\ (tw <= mw)%Z /\ (th <= mh)%Z.
Proof.
  unfold fits, text_extent, layout_at.
  destruct (_get_font font truetype load_default fs) as [f|]; [|discriminate].
  destruct (getbbox f text) as [[[b0 b1] b2] b3].
  intros [H1 H2]%andb_prop. exists f, (b2 - b0)%Z, (b3 - b1)%Z.
  split; [reflexivity | lia].
Qed.

(** X17. [_find_optimal_text_layout] returns the largest candidate font
    size at which the text fits: the candidates are the start size and
    every size 4, 8, 12, ... below it that is still above 12 (12 itself is
    never tried); if the text fits at one of them, the result is the font
    and the measured extent at the largest such size, within the given
    width and height, and one DEBUG line names the size; if it fits at
    none, the result is the empty layout and nothing is logged. *)
Theorem find_optimal_text_layout_picks_largest (text : string) (start mw mh : Z)
    (w : world) :
  match best text start mw mh with
  | Some fs =>
      candidate start fs
      /\ fits_at text mw mh fs = true
      /\ (forall c, candidate start c -> fits_at text mw mh c = true -> (c <= fs)%Z)
      /\ exists f tw th,
           layout text fs = Some (f, tw, th) /\ (tw <= mw)%Z /\ (th <= mh)%Z
           /\ find_layout text start mw mh w
              = (Returned (Some f, Some text, tw, th),
                 with_log (log w ++ [(DEBUG, "Found optimal layout: font_size="
                                             +:+ show_Z fs)])%list w)
  | None =>
      (forall c, candidate start c -> fits_at text mw mh c = false)
      /\ find_layout text start mw mh w = (Returned (None, None, 0%Z, 0%Z), w)
  end.
Proof.
  unfold _find_optimal_text_layout. rewrite try_font_sizes_find. unfold best_size.
  destruct (find (fits_at text mw mh) (range_down start 12 4)) as [fs|] eqn:Efind.
  - pose proof (find_some _ _ Efind) as [Hin Hfit].
    split; [apply range_down_candidates, Hin|]. split; [exact Hfit|]. split.
    + intros c Hc Pc. apply range_down_candidates in Hc.
      exact (find_first_is_largest _ _ _ _ _ Efind c Hc Pc).
    + destruct (fits_layout text mw mh fs Hfit) as (f & tw & th & Hl & Hw & Hh).
      exists f, tw, th. rewrite Hl. repeat split; assumption || reflexivity.
  - split; [|reflexivity]. intros c Hc. apply range_down_candidates in Hc.
    exact (find_none _ _ Efind c Hc).
Qed.

(** X18. When the text is not blank and fits at some candidate size
    (its measured extent not negative), [add_text_overlay] returns a new object holding an RGBA picture of
    the input's width and height: the input (converted to RGBA if it was
    not) blended, pixel by pixel, with a transparent layer that carries a
    dark rectangle 10 pixels around the text box and the text in white at
    the given opacity, set at the largest fitting size so that the text
    box ends exactly one margin (5 per cent) before the right and the
    lower edge. Disk and request count are unchanged. *)
Theorem add_text_overlay_applied (image : positive) (im : Img.image) (text : string)
    (font_size opacity : option Z) (w : world) (fs : Z) (f : font) (tw th : Z) :
  heap w !! image = Some im ->
  blank text = false ->
  best text (default Config.FONT_SIZE font_size)
       (width im - 2 * margin (width im))%Z (height im - 2 * margin (height im))%Z
  = Some fs ->
  layout text fs = Some (f, tw, th) ->
  (0 <= tw)%Z -> (0 <= th)%Z ->
  returns (overlay_text image text font_size opacity) w
    (fun result w' =>
       heap w' !! result
       = Some (overlaid font render_text convert_pixel blend im f text tw th
                 (default Config.TEXT_OPACITY opacity))
       /\ heap w !! result = None
       /\ files w' = files w /\ api_calls w' = api_calls w).
Proof.
  intros Him Hblank Hbest Hlayout _ _. unfold add_text_overlay. fold (blank text).
  rewrite Hblank.
  apply returns_bind. unfold copy. apply returns_bind.
  apply (returns_deref image im); [exact Him|]. apply returns_alloc.
  set (l1 := fresh (dom (heap w))).
  assert (K1 : keeps (heap w) (<[l1 := im]> (heap w))) by apply keeps_alloc, keeps_refl.
  apply returns_bind. apply (returns_deref l1 im); [apply lookup_insert_eq|].
  cbn [size heap with_heap]. apply returns_bind.
  eapply returns_intro.
  { unfold _find_optimal_text_layout. rewrite try_font_sizes_find.
    unfold best_size in Hbest. rewrite Hbest, Hlayout. reflexivity. }
  apply returns_bind, returns_alloc. cbn [heap with_heap with_log].
  set (l2 := fresh (dom (<[l1:=im]> (heap w)))).
  assert (Hl2 : heap w !! l2 = None) by apply keeps_fresh, K1.
  set (h2 := <[l2 := _]> (<[l1:=im]> (heap w))).
  assert (K2 : keeps (heap w) h2) by apply keeps_alloc, K1.
  apply returns_bind. eapply returns_mutate; [apply lookup_insert_eq|].
  cbn [heap with_heap with_log].
  apply returns_bind. eapply returns_mutate; [apply lookup_insert_eq|].
  cbn [heap with_heap with_log].
  set (h4 := <[l2 := _]> (<[l2 := _]> h2)).
  assert (K4 : keeps (heap w) h4) by (do 2 (apply keeps_update; [exact Hl2|]); exact K2).
  assert (Hne : l1 <> l2).
  { intros E. pose proof (is_fresh (dom (<[l1:=im]> (heap w)))) as Hf.
    apply Hf. fold l2. rewrite <- E. apply elem_of_dom. rewrite lookup_insert_eq. eauto. }
  assert (H41 : h4 !! l1 = Some im).
  { unfold h4, h2. rewrite !lookup_insert_ne by (intros E; apply Hne; symmetry; exact E).
    apply lookup_insert_eq. }
  apply returns_bind. unfold overlaid, overlay_base.
  destruct (negb (mode im =? "RGBA")) eqn:Emode.
  - apply returns_alloc. cbn [heap with_heap with_log].
    set (l3 := fresh (dom h4)).
    assert (K5 : keeps (heap w) (<[l3 := convert convert_pixel "RGBA" im]> h4))
      by apply keeps_alloc, K4.
    apply returns_bind. eapply returns_deref; [apply lookup_insert_eq|].
    apply returns_bind. eapply returns_deref.
    { cbn [heap with_heap with_log]. rewrite lookup_insert_ne.
      - unfold h4. apply lookup_insert_eq.
      - intros E. pose proof (is_fresh (dom h4)) as Hf. apply Hf. fold l3. rewrite E.
        apply elem_of_dom. unfold h4. rewrite lookup_insert_eq. eauto. }
    apply returns_bind. eapply returns_intro.
    { unfold alpha_composite.
      cbn [mode width height convert draw_text rectangle Img.new fst snd].
      rewrite !String.eqb_refl, !Z.eqb_refl. reflexivity. }
    apply returns_alloc. cbn [heap with_heap with_log files api_calls].
    split; [rewrite lookup_insert_eq; reflexivity|].
    split; [apply keeps_fresh, K5|]. split; reflexivity.
  - apply returns_ret.
    apply returns_bind. eapply returns_deref; [exact H41|].
    apply returns_bind. eapply returns_deref; [apply lookup_insert_eq|].
    apply returns_bind. apply negb_false_iff in Emode.
    eapply returns_intro.
    { unfold alpha_composite. cbn [mode width height draw_text rectangle Img.new fst snd].
      rewrite Emode, !Z.eqb_refl. reflexivity. }
    apply returns_alloc. cbn [heap with_heap with_log files api_calls].
    split; [rewrite lookup_insert_eq; reflexivity|].
    split; [apply keeps_fresh, K4|]. split; reflexivity.
Qed.

End Pillow.

Lemma crop_to_ratio_rejects_other_ratios_witness :
  fst (crop_to_ratio (fun _ _ _ _ => [0%Z]) (grey 640 480) "out.png" "1x1" (empty_disk 0))
  = Raised (ValueError "Unsupported ratio: 1x1").
Proof.
  rewrite (crop_to_ratio_rejects_other_ratios (fun _ _ _ _ => [0%Z]) (grey 640 480)
             "out.png" "1x1" (empty_disk 0)); [reflexivity | discriminate | discriminate].
Defined.

Lemma find_optimal_text_layout_picks_largest_witness :
  _find_optimal_text_layout Z (fun _ sz => Some sz) 12%Z toy_bbox "Sale now on" 48 100 100
    (empty_disk 0)
  = (Returned (Some 16%Z, Some "Sale now on", 88%Z, 16%Z),
     with_log [(DEBUG, "Found optimal layout: font_size=16")] (empty_disk 0)).
Proof.
  pose proof (find_optimal_text_layout_picks_largest Z (fun _ sz => Some sz) 12%Z toy_bbox
                "Sale now on" 48 100 100 (empty_disk 0)) as H.
  change (best_size Z (fun _ sz => Some sz) 12%Z toy_bbox "Sale now on" 48 100 100)
    with (Some 16%Z) in H.
  destruct H as (_ & _ & _ & f & tw & th & Hl & _ & _ & Hrun).
  injection Hl as <- <- <-. exact Hrun.
Defined.

Lemma add_text_overlay_applied_witness :
  returns (toy_overlay 1%positive "Sale now on" None None) (one_image (grey 640 480))
    (fun result w' =>
       exists out, heap w' !! result = Some out
                   /\ mode out = "RGBA" /\ size out = (640, 480)%Z).
Proof.
  eapply returns_weaken;
    [|apply (add_text_overlay_applied Z (fun _ sz => Some sz) 12%Z toy_bbox
               (fun _ _ _ fill _ _ _ => fill) (fun _ _ p => p) (fun _ top => top)
               1%positive (grey 640 480) "Sale now on" None None (one_image (grey 640 480))
               48%Z 48%Z 264%Z 48%Z); try reflexivity; lia].
  intros result w' (Hout & _). eexists. split; [exact Hout|]. split; reflexivity.
Defined.

End LayoutFacts.


(** ** Outpainting: what it touches and what it sends *)

Module OutpaintFrameFacts.
Import PyStr Yaml Img Effects ImageGeneration Processor Outcome Fixtures.
Import PyStrFacts OutcomeFacts PathFacts OutpaintFacts.

Lemma take_all (n : nat) (s : string) : String.length s <= n -> take n s = s.
Proof.
  revert n. induction s as [|c s IH]; intros n; [destruct n; reflexivity|].
  destruct n as [|n]; cbn [String.length take]; [lia|].
  intros H. rewrite IH by lia. reflexivity.
Qed.

Lemma dir_or_not (o : option node) : o = Some Dir \/ o <> Some Dir.
Proof. destruct o as [[|data]|]; [left; reflexivity | right; discriminate..]. Qed.

Section Client.
Variable convert_pixel : string -> string -> pixel -> pixel.
Variable images_edit : nat -> edit_request -> result string.
Variable b64decode : string -> result (list N).
Variable open_png_bytes : list N -> option image.

Local Abbreviation outpaint :=
  (outpaint_with_dalle convert_pixel images_edit b64decode open_png_bytes).
Local Abbreviation canvas_sent := (sent_canvas convert_pixel).

(** The call when a directory sits at the mask's path. *)
Lemma outpaint_mask_blocked (canvas : image) (inner_box : Z * Z * Z * Z) (prompt : string)
    (w : world) :
  files w !! "temp_canvas.png" <> Some Dir ->
  files w !! "temp_mask.png" = Some Dir ->
  outpaint canvas inner_box prompt w
  = (Raised (IsADirectoryError "temp_mask.png"),
     with_log (log w ++ [(DEBUG, "Outpainting with DALL-E 2 at 1024x1024")])%list
       (with_files (<["temp_canvas.png" := File (PngImage (canvas_sent canvas))]> (files w)) w)).
Proof.
  intros Hc Hm. unfold outpaint_with_dalle. fold (canvas_sent canvas).
  unfold ImageProcessing.save.
  unfold bind at 1. rewrite (write_file_free _ _ _ Hc).
  unfold bind at 1. unfold logger at 1. cbn [log files with_files with_log].
  unfold bind at 1. unfold write_file at 1. cbn [log files with_files with_log].
  rewrite lookup_insert_ne by discriminate. rewrite Hm. reflexivity.
Qed.

(** X19. Whatever happens, [outpaint_with_dalle] touches no path but its
    two temporary files [temp_canvas.png] and [temp_mask.png]: every
    other path holds afterwards what it held before (so no marker file
    changes and nothing else is lost), the image objects are unchanged,
    and at most one remote request is made: exactly one once both
    temporary files could be written. *)
Theorem outpaint_touches_only_temp_files (canvas : image) (inner_box : Z * Z * Z * Z)
    (prompt : string) (w : world) :
  (forall p, temp_file p = false ->
             files (snd (outpaint canvas inner_box prompt w)) !! p = files w !! p)
  /\ same_markers (files w) (files (snd (outpaint canvas inner_box prompt w)))
  /\ nothing_lost (files w) (files (snd (outpaint canvas inner_box prompt w)))
  /\ heap (snd (outpaint canvas inner_box prompt w)) = heap w
  /\ api_calls w <= api_calls (snd (outpaint canvas inner_box prompt w)) <= S (api_calls w)
  /\ (files w !! "temp_canvas.png" <> Some Dir -> files w !! "temp_mask.png" <> Some Dir ->
      api_calls (snd (outpaint canvas inner_box prompt w)) = S (api_calls w)).
Proof.
  assert (Hmain :
    (forall p, temp_file p = false ->
               files (snd (outpaint canvas inner_box prompt w)) !! p = files w !! p)
    /\ heap (snd (outpaint canvas inner_box prompt w)) = heap w
    /\ api_calls w <= api_calls (snd (outpaint canvas inner_box prompt w)) <= S (api_calls w)
    /\ (files w !! "temp_canvas.png" <> Some Dir -> files w !! "temp_mask.png" <> Some Dir ->
        api_calls (snd (outpaint canvas inner_box prompt w)) = S (api_calls w))).
  { destruct (dir_or_not (files w !! "temp_canvas.png")) as [Hc|Hc].
    { rewrite (outpaint_blocked _ _ _ _ canvas inner_box prompt w Hc). cbn [snd].
      repeat split; try reflexivity; try lia. intros H. destruct (H Hc). }
    destruct (dir_or_not (files w !! "temp_mask.png")) as [Hm|Hm].
    { rewrite (outpaint_mask_blocked canvas inner_box prompt w Hc Hm).
      cbn [snd files heap api_calls with_log with_files].
      repeat split; try reflexivity; try lia.
      - intros p Hp. apply lookup_insert_ne. intros <-. discriminate Hp.
      - intros _ H. destruct (H Hm). }
    rewrite (outpaint_unfold _ _ _ _ canvas inner_box prompt w Hc Hm).
    assert (Hstaged : forall p, temp_file p = false ->
              ImageGeneration.staged convert_pixel canvas inner_box (files w) !! p
              = files w !! p).
    { intros p Hp. unfold ImageGeneration.staged.
      rewrite !lookup_insert_ne; [reflexivity | |]; intros <-; discriminate Hp. }
    destruct (images_edit (api_calls w) _) as [b64|e].
    - assert (Hdel : forall p, temp_file p = false ->
                delete "temp_mask.png"
                  (delete "temp_canvas.png"
                     (ImageGeneration.staged convert_pixel canvas inner_box (files w))) !! p
                = files w !! p).
      { intros p Hp. rewrite !lookup_delete_ne; [apply Hstaged, Hp | |];
          intros <-; discriminate Hp. }
      destruct (b64decode b64) as [img_bytes|e]; [destruct (open_png_bytes img_bytes)|];
        cbn [snd files heap api_calls with_log with_files count_call];
        repeat split; try reflexivity; try lia; first [exact Hdel | exact Hstaged].
    - cbn [snd files heap api_calls with_log with_files count_call].
      repeat split; try reflexivity; try lia; exact Hstaged. }
  destruct Hmain as (Hframe & Hheap & Hcalls & Hone).
  split; [exact Hframe|]. split; [|split; [|split; [exact Hheap|split; [exact Hcalls|exact Hone]]]].
  - intros d. apply Hframe. unfold temp_file.
    apply orb_false_iff. split; apply String.eqb_neq.
    + exact (marker_not_png d "temp_canvas").
    + exact (marker_not_png d "temp_mask").
  - intros p Hp Hsome. rewrite (Hframe p Hp). exact Hsome.
Qed.

(** X20. A directory in the way of a temporary file makes
    [outpaint_with_dalle] raise [IsADirectoryError] before any request is
    made: with the directory at [temp_canvas.png] nothing at all has
    happened; with it at [temp_mask.png] the canvas file has already been
    written and is left behind. *)
Theorem outpaint_blocked_by_directory (canvas : image) (inner_box : Z * Z * Z * Z)
    (prompt : string) (w : world) :
  (files w !! "temp_canvas.png" = Some Dir ->
   outpaint canvas inner_box prompt w = (Raised (IsADirectoryError "temp_canvas.png"), w))
  /\ (files w !! "temp_canvas.png" <> Some Dir ->
      files w !! "temp_mask.png" = Some Dir ->
      exists w',
        outpaint canvas inner_box prompt w = (Raised (IsADirectoryError "temp_mask.png"), w')
        /\ api_calls w' = api_calls w
        /\ files w' = <["temp_canvas.png" := File (PngImage (canvas_sent canvas))]> (files w)).
Proof.
  split.
  - intros Hd. unfold outpaint_with_dalle, ImageProcessing.save, bind, write_file.
    rewrite Hd. reflexivity.
  - intros Hc Hm. rewrite (outpaint_mask_blocked canvas inner_box prompt w Hc Hm).
    eexists. split; [reflexivity|]. split; reflexivity.
Qed.


End Client.

Lemma outpaint_blocked_by_directory_witness :
  toy_outpaint flaky_edit (grey 1024 1024) (225, 225, 798, 798)%Z "a beach"
    (disk [("temp_canvas.png", Dir)])
  = (Raised (IsADirectoryError "temp_canvas.png"), disk [("temp_canvas.png", Dir)]).
Proof.
  apply (proj1 (outpaint_blocked_by_directory (fun _ _ p => p) flaky_edit toy_b64decode
                  (fun _ => Some (grey 1024 1024)) (grey 1024 1024)
                  (225, 225, 798, 798)%Z "a beach" (disk [("temp_canvas.png", Dir)]))).
  reflexivity.
Defined.

End OutpaintFrameFacts.

(** ** The canvas and its mask *)

Module CanvasFacts.
Import PyStr Yaml Img Effects ImageProcessing ImageGeneration Canvas Outcome Fixtures.
Import OutcomeFacts LoaderFacts.

Lemma scaled_bounds (extent : Z) :
  (0 <= extent)%Z ->
  (100 * scaled extent <= 56 * extent < 100 * scaled extent + 100)%Z.
Proof.
  intros H. unfold scaled, SCALE_FACTOR. cbn [fst snd].
  rewrite Z.quot_div_nonneg by lia. Z.div_mod_to_equations. lia.
Qed.

Section Pillow.
Variable lanczos : image -> Z * Z -> Z -> Z -> pixel.
Variable convert_pixel : string -> string -> pixel -> pixel.
Variable paste_pixel : pixel -> pixel -> pixel.

Local Abbreviation canvas_of := (prepare_canvas lanczos convert_pixel paste_pixel).

(** The canvas [prepare_canvas] builds for a picture [im]. *)
Lemma prepare_canvas_run (input_image : string) (canvas_size : option (Z * Z))
    (im : image) (w : world) :
  files w !! input_image = Some (File (PngImage im)) ->
  (2 <= width im)%Z -> (2 <= height im)%Z ->
  let tw := fst (default (1024, 1024)%Z canvas_size) in
  let th := snd (default (1024, 1024)%Z canvas_size) in
  let iw := scaled (width im) in
  let ih := scaled (height im) in
  let x := ((tw - iw) / 2)%Z in
  let y := ((th - ih) / 2)%Z in
  exists w',
    canvas_of input_image canvas_size w
    = (Returned (paste paste_pixel
                   (resize lanczos (convert convert_pixel "RGBA" im) (iw, ih))
                   (x, y) (Img.new "RGBA" (tw, th) white),
                 (x, y, x + iw, y + ih)%Z), w')
    /\ only_logged w w'.
Proof.
  intros Hfile Hw Hh tw th iw ih x y.
  pose proof (scaled_bounds (width im) ltac:(lia)) as Bw.
  pose proof (scaled_bounds (height im) ltac:(lia)) as Bh.
  unfold prepare_canvas. unfold bind at 1. unfold open_image at 1. rewrite Hfile.
  cbn [size convert width height fst snd]. fold iw ih.
  unfold bind at 1. unfold resize_to at 1. cbn [fst snd].
  assert (Ew : (iw <? 1)%Z = false) by (apply Z.ltb_ge; unfold iw; lia).
  assert (Eh : (ih <? 1)%Z = false) by (apply Z.ltb_ge; unfold ih; lia).
  rewrite Ew, Eh. cbn [orb]. unfold ret at 1.
  unfold bind at 1. unfold logger at 1.
  destruct (default (1024, 1024)%Z canvas_size) as [tw0 th0] eqn:Ecs.
  cbn [size resize width height fst snd] in *.
  unfold bind, logger, ret. eexists. split; [reflexivity|].
  eapply only_logged_trans; apply only_logged_line.
Qed.

Lemma prepare_canvas_centres_scaled_image_aux (input_image : string)
    (canvas_size : option (Z * Z)) (im : image) (w : world) :
  files w !! input_image = Some (File (PngImage im)) ->
  (2 <= width im)%Z -> (2 <= height im)%Z ->
  exists canvas x y iw ih w',
    canvas_of input_image canvas_size w
    = (Returned (canvas, (x, y, x + iw, y + ih)%Z), w')
    /\ (0 < iw)%Z /\ (0 < ih)%Z
    /\ (forall px py,
          ~ ((x <= px < x + iw)%Z /\ (y <= py < y + ih)%Z) ->
          pixel_at canvas px py = white).
Proof.
  intros Hfile Hw Hh.
  destruct (prepare_canvas_run input_image canvas_size im w Hfile Hw Hh) as (w' & Hrun & _).
  pose proof (scaled_bounds (width im) ltac:(lia)) as Bw.
  pose proof (scaled_bounds (height im) ltac:(lia)) as Bh.
  set (tw := fst (default (1024, 1024)%Z canvas_size)) in *.
  set (th := snd (default (1024, 1024)%Z canvas_size)) in *.
  set (iw := scaled (width im)) in *. set (ih := scaled (height im)) in *.
  set (x := ((tw - iw) / 2)%Z) in *. set (y := ((th - ih) / 2)%Z) in *.
  eexists _, x, y, iw, ih, w'. split; [exact Hrun|].
  split; [lia|]. split; [lia|].
  cbn [paste pixel_at Img.new resize width height fst snd]. intros px py Hout.
  destruct ((x <=? px) && (px <? x + iw) && (y <=? py) && (py <? y + ih))%Z eqn:E;
    [|reflexivity].
  exfalso. apply Hout. lia.
Qed.

(** X22. For a picture at least 2 pixels wide and high, [prepare_canvas]
    returns (and only logs) a canvas of the requested size, 1024x1024 by
    default, in mode RGBA, together with the inner box: the picture scaled
    to 56 per cent (each side rounded down) sits centred, its left and
    upper margins being the right and lower ones rounded down; the box is
    (x, y, x + width, y + height) of the scaled picture; every canvas
    pixel outside the box is opaque white, every pixel inside it is the
    scaled picture's pixel blended onto white. *)
Theorem prepare_canvas_centres_scaled_image (input_image : string)
    (canvas_size : option (Z * Z)) (im : image) (w : world) :
  files w !! input_image = Some (File (PngImage im)) ->
  (2 <= width im)%Z -> (2 <= height im)%Z ->
  let tw := fst (default (1024, 1024)%Z canvas_size) in
  let th := snd (default (1024, 1024)%Z canvas_size) in
  exists canvas x y iw ih w',
    canvas_of input_image canvas_size w
    = (Returned (canvas, (x, y, x + iw, y + ih)%Z), w')
    /\ only_logged w w'
    /\ mode canvas = "RGBA" /\ size canvas = (tw, th)
    /\ (100 * iw <= 56 * width im < 100 * iw + 100)%Z
    /\ (100 * ih <= 56 * height im < 100 * ih + 100)%Z
    /\ (0 <= (tw - (x + iw)) - x <= 1)%Z
    /\ (0 <= (th - (y + ih)) - y <= 1)%Z
    /\ (forall px py,
          ~ ((x <= px < x + iw)%Z /\ (y <= py < y + ih)%Z) ->
          pixel_at canvas px py = white)
    /\ (forall px py,
          (x <= px < x + iw)%Z -> (y <= py < y + ih)%Z ->
          pixel_at canvas px py
          = paste_pixel white
              (lanczos (convert convert_pixel "RGBA" im) (iw, ih) (px - x) (py - y))%Z).
Proof.
  intros Hfile Hw Hh tw th.
  destruct (prepare_canvas_run input_image canvas_size im w Hfile Hw Hh) as (w' & Hrun & Hlog).
  fold tw th in Hrun.
  pose proof (scaled_bounds (width im) ltac:(lia)) as Bw.
  pose proof (scaled_bounds (height im) ltac:(lia)) as Bh.
  set (iw := scaled (width im)) in *. set (ih := scaled (height im)) in *.
  set (x := ((tw - iw) / 2)%Z) in *. set (y := ((th - ih) / 2)%Z) in *.
  eexists _, x, y, iw, ih, w'. split; [exact Hrun|]. split; [exact Hlog|].
  split; [reflexivity|]. split; [reflexivity|]. split; [exact Bw|]. split; [exact Bh|].
  split; [unfold x; Z.div_mod_to_equations; lia|].
  split; [unfold y; Z.div_mod_to_equations; lia|].
  cbn [paste pixel_at Img.new resize width height fst snd]. split.
  - intros px py Hout.
    destruct ((x <=? px) && (px <? x + iw) && (y <=? py) && (py <? y + ih))%Z eqn:E;
      [|reflexivity].
    exfalso. apply Hout. lia.
  - intros px py Hx Hy.
    replace ((x <=? px) && (px <? x + iw) && (y <=? py) && (py <? y + ih))%Z with true
      by (symmetry; lia).
    reflexivity.
Qed.

(** X23. The mask [_make_outpaint_mask] draws for the canvas and box that
    [prepare_canvas] returns has the canvas' size and mode L, is 255
    (preserve) on the box with both its corners and 0 (outpaint)
    elsewhere. So every canvas pixel that is not plain white is
    preserved, and so are one column to the right of the pasted picture
    and one row below it, which hold white canvas only: the rectangle
    counts its lower right corner in, the box does not. *)
Theorem outpaint_mask_covers_pasted_picture (input_image : string)
    (canvas_size : option (Z * Z)) (im : image) (w : world) :
  files w !! input_image = Some (File (PngImage im)) ->
  (2 <= width im)%Z -> (2 <= height im)%Z ->
  exists canvas x0 y0 x1 y1 w',
    canvas_of input_image canvas_size w = (Returned (canvas, (x0, y0, x1, y1)), w')
    /\ (x0 < x1)%Z /\ (y0 < y1)%Z
    /\ mode (_make_outpaint_mask canvas (x0, y0, x1, y1)) = "L"
    /\ size (_make_outpaint_mask canvas (x0, y0, x1, y1)) = size canvas
    /\ (forall px py,
          pixel_at (_make_outpaint_mask canvas (x0, y0, x1, y1)) px py
          = if ((x0 <=? px) && (px <=? x1) && (y0 <=? py) && (py <=? y1))%Z
            then [255%Z] else [0%Z])
    /\ (forall px py,
          pixel_at canvas px py <> white ->
          pixel_at (_make_outpaint_mask canvas (x0, y0, x1, y1)) px py = [255%Z])
    /\ (forall py,
          (y0 <= py <= y1)%Z ->
          pixel_at canvas x1 py = white
          /\ pixel_at (_make_outpaint_mask canvas (x0, y0, x1, y1)) x1 py = [255%Z])
    /\ (forall px,
          (x0 <= px <= x1)%Z ->
          pixel_at canvas px y1 = white
          /\ pixel_at (_make_outpaint_mask canvas (x0, y0, x1, y1)) px y1 = [255%Z]).
Proof.
  intros Hfile Hw Hh.
  destruct (prepare_canvas_centres_scaled_image_aux input_image canvas_size im w Hfile Hw Hh)
    as (canvas & x & y & iw & ih & w' & Hrun & Hiw & Hih & Hout).
  assert (Hmask : forall px py,
            pixel_at (_make_outpaint_mask canvas (x, y, x + iw, y + ih)%Z) px py
            = if ((x <=? px) && (px <=? x + iw) && (y <=? py) && (py <=? y + ih))%Z
              then [255%Z] else [0%Z]) by reflexivity.
  exists canvas, x, y, (x + iw)%Z, (y + ih)%Z, w'. split; [exact Hrun|].
  split; [lia|]. split; [lia|].
  split; [reflexivity|]. split; [reflexivity|]. split; [exact Hmask|].
  split; [|split].
  - intros px py Hpx. rewrite Hmask.
    destruct ((x <=? px) && (px <=? x + iw) && (y <=? py) && (py <=? y + ih))%Z eqn:E;
      [reflexivity|].
    exfalso. apply Hpx, Hout. lia.
  - intros py Hy. split; [apply Hout; lia|]. rewrite Hmask.
    replace ((x <=? x + iw) && (x + iw <=? x + iw) && (y <=? py) && (py <=? y + ih))%Z
      with true by (symmetry; lia). reflexivity.
  - intros px Hx. split; [apply Hout; lia|]. rewrite Hmask.
    replace ((x <=? px) && (px <=? x + iw) && (y <=? y + ih) && (y + ih <=? y + ih))%Z
      with true by (symmetry; lia). reflexivity.
Qed.

End Pillow.

Lemma prepare_canvas_centres_scaled_image_witness :
  exists canvas,
    fst (prepare_canvas (fun _ _ _ _ => [0; 0; 0; 0]%Z) (fun _ _ p => p) (fun _ top => top)
           "base.png" None (disk [("base.png", File (PngImage (grey 1024 1024)))]))
    = Returned (canvas, (225, 225, 798, 798)%Z)
    /\ size canvas = (1024, 1024)%Z
    /\ pixel_at canvas 224 500 = white.
Proof.
  destruct (prepare_canvas_centres_scaled_image (fun _ _ _ _ => [0; 0; 0; 0]%Z)
              (fun _ _ p => p) (fun _ top => top) "base.png" None (grey 1024 1024)
              (disk [("base.png", File (PngImage (grey 1024 1024)))]))
    as (canvas & x & y & iw & ih & w' & Hrun & _ & _ & Hsize & Hiw & Hih & Hx & Hy & Hout & _);
    [reflexivity | cbn; lia | cbn; lia |].
  cbn [default fst snd width height grey Img.new] in Hsize, Hiw, Hih, Hx, Hy.
  assert (iw = 573%Z) by lia. assert (ih = 573%Z) by lia. subst iw ih.
  assert (x = 225%Z) by lia. assert (y = 225%Z) by lia. subst x y.
  exists canvas. rewrite Hrun. split; [reflexivity|]. split; [exact Hsize|].
  apply Hout. lia.
Defined.

Lemma outpaint_mask_covers_pasted_picture_witness :
  exists canvas x0 y0 x1 y1,
    fst (prepare_canvas (fun _ _ _ _ => [0; 0; 0; 0]%Z) (fun _ _ p => p) (fun _ top => top)
           "base.png" None (disk [("base.png", File (PngImage (grey 1024 1024)))]))
    = Returned (canvas, (x0, y0, x1, y1))
    /\ pixel_at canvas x1 y1 = white
    /\ pixel_at (_make_outpaint_mask canvas (x0, y0, x1, y1)) x1 y1 = [255%Z].
Proof.
  destruct (outpaint_mask_covers_pasted_picture (fun _ _ _ _ => [0; 0; 0; 0]%Z)
              (fun _ _ p => p) (fun _ top => top) "base.png" None (grey 1024 1024)
              (disk [("base.png", File (PngImage (grey 1024 1024)))]))
    as (canvas & x0 & y0 & x1 & y1 & w' & Hrun & _ & Hy & _ & _ & _ & _ & Hcol & _);
    [reflexivity | cbn; lia | cbn; lia |].
  exists canvas, x0, y0, x1, y1. rewrite Hrun. split; [reflexivity|].
  apply Hcol. lia.
Defined.

End CanvasFacts.


(** ** Translation and prompts: what a failing service leaves *)

Module LlmFacts.
Import PyStr PyText Yaml Img Effects Llm Translation PromptGeneration ImageGeneration.
Import Folders Outcome Fixtures.
Import PyStrFacts PathFacts ImageFacts OutpaintFrameFacts.

Lemma take_length_exact (n : nat) (s : string) :
  n <= String.length s -> String.length (take n s) = n.
Proof.
  revert n. induction s as [|c s IH]; intros n; cbn [String.length].
  - intros H. replace n with 0 by lia. reflexivity.
  - destruct n as [|n]; [reflexivity|]. cbn [take String.length]. intros H.
    rewrite IH by lia. reflexivity.
Qed.

Lemma take_app_prefix (n : nat) (s t : string) :
  n <= String.length s -> take n (take n s +:+ t) = take n s.
Proof.
  revert n. induction s as [|c s IH]; intros n; cbn [String.length].
  - intros H. replace n with 0 by lia. destruct t; reflexivity.
  - destruct n as [|n]; [intros _; destruct t; reflexivity|].
    cbn [take]. rewrite app_String. cbn [take]. intros H. rewrite IH by lia. reflexivity.
Qed.

(** The fallback of [create_dalle_prompt]: the prompt itself up to 800
    characters, else its first 800 characters and three dots. *)
Lemma truncated_spec (detailed_prompt : string) :
  String.length (truncated detailed_prompt) <= 803
  /\ (String.length detailed_prompt <= 800 -> truncated detailed_prompt = detailed_prompt)
  /\ (800 < String.length detailed_prompt ->
      String.length (truncated detailed_prompt) = 803
      /\ take 800 (truncated detailed_prompt) = take 800 detailed_prompt).
Proof.
  unfold truncated. change Config.MAX_DALLE_PROMPT_LENGTH with 800.
  destruct (800 <? String.length detailed_prompt)%nat eqn:E.
  - apply Nat.ltb_lt in E.
    assert (Hlen : String.length (take 800 detailed_prompt +:+ "...") = 803).
    { rewrite string_length_app, take_length_exact by lia. reflexivity. }
    split; [lia|]. split; [lia|]. intros _. split; [exact Hlen|].
    apply take_app_prefix. lia.
  - apply Nat.ltb_ge in E. split; [lia|]. split; [reflexivity | lia].
Qed.

Section Model.
Variable chat_completions_create : nat -> string -> string -> result string.
Variable responses_create : nat -> string -> string -> result string.
Variable new_client : result unit.

Local Abbreviation translate := (_translate_message chat_completions_create new_client).
Local Abbreviation dalle_prompt := (create_dalle_prompt responses_create).
Local Abbreviation scene_prompt := (create_campaign_prompt_with_llm responses_create).

(** X24. A message for English (in any letter case), and a message that
    is empty or blank, is not translated: [_translate_message] returns it
    as it is, makes no request and logs nothing. *)
Theorem translate_message_leaves_english_and_blank (message language : string)
    (w : world) :
  lower language = "english" \/ message = "" \/ all_chars isspace message = true ->
  translate message language w = (Returned message, w).
Proof.
  intros H. unfold _translate_message.
  assert (Hskip : String.eqb (lower language) "english" || String.eqb (strip message) ""
                  = true).
  { destruct H as [-> | [-> | H]]; [reflexivity | apply orb_true_r |].
    rewrite (strip_blank message H). apply orb_true_r. }
  rewrite Hskip. reflexivity.
Qed.


(** X26. [create_dalle_prompt] never raises and makes exactly one
    request, carrying the whole detailed prompt. If the request answers,
    the result is the reply stripped of surrounding whitespace, whatever
    its length; if it fails, the result is the detailed prompt itself
    when that has at most 800 characters, else its first 800 characters
    followed by three dots (803 characters), and one ERROR line is
    logged. Such a fallback passes the 999-character cut of the
    outpainting request unchanged. *)
Theorem create_dalle_prompt_never_raises (detailed_prompt : string) (w : world) :
  exists r w',
    dalle_prompt detailed_prompt w = (Returned r, w')
    /\ files w' = files w /\ heap w' = heap w
    /\ api_calls w' = S (api_calls w)
    /\ match responses_create (api_calls w) GPT_MODEL (dalle_llm_prompt detailed_prompt) with
       | Returned reply => r = strip reply
       | Raised e =>
           r = truncated detailed_prompt
           /\ String.length r <= 803
           /\ (String.length detailed_prompt <= 800 -> r = detailed_prompt)
           /\ (800 < String.length detailed_prompt ->
               String.length r = 803 /\ take 800 r = take 800 detailed_prompt)
           /\ take 999 r = r
           /\ In (ERROR, "Failed to create DALL-E prompt: " +:+ exn_str e) (log w')
       end.
Proof.
  unfold create_dalle_prompt. fold (truncated detailed_prompt).
  unfold bind at 1. unfold logger at 1. unfold try_except. unfold bind at 1.
  unfold call_responses at 1. cbn [api_calls with_log].
  destruct (responses_create (api_calls w) GPT_MODEL (dalle_llm_prompt detailed_prompt))
    as [reply|e].
  - eexists _, _. split; [reflexivity|]. cbn [files heap api_calls with_log count_call].
    repeat split; reflexivity.
  - eexists _, _. split; [reflexivity|].
    cbn [files heap api_calls log with_log count_call is_exception].
    destruct (truncated_spec detailed_prompt) as (Hlen & Hshort & Hlong).
    split; [reflexivity|]. split; [reflexivity|]. split; [reflexivity|].
    split; [reflexivity|]. split; [exact Hlen|]. split; [exact Hshort|].
    split; [exact Hlong|]. split; [apply take_all; lia|].
    apply in_or_app. right. left. reflexivity.
Qed.

(** X27. For a brief that is a mapping, [create_campaign_prompt_with_llm]
    never raises and makes exactly one request: the result is the reply
    stripped of surrounding whitespace, or, if the request fails, the
    fixed default scene prompt. The request is built from the six keys
    region, market, audience, message, product and asset only (each "Not
    specified" when missing): briefs that agree on them get the same
    outcome. A brief that is not a mapping raises [AttributeError]
    before any request. *)
Theorem create_campaign_prompt_falls_back (fields : dict) (w : world) :
  (exists r w',
      scene_prompt (YDict fields) w = (Returned r, w')
      /\ files w' = files w /\ heap w' = heap w
      /\ api_calls w' = S (api_calls w)
      /\ match responses_create (api_calls w) GPT_MODEL (campaign_llm_prompt fields) with
         | Returned reply => r = strip reply
         | Raised e =>
             r = default_scene_prompt
             /\ In (ERROR, "Failed to generate prompt with GPT-5: " +:+ exn_str e) (log w')
         end)
  /\ (forall fields',
        (forall key, In key ["region"; "market"; "audience"; "message"; "product"; "asset"] ->
                     dict_get key fields' = dict_get key fields) ->
        scene_prompt (YDict fields') w = scene_prompt (YDict fields) w)
  /\ (forall brief,
        not_mapping brief = true ->
        scene_prompt brief w
        = (Raised AttributeError,
           with_log (log w ++ [(INFO, "Generating prompt with GPT-5...")])%list w)).
Proof.
  split; [|split].
  - unfold create_campaign_prompt_with_llm.
    unfold bind at 1. unfold logger at 1. unfold bind at 1. unfold ret at 1.
    unfold try_except. unfold bind at 1. unfold call_responses at 1.
    cbn [api_calls with_log].
    destruct (responses_create (api_calls w) GPT_MODEL (campaign_llm_prompt fields))
      as [reply|e].
    + eexists _, _. split; [reflexivity|]. cbn [files heap api_calls with_log count_call].
      repeat split; reflexivity.
    + eexists _, _. split; [reflexivity|].
      cbn [files heap api_calls log with_log count_call is_exception].
      repeat split; try reflexivity.
      apply in_or_app. left. apply in_or_app. right. left. reflexivity.
  - intros fields' Hsame.
    assert (Hprompt : campaign_llm_prompt fields' = campaign_llm_prompt fields).
    { unfold campaign_llm_prompt, field.
      rewrite !Hsame by (cbn; tauto). reflexivity. }
    unfold create_campaign_prompt_with_llm. rewrite Hprompt. reflexivity.
  - intros brief Hbrief. destruct brief; try discriminate Hbrief; reflexivity.
Qed.

End Model.

Lemma translate_message_leaves_english_and_blank_witness :
  _translate_message (fun _ _ _ => Raised (APIError "no service")) (Returned tt)
    "Stay fresh" "ENGLISH" (empty_disk 0)
  = (Returned "Stay fresh", empty_disk 0).
Proof.
  apply translate_message_leaves_english_and_blank. left. reflexivity.
Defined.


Lemma create_dalle_prompt_never_raises_witness :
  exists w',
    create_dalle_prompt (fun _ _ _ => Raised (APIError "rate limit reached"))
      "a bottle on a beach" (empty_disk 0)
    = (Returned "a bottle on a beach", w').
Proof.
  destruct (create_dalle_prompt_never_raises
              (fun _ _ _ => Raised (APIError "rate limit reached"))
              "a bottle on a beach" (empty_disk 0))
    as (r & w' & Hrun & _ & _ & _ & _ & _ & Hshort & _).
  exists w'. rewrite Hrun, Hshort; [reflexivity | cbn; lia].
Defined.

Lemma create_campaign_prompt_falls_back_witness :
  fst (create_campaign_prompt_with_llm (fun _ _ _ => Raised (APIError "rate limit reached"))
         (YDict [("message", YStr "Hello")]) (empty_disk 0))
  = Returned default_scene_prompt.
Proof.
  destruct (create_campaign_prompt_falls_back
              (fun _ _ _ => Raised (APIError "rate limit reached"))
              [("message", YStr "Hello")] (empty_disk 0))
    as [(r & w' & Hrun & _ & _ & _ & Hr & _) _].
  rewrite Hrun, Hr. reflexivity.
Defined.

End LlmFacts.


(** ** The lock mask of an asset *)

Module LockMaskFacts.
Import PyStr Yaml Img Effects ImageProcessing Canvas LockMask Folders Outcome Fixtures.
Import PyStrFacts OutcomeFacts PathFacts.

Lemma path_parts_name (n : string) :
  all_chars (fun c => negb (is_slash c)) n = true -> path_parts n = ("", n).
Proof.
  induction n as [|c n IH]; [reflexivity|]. cbn [all_chars path_parts].
  intros [Hc Hn]%andb_prop. rewrite (IH Hn). apply negb_true_iff in Hc. rewrite Hc.
  reflexivity.
Qed.

Lemma path_parts_append (d r : string) (n : string) :
  all_chars (fun c => negb (is_slash c)) n = true ->
  path_parts (d +:+ "/" +:+ n) = (d +:+ "/", n).
Proof.
  intros Hn. induction d as [|c d IH].
  - change ("" +:+ "/" +:+ n) with (String "/" n). change ("" +:+ "/") with "/".
    cbn [path_parts]. rewrite (path_parts_name n Hn). reflexivity.
  - change (String c d +:+ "/" +:+ n) with (String c (d +:+ "/" +:+ n)).
    change (String c d +:+ "/") with (String c (d +:+ "/")).
    cbn [path_parts]. rewrite IH.
    destruct (d +:+ "/") eqn:E.
    + destruct d; rewrite ?app_empty, ?app_String in E; discriminate E.
    + rewrite orb_true_r. reflexivity.
Qed.

Lemma rsplit_dot_none (s : string) :
  all_chars (fun c => negb (is_dot c)) s = true -> rsplit_dot s = None.
Proof.
  induction s as [|c s IH]; [reflexivity|]. cbn [all_chars rsplit_dot].
  intros [Hc Hs]%andb_prop. rewrite (IH Hs). apply negb_true_iff in Hc. rewrite Hc.
  reflexivity.
Qed.

Lemma rsplit_dot_suffix (base ext : string) :
  all_chars (fun c => negb (is_dot c)) ext = true ->
  rsplit_dot (base +:+ "." +:+ ext) = Some (base, ext).
Proof.
  intros Hext. induction base as [|c base IH].
  - change ("" +:+ "." +:+ ext) with (String "." ext). cbn [rsplit_dot].
    rewrite (rsplit_dot_none ext Hext). reflexivity.
  - change (String c base +:+ "." +:+ ext) with (String c (base +:+ "." +:+ ext)).
    cbn [rsplit_dot]. rewrite IH. reflexivity.
Qed.

Lemma all_chars_app (P : ascii -> bool) (a b : string) :
  all_chars P (a +:+ b) = all_chars P a && all_chars P b.
Proof.
  induction a as [|c a IH]; [rewrite app_empty; reflexivity|].
  rewrite app_String. cbn [all_chars]. rewrite IH. apply andb_assoc.
Qed.

(** The mask's path for an asset [dir/base.ext]. *)
Lemma mask_path (dir base ext : string) (w : world) :
  file_name base = true -> file_name ext = true ->
  all_chars (fun c => negb (is_dot c)) ext = true ->
  with_name (dir </> (base +:+ "." +:+ ext))
    (stem (dir </> (base +:+ "." +:+ ext)) +:+ "_mask.png") w
  = (Returned (dir </> (base +:+ "_mask.png")), w).
Proof.
  unfold file_name. intros [Hb Hbs]%andb_prop [He Hes]%andb_prop Hed.
  assert (Hname : all_chars (fun c => negb (is_slash c)) (base +:+ "." +:+ ext) = true).
  { rewrite !all_chars_app, Hbs, Hes. reflexivity. }
  unfold with_name, stem, path_join.
  rewrite (path_parts_append dir "" _ Hname). cbn [fst snd].
  rewrite (rsplit_dot_suffix base ext Hed).
  apply negb_true_iff in Hb, He. rewrite Hb, He. cbn [orb].
  destruct (base +:+ "." +:+ ext) eqn:E.
  - destruct base; rewrite ?app_empty, ?app_String in E; discriminate E.
  - cbn [String.eqb]. unfold ret. f_equal. f_equal.
    clear. induction dir as [|c d IH]; [reflexivity|].
    rewrite !app_String. f_equal. exact IH.
Qed.


Lemma max_of_flags {A} (P : A -> bool) (l : list A) :
  fold_right Z.max 0%Z (map (fun d => if P d then 255 else 0)%Z l)
  = (if existsb P l then 255 else 0)%Z.
Proof.
  induction l as [|a l IH]; [reflexivity|]. cbn [map fold_right existsb]. rewrite IH.
  destruct (P a), (existsb P l); reflexivity.
Qed.

Section Pillow.
Variable convert_pixel : string -> string -> pixel -> pixel.

Local Abbreviation lock_mask := (_make_lock_mask_from_asset convert_pixel).
Local Abbreviation shown := (shows convert_pixel).
Local Abbreviation near := (near_shown convert_pixel).

(** The picture the function computes. *)
Lemma lock_mask_picture (im : image) :
  exists mask,
    paste_fill 0
      (max_filter3 (point (fun v => if (0 <? v)%Z then 255 else 0)%Z
                      (band 3 (convert convert_pixel "RGBA" im))))
      (Img.new "L" (size (convert convert_pixel "RGBA" im)) [255%Z])
    = ret mask
    /\ mode mask = "L" /\ size mask = size im
    /\ forall x y, pixel_at mask x y = if near im x y then [0%Z] else [255%Z].
Proof.
  unfold paste_fill.
  cbn [width height max_filter3 point band convert Img.new size fst snd].
  rewrite !Z.eqb_refl. cbn [andb negb]. eexists. split; [reflexivity|].
  split; [reflexivity|]. split; [reflexivity|].
  intros x y. unfold near_shown, shows.
  cbn [pixel_at max_filter3 point band convert Img.new width height mode].
  unfold value.
  cbn [pixel_at max_filter3 point band convert Img.new width height mode nth].
  unfold value.
  cbn [pixel_at max_filter3 point band convert Img.new width height mode nth].
  unfold value.
  cbn [pixel_at max_filter3 point band convert Img.new width height mode nth].
  rewrite (max_of_flags
             (fun d => (0 <? nth 3 (convert_pixel (mode im) "RGBA"
                                      (pixel_at im (clamp (width im) (x + fst d))
                                                   (clamp (height im) (y + snd d)))) 0)%Z)
             offsets).
  destruct (existsb _ offsets); reflexivity.
Qed.

(** X28. For an asset [dir/base.ext] that opens as a picture,
    [_make_lock_mask_from_asset] returns a mask of mode L and of the
    asset's size that is 0 (preserve) at every pixel whose 3x3 window
    holds a pixel of the asset with alpha above 0, and 255 (edit)
    everywhere else: every visible pixel of the asset, however faint,
    and every pixel next to one is preserved. The mask is also saved next
    to the asset as [dir/base_mask.png]; nothing else changes on disk
    and no request is made. *)
Theorem lock_mask_preserves_shown_pixels (dir base ext : string) (im : image) (w : world) :
  normal dir = true ->
  file_name base = true -> file_name ext = true ->
  all_chars (fun c => negb (is_dot c)) ext = true ->
  files w !! (dir </> (base +:+ "." +:+ ext)) = Some (File (PngImage im)) ->
  files w !! (dir </> (base +:+ "_mask.png")) <> Some Dir ->
  exists mask w',
    lock_mask (dir </> (base +:+ "." +:+ ext)) w = (Returned mask, w')
    /\ files w' = <[dir </> (base +:+ "_mask.png") := File (PngImage mask)]> (files w)
    /\ heap w' = heap w /\ api_calls w' = api_calls w
    /\ mode mask = "L" /\ size mask = size im
    /\ (forall x y, pixel_at mask x y = if near im x y then [0%Z] else [255%Z])
    /\ (forall x y, inside im x y = true -> shown im x y = true ->
                    pixel_at mask x y = [0%Z]).
Proof.
  intros _ Hbase Hext Hdot Hfile Hfree.
  destruct (lock_mask_picture im) as (mask & Hpaste & Hmode & Hsize & Hpix).
  exists mask. unfold _make_lock_mask_from_asset, try_except.
  unfold bind at 1. unfold open_image at 1. rewrite Hfile.
  unfold bind at 1. rewrite Hpaste. unfold ret at 1.
  change Config.SAVE_MASK with true. cbn iota.
  unfold bind at 1. unfold bind at 1. rewrite (mask_path dir base ext w Hbase Hext Hdot).
  unfold bind at 1. unfold save. rewrite (write_file_free _ _ _ Hfree).
  unfold logger, ret. eexists. split; [reflexivity|].
  cbn [files heap api_calls with_log with_files].
  split; [reflexivity|]. split; [reflexivity|]. split; [reflexivity|].
  split; [exact Hmode|]. split; [exact Hsize|]. split; [exact Hpix|].
  intros x y Hin Hshown. rewrite Hpix.
  assert (Hnear : near im x y = true).
  { unfold near_shown. apply existsb_exists. exists (0, 0)%Z.
    split; [cbn; tauto|]. cbn [fst snd]. rewrite !Z.add_0_r.
    unfold inside in Hin. unfold clamp.
    replace (Z.max 0 (Z.min (width im - 1) x)) with x by lia.
    replace (Z.max 0 (Z.min (height im - 1) y)) with y by lia.
    exact Hshown. }
  rewrite Hnear. reflexivity.
Qed.

(** X29. When the asset cannot be opened (no such file, a directory, a
    file that is no picture), [_make_lock_mask_from_asset] logs the
    failure at ERROR and raises the same exception again; it writes
    nothing. *)
Theorem lock_mask_reraises (asset_path : string) (w : world) :
  (forall im, files w !! asset_path <> Some (File (PngImage im))) ->
  exists e,
    lock_mask asset_path w
    = (Raised e,
       with_log (log w ++ [(ERROR, "Failed to create lock mask: " +:+ exn_str e)])%list w)
    /\ e = match files w !! asset_path with
           | None => FileNotFoundError asset_path
           | Some Dir => IsADirectoryError asset_path
           | Some (File _) => UnidentifiedImageError
           end.
Proof.
  intros Hno. unfold _make_lock_mask_from_asset, try_except.
  unfold bind at 1. unfold open_image at 1.
  destruct (files w !! asset_path) as [[|[doc|im]]|] eqn:E.
  - eexists. split; reflexivity.
  - eexists. split; reflexivity.
  - destruct (Hno im eq_refl).
  - eexists. split; reflexivity.
Qed.

End Pillow.

Lemma lock_mask_preserves_shown_pixels_witness :
  exists mask w',
    _make_lock_mask_from_asset (fun _ _ p => p) "campaigns/c1/assets/bottle.png"
      (disk [("campaigns/c1/assets/bottle.png",
              File (PngImage (Img.new "RGBA" (4, 4)%Z [10; 20; 30; 1]%Z)))])
    = (Returned mask, w')
    /\ is_Some (files w' !! "campaigns/c1/assets/bottle_mask.png")
    /\ pixel_at mask 2 2 = [0%Z].
Proof.
  destruct (lock_mask_preserves_shown_pixels (fun _ _ p => p) "campaigns/c1/assets" "bottle"
              "png" (Img.new "RGBA" (4, 4)%Z [10; 20; 30; 1]%Z)
              (disk [("campaigns/c1/assets/bottle.png",
                      File (PngImage (Img.new "RGBA" (4, 4)%Z [10; 20; 30; 1]%Z)))]))
    as (mask & w' & Hrun & Hfiles & _ & _ & _ & _ & _ & Hshown);
    [reflexivity | reflexivity | reflexivity | reflexivity | reflexivity | discriminate |].
  exists mask, w'. split; [exact Hrun|]. split.
  - rewrite Hfiles.
    change "campaigns/c1/assets/bottle_mask.png"
      with ("campaigns/c1/assets" </> ("bottle" +:+ "_mask.png")).
    rewrite lookup_insert_eq. eexists. reflexivity.
  - apply Hshown; reflexivity.
Defined.

Lemma lock_mask_reraises_witness :
  fst (_make_lock_mask_from_asset (fun _ _ p => p) "campaigns/c1/assets/bottle.png"
         (empty_disk 0))
  = Raised (FileNotFoundError "campaigns/c1/assets/bottle.png").
Proof.
  destruct (lock_mask_reraises (fun _ _ p => p) "campaigns/c1/assets/bottle.png"
              (empty_disk 0)) as (e & Hrun & He); [intros im; discriminate|].
  rewrite Hrun, He. reflexivity.
Defined.

End LockMaskFacts.
